(** * Finit service supervisor: a model of service.c and plugin.c

    The development embeds the service state machine of [src/service.c]
    (timers, start/stop/kill, the crash-retry callback and the
    [service_step] driver), the [kill:] directive parser and the plugin
    registry and hook dispatcher of [src/plugin.c].

    Conventions of the embedding:
    - a [svc_t *] argument becomes the state of a small state monad; the
      calls the code makes into the operating system and into the parts of
      finit that live in other files (libuev timers, [kill], [fork],
      [logit], the condition store, ...) are recorded, in program order, in
      the list of events a computation returns;
    - what those calls answer is read from an oracle record [env], fixed
      for the duration of one call from the event loop;
    - [_d()] debug traces are not recorded;
    - [service_step] contains [goto restart] and may be re-entered through
      [service_restart] -> [service_monitor]; it is defined by recursion on
      a fuel argument, and [None] stands for "has not returned yet". *)

From Stdlib Require Import ZArith List String Ascii Bool Lia.
Import ListNotations.
Local Open Scope string_scope.
Local Open Scope Z_scope.
Local Open Scope list_scope.

(** ** Machine integers *)

(** Two's complement wrap-around of a signed [w]-bit integer. *)
Definition wrap_signed (w : Z) (z : Z) : Z :=
  (z + 2 ^ (w - 1)) mod 2 ^ w - 2 ^ (w - 1).

(** [c++] on a [char] (signed, 8 bits) and on an [int]. *)
Definition char_incr (c : Z) : Z := wrap_signed 8 (c + 1).
Definition int_incr (i : Z) : Z := wrap_signed 32 (i + 1).

(** <sys/wait.h> *)
Definition WEXITSTATUS (st : Z) : Z := Z.shiftr (Z.land st 65280) 8.
Definition WIFEXITED (st : Z) : bool := Z.land st 127 =? 0.

Arguments wrap_signed : simpl never.
Arguments char_incr : simpl never.
Arguments int_incr : simpl never.
Arguments WEXITSTATUS : simpl never.
Arguments WIFEXITED : simpl never.

(** <signal.h>, Linux numbering. *)
Definition SIGHUP : Z := 1.
Definition SIGKILL : Z := 9.
Definition SIGCONT : Z := 18.
Definition SIGSTOP : Z := 19.

(** ** The monad of the model

    A computation reads and updates a state [St], may run out of fuel,
    and returns the events it produced, oldest first. *)

Definition Mon (St Ev A : Type) : Type := St -> option (A * St * list Ev).

Definition ret {St Ev A} (a : A) : Mon St Ev A := fun s => Some (a, s, []).

Definition bind {St Ev A B} (m : Mon St Ev A) (f : A -> Mon St Ev B)
  : Mon St Ev B :=
  fun s =>
    match m s with
    | None => None
    | Some (a, s1, l1) =>
        match f a s1 with
        | None => None
        | Some (b, s2, l2) => Some (b, s2, l1 ++ l2)
        end
    end.

Notation "x <- c1 ;; c2" := (bind c1 (fun x => c2))
  (at level 61, c1 at next level, right associativity).
Notation "c1 ;; c2" := (bind c1 (fun _ => c2))
  (at level 61, right associativity).

Definition get {St Ev} : Mon St Ev St := fun s => Some (s, s, []).
Definition modify {St Ev} (f : St -> St) : Mon St Ev unit :=
  fun s => Some (tt, f s, []).
Definition emit {St Ev} (ev : Ev) : Mon St Ev unit :=
  fun s => Some (tt, s, [ev]).
Definition out_of_fuel {St Ev A} : Mon St Ev A := fun _ => None.
Definition when {St Ev} (b : bool) (m : Mon St Ev unit) : Mon St Ev unit :=
  if b then m else ret tt.

Module Service.

(** ** Data model (svc.h, cond.h) *)

(** Modelled from the spec: svc.h is not part of the sources.  The kinds
    of service are those of the data model; the code names
    [SVC_TYPE_SERVICE], [SVC_TYPE_TASK], [SVC_TYPE_RUN], [SVC_TYPE_SYSV]
    and [SVC_TYPE_TTY]. *)
Inductive svc_type_t : Type :=
| SVC_TYPE_SERVICE
| SVC_TYPE_TASK
| SVC_TYPE_RUN
| SVC_TYPE_SYSV
| SVC_TYPE_TTY
| SVC_TYPE_INETD.

(** A type mask, as passed to [service_step_all]. *)
Definition svc_type_mask : Type := list svc_type_t.

(** Modelled from the spec: the mask macro of svc.h is missing.  In
    [service_step] a job for which [svc_is_runtask] holds may still be a
    SysV script, so the mask covers the three one-shot kinds. *)
Definition SVC_TYPE_RUNTASK : svc_type_mask :=
  [SVC_TYPE_RUN; SVC_TYPE_TASK; SVC_TYPE_SYSV].

Definition svc_type_eqb (a b : svc_type_t) : bool :=
  match a, b with
  | SVC_TYPE_SERVICE, SVC_TYPE_SERVICE | SVC_TYPE_TASK, SVC_TYPE_TASK
  | SVC_TYPE_RUN, SVC_TYPE_RUN | SVC_TYPE_SYSV, SVC_TYPE_SYSV
  | SVC_TYPE_TTY, SVC_TYPE_TTY | SVC_TYPE_INETD, SVC_TYPE_INETD => true
  | _, _ => false
  end.

Definition in_mask (t : svc_type_t) (m : svc_type_mask) : bool :=
  existsb (svc_type_eqb t) m.

(** The six states of the machine. *)
Inductive svc_state_t : Type :=
| SVC_HALTED_STATE
| SVC_DONE_STATE
| SVC_STOPPING_STATE
| SVC_WAITING_STATE
| SVC_READY_STATE
| SVC_RUNNING_STATE.

(** Modelled from the spec: the enumeration values of svc.h are missing.
    [service_stop] compares states with [<=]; the states in which nothing
    is left to stop (halted, done, stopping) are the low ones, the states
    from which [service_step] calls [service_stop] are above them. *)
Definition state_rank (st : svc_state_t) : Z :=
  match st with
  | SVC_HALTED_STATE => 0
  | SVC_DONE_STATE => 1
  | SVC_STOPPING_STATE => 2
  | SVC_WAITING_STATE => 3
  | SVC_READY_STATE => 4
  | SVC_RUNNING_STATE => 5
  end.

Definition svc_state_eqb (a b : svc_state_t) : bool :=
  state_rank a =? state_rank b.

Inductive svc_block_t : Type :=
| SVC_BLOCK_NONE
| SVC_BLOCK_MISSING
| SVC_BLOCK_CRASHING
| SVC_BLOCK_USER
| SVC_BLOCK_RESTARTING.

Definition svc_block_eqb (a b : svc_block_t) : bool :=
  match a, b with
  | SVC_BLOCK_NONE, SVC_BLOCK_NONE | SVC_BLOCK_MISSING, SVC_BLOCK_MISSING
  | SVC_BLOCK_CRASHING, SVC_BLOCK_CRASHING | SVC_BLOCK_USER, SVC_BLOCK_USER
  | SVC_BLOCK_RESTARTING, SVC_BLOCK_RESTARTING => true
  | _, _ => false
  end.

Inductive cond_state_t : Type := COND_OFF | COND_FLUX | COND_ON.

(** The two functions the code ever stores in [svc->timer_cb]. *)
Inductive timer_cb_t : Type := cb_service_kill | cb_service_retry.

Record svc_t : Type := mk_svc {
  type : svc_type_t;
  state : svc_state_t;
  pid : Z;
  oldpid : Z;
  start_time : Z;
  status : Z;
  once : Z;
  restart_cnt : Z;
  timer_cb : option timer_cb_t;
  dirty : bool;
  block : svc_block_t;
  started : bool;
  starting : bool;
  forking : bool;
  killdelay : Z;
  sighalt : Z;
  sighup : bool;
  args_dirty : bool;
  runlevels : Z;
  cmd : string;
  name : string;
  desc : string
}.

Definition set_state (v : svc_state_t) (s : svc_t) : svc_t :=
  mk_svc (type s) v (pid s) (oldpid s) (start_time s) (status s) (once s)
    (restart_cnt s) (timer_cb s) (dirty s) (block s) (started s)
    (starting s) (forking s) (killdelay s) (sighalt s) (sighup s)
    (args_dirty s) (runlevels s) (cmd s) (name s) (desc s).

Definition set_pid (v : Z) (s : svc_t) : svc_t :=
  mk_svc (type s) (state s) v (oldpid s) (start_time s) (status s) (once s)
    (restart_cnt s) (timer_cb s) (dirty s) (block s) (started s)
    (starting s) (forking s) (killdelay s) (sighalt s) (sighup s)
    (args_dirty s) (runlevels s) (cmd s) (name s) (desc s).

Definition set_oldpid (v : Z) (s : svc_t) : svc_t :=
  mk_svc (type s) (state s) (pid s) v (start_time s) (status s) (once s)
    (restart_cnt s) (timer_cb s) (dirty s) (block s) (started s)
    (starting s) (forking s) (killdelay s) (sighalt s) (sighup s)
    (args_dirty s) (runlevels s) (cmd s) (name s) (desc s).

Definition set_start_time (v : Z) (s : svc_t) : svc_t :=
  mk_svc (type s) (state s) (pid s) (oldpid s) v (status s) (once s)
    (restart_cnt s) (timer_cb s) (dirty s) (block s) (started s)
    (starting s) (forking s) (killdelay s) (sighalt s) (sighup s)
    (args_dirty s) (runlevels s) (cmd s) (name s) (desc s).

Definition set_status (v : Z) (s : svc_t) : svc_t :=
  mk_svc (type s) (state s) (pid s) (oldpid s) (start_time s) v (once s)
    (restart_cnt s) (timer_cb s) (dirty s) (block s) (started s)
    (starting s) (forking s) (killdelay s) (sighalt s) (sighup s)
    (args_dirty s) (runlevels s) (cmd s) (name s) (desc s).

Definition set_once (v : Z) (s : svc_t) : svc_t :=
  mk_svc (type s) (state s) (pid s) (oldpid s) (start_time s) (status s) v
    (restart_cnt s) (timer_cb s) (dirty s) (block s) (started s)
    (starting s) (forking s) (killdelay s) (sighalt s) (sighup s)
    (args_dirty s) (runlevels s) (cmd s) (name s) (desc s).

Definition set_restart_cnt (v : Z) (s : svc_t) : svc_t :=
  mk_svc (type s) (state s) (pid s) (oldpid s) (start_time s) (status s)
    (once s) v (timer_cb s) (dirty s) (block s) (started s) (starting s)
    (forking s) (killdelay s) (sighalt s) (sighup s) (args_dirty s)
    (runlevels s) (cmd s) (name s) (desc s).

Definition set_timer_cb (v : option timer_cb_t) (s : svc_t) : svc_t :=
  mk_svc (type s) (state s) (pid s) (oldpid s) (start_time s) (status s)
    (once s) (restart_cnt s) v (dirty s) (block s) (started s) (starting s)
    (forking s) (killdelay s) (sighalt s) (sighup s) (args_dirty s)
    (runlevels s) (cmd s) (name s) (desc s).

Definition set_dirty (v : bool) (s : svc_t) : svc_t :=
  mk_svc (type s) (state s) (pid s) (oldpid s) (start_time s) (status s)
    (once s) (restart_cnt s) (timer_cb s) v (block s) (started s)
    (starting s) (forking s) (killdelay s) (sighalt s) (sighup s)
    (args_dirty s) (runlevels s) (cmd s) (name s) (desc s).

Definition set_block (v : svc_block_t) (s : svc_t) : svc_t :=
  mk_svc (type s) (state s) (pid s) (oldpid s) (start_time s) (status s)
    (once s) (restart_cnt s) (timer_cb s) (dirty s) v (started s)
    (starting s) (forking s) (killdelay s) (sighalt s) (sighup s)
    (args_dirty s) (runlevels s) (cmd s) (name s) (desc s).

Definition set_started (v : bool) (s : svc_t) : svc_t :=
  mk_svc (type s) (state s) (pid s) (oldpid s) (start_time s) (status s)
    (once s) (restart_cnt s) (timer_cb s) (dirty s) (block s) v (starting s)
    (forking s) (killdelay s) (sighalt s) (sighup s) (args_dirty s)
    (runlevels s) (cmd s) (name s) (desc s).

Definition set_starting (v : bool) (s : svc_t) : svc_t :=
  mk_svc (type s) (state s) (pid s) (oldpid s) (start_time s) (status s)
    (once s) (restart_cnt s) (timer_cb s) (dirty s) (block s) (started s) v
    (forking s) (killdelay s) (sighalt s) (sighup s) (args_dirty s)
    (runlevels s) (cmd s) (name s) (desc s).

Definition set_killdelay (v : Z) (s : svc_t) : svc_t :=
  mk_svc (type s) (state s) (pid s) (oldpid s) (start_time s) (status s)
    (once s) (restart_cnt s) (timer_cb s) (dirty s) (block s) (started s)
    (starting s) (forking s) v (sighalt s) (sighup s) (args_dirty s)
    (runlevels s) (cmd s) (name s) (desc s).

(* Updating a record given by its fields yields its fields. *)
Arguments set_state v !s /.
Arguments set_pid v !s /.
Arguments set_oldpid v !s /.
Arguments set_start_time v !s /.
Arguments set_status v !s /.
Arguments set_once v !s /.
Arguments set_restart_cnt v !s /.
Arguments set_timer_cb v !s /.
Arguments set_dirty v !s /.
Arguments set_block v !s /.
Arguments set_started v !s /.
Arguments set_starting v !s /.
Arguments set_killdelay v !s /.

(** ** Events and oracles *)

Inductive loglevel : Type :=
| LOG_CRIT | LOG_ERR | LOG_WARNING | LOG_NOTICE | LOG_INFO.

Inductive kill_result : Type := KILL_OK | KILL_ESRCH | KILL_EPERM.

Inductive remove_result : Type := REMOVE_OK | REMOVE_ENOENT | REMOVE_EIO.

(** What runs in a forked child; the child never returns to the caller. *)
Inductive child_t : Type :=
| child_start        (* the [pid == 0] branch of service_start *)
| child_sysv_stop.   (* redirect(); exec_runtask(cmd, { cmd, "stop" }) *)

(** The deferred work items of this file. *)
Inductive work_t : Type := work_service_worker.

Inductive event : Type :=
| EvTimerInit (timeout : Z) (cb : timer_cb_t)
| EvTimerStop
| EvKill (pid : Z) (sig : Z)
| EvLogit (console : bool) (lvl : loglevel) (fmt : string)
| EvError (fmt : string)                       (* _e() and _pe() *)
| EvPrintDesc (action : string) (desc : string)
| EvPrintResult (rc : Z)
| EvPrint (rc : Z)
| EvSigBlock
| EvSigRestore
| EvFork (child : child_t)
| EvComplete (cmd : string) (pid : Z)
| EvCgroupService (pid : Z)
| EvPidFileCreate
| EvRemove (fn : string)
| EvTouch (fn : option string)
| EvSchedYield
| EvCondClear (cond : string)
| EvCondSetPath (cond : string) (st : cond_state_t)
| EvScheduleWork (w : work_t)
| EvStepAll (types : svc_type_mask)
| EvCleanBootstrap
| EvSmStep.

Record env : Type := mk_env {
  runlevel : Z;                         (* the global of finit.c *)
  cond_get_agg : cond_state_t;          (* cond_get_agg(svc->cond) *)
  sm_is_in_teardown : bool;
  sig_stopped : bool;
  fexist : string -> bool;
  whichp : string -> bool;
  svc_checkenv : bool;
  fork : Z;                             (* fork(), seen from the parent *)
  complete : Z;                         (* wait status of complete() *)
  jiffies : Z;
  kill : Z -> Z -> kill_result;
  pid_file : option string;             (* pid_file(svc), NULL = None *)
  remove : string -> remove_result;
  svc_has_pidfile : bool;
  uev_timer_init : Z;
  uev_timer_stop : Z;
  tty_respawn : Z -> bool;
  mkcond : string                       (* the condition svc provides *)
}.

Definition M : Type -> Type := Mon svc_t event.

Definition logit (console : bool) (lvl : loglevel) (fmt : string) : M unit :=
  emit (EvLogit console lvl fmt).

(** ** Helpers of svc.h *)

Definition svc_is_daemon (s : svc_t) : bool := svc_type_eqb (type s) SVC_TYPE_SERVICE.
Definition svc_is_sysv (s : svc_t) : bool := svc_type_eqb (type s) SVC_TYPE_SYSV.
Definition svc_is_runtask (s : svc_t) : bool := in_mask (type s) SVC_TYPE_RUNTASK.

Definition svc_in_runlevel (s : svc_t) (lvl : Z) : bool := Z.testbit (runlevels s) lvl.
Definition svc_is_blocked (s : svc_t) : bool := negb (svc_block_eqb (block s) SVC_BLOCK_NONE).
Definition svc_is_missing (s : svc_t) : bool := svc_block_eqb (block s) SVC_BLOCK_MISSING.
Definition svc_is_changed (s : svc_t) : bool := dirty s.
Definition svc_is_starting (s : svc_t) : bool := starting s.
Definition svc_is_forking (s : svc_t) : bool := forking s.
Definition svc_nohup (s : svc_t) : bool := negb (sighup s) || args_dirty s.

Definition svc_unblock : M unit := modify (set_block SVC_BLOCK_NONE).
Definition svc_missing : M unit := modify (set_block SVC_BLOCK_MISSING).
Definition svc_crashing : M unit := modify (set_block SVC_BLOCK_CRASHING).
Definition svc_restarting : M unit := modify (set_block SVC_BLOCK_RESTARTING).
Definition svc_starting : M unit := modify (set_starting true).
Definition svc_mark_clean : M unit := modify (set_dirty false).
Definition svc_mark_dirty : M unit := modify (set_dirty true).

Section WithEnv.
Variable SVC_RESPAWN_MAX : Z.
Variable SYNC_SHUTDOWN : string.
Variable e : env.

(** Modelled from the spec: svc_enabled() is defined in svc.c, which is
    missing.  A service is enabled when the current runlevel is one of its
    runlevels and it is not stopped by the user, missing or crashing.  The
    block it carries while it waits for [service_retry] after a crash
    (set by svc_restarting(), tested by service_retry()) disables it as
    well. *)
Definition svc_enabled (s : svc_t) : bool :=
  svc_in_runlevel s (runlevel e) && negb (svc_is_blocked s).

(** ** Timers *)

Definition EBUSY : Z := 16.

Definition service_timeout_after (timeout : Z) (cb : timer_cb_t) : M Z :=
  s <- get ;;
  match timer_cb s with
  | Some _ => ret (- EBUSY)
  | None =>
      modify (set_timer_cb (Some cb)) ;;
      emit (EvTimerInit timeout cb) ;;
      ret (uev_timer_init e)
  end.

Definition service_timeout_cancel : M Z :=
  s <- get ;;
  match timer_cb s with
  | None => ret 0
  | Some _ =>
      emit EvTimerStop ;;
      modify (set_timer_cb None) ;;
      ret (uev_timer_stop e)
  end.

(** ** Forced termination and clean-up *)

Definition service_kill : M unit :=
  service_timeout_cancel ;;
  s <- get ;;
  if pid s <=? 1 then
    (* Avoid killing ourselves or all processes ... *)
    ret tt
  else
    logit true LOG_NOTICE "Stopping %s[%d], sending SIGKILL ..." ;;
    when (negb (runlevel e =? 1)) (emit (EvPrintDesc "Killing " (desc s))) ;;
    emit (EvKill (- pid s) SIGKILL) ;;
    (* Let SIGKILLs stand out, show result as [WARN] *)
    when (negb (runlevel e =? 1)) (emit (EvPrint 2)).

Definition service_cleanup : M unit :=
  match pid_file e with
  | Some fn =>
      emit (EvRemove fn) ;;
      match remove e fn with
      | REMOVE_EIO => logit false LOG_CRIT "Failed removing service %s pidfile %s"
      | _ => ret tt
      end
  | None => ret tt
  end ;;
  (* No longer running, update books. *)
  s <- get ;;
  modify (set_oldpid (pid s)) ;;
  modify (set_pid 0) ;;
  modify (set_start_time 0).

Definition svc_set_state (new : svc_state_t) : M unit :=
  modify (set_state new) ;;
  (* if PID isn't collected within SVC_TERM_TIMEOUT msec, kill it! *)
  s <- get ;;
  if svc_state_eqb (state s) SVC_STOPPING_STATE then
    service_timeout_cancel ;;
    service_timeout_after (killdelay s) cb_service_kill ;;
    ret tt
  else ret tt.

(** ** Starting and stopping *)

Definition is_norespawn : bool :=
  sig_stopped e || fexist e "/mnt/norespawn" || fexist e "/tmp/norespawn".

Definition string_nonempty (x : string) : bool :=
  match x with EmptyString => false | _ => true end.

(** The parent's side of service_start(); the [pid == 0] branch is the
    child, recorded as [EvFork child_start]. *)
Definition service_start : M Z :=
  if is_norespawn then ret 1 else
  s <- get ;;
  if negb (whichp e (cmd s)) then
    logit false LOG_WARNING "%s: missing or not in $PATH" ;;
    svc_missing ;;
    ret 1
  else if negb (svc_checkenv e) then
    logit false LOG_WARNING "%s: missing env file %s" ;;
    svc_missing ;;
    ret 1
  else
    when (svc_is_sysv s) (logit true LOG_NOTICE "Calling '%s start' ...") ;;
    let do_progress := string_nonempty (desc s) in
    when do_progress
      (if svc_is_daemon s || svc_is_sysv s
       then emit (EvPrintDesc "Starting " (desc s))
       else emit (EvPrintDesc "" (desc s))) ;;
    (* Declare we're waiting for svc to create its pidfile *)
    svc_starting ;;
    emit EvSigBlock ;;
    emit (EvFork child_start) ;;
    let pid := fork e in
    emit (EvCgroupService pid) ;;
    logit true LOG_NOTICE "Starting %s[%d]" ;;
    modify (set_pid pid) ;;
    modify (set_start_time (jiffies e)) ;;
    result <-
      match type s with
      | SVC_TYPE_RUN =>
          emit (EvComplete (cmd s) pid) ;;
          modify (set_status (complete e)) ;;
          s1 <- get ;;
          let result :=
            if WIFEXITED (status s1) && (WEXITSTATUS (status s1) =? 0)
            then 0 else 1 in
          modify (set_pid 0) ;;
          modify (set_start_time 0) ;;
          modify (set_once (int_incr (once s1))) ;;
          svc_set_state SVC_STOPPING_STATE ;;
          ret result
      | SVC_TYPE_SERVICE =>
          emit EvPidFileCreate ;;
          ret 0
      | _ => ret 0
      end ;;
    emit EvSigRestore ;;
    when do_progress (emit (EvPrintResult result)) ;;
    ret result.

Definition kill_rc (r : kill_result) : Z :=
  match r with KILL_OK => 0 | _ => -1 end.

Definition service_stop : M Z :=
  s <- get ;;
  if state_rank (state s) <=? state_rank SVC_STOPPING_STATE then ret 0 else
  service_timeout_cancel ;;
  if negb (svc_is_sysv s) && (pid s <=? 1) then ret 1 else
  (if negb (svc_is_sysv s)
   then logit true LOG_NOTICE "Stopping %s[%d], sending %s ..."
   else logit true LOG_NOTICE "Calling '%s stop' ...") ;;
  svc_set_state SVC_STOPPING_STATE ;;
  when (negb (runlevel e =? 1)) (emit (EvPrintDesc "Stopping " (desc s))) ;;
  rc <-
    (if negb (svc_is_sysv s) then
       if 1 <? pid s then
         (* Kill all children in the same proess group, e.g. logit *)
         emit (EvKill (- pid s) (sighalt s)) ;;
         match kill e (- pid s) (sighalt s) with
         | KILL_ESRCH =>
             (* PID lost or forking process never really started *)
             service_cleanup ;; ret (-1)
         | r => ret (kill_rc r)
         end
       else
         service_cleanup ;; ret 0
     else
       emit (EvFork child_sysv_stop) ;;
       if fork e =? -1 then
         emit (EvError "Failed fork() to call sysv script '%s stop'") ;;
         ret 1
       else
         emit (EvComplete (cmd s) (fork e)) ;;
         ret (WEXITSTATUS (complete e))) ;;
  when (negb (runlevel e =? 1)) (emit (EvPrintResult rc)) ;;
  ret rc.

(** ** Reaping and SIGHUP

    [service_step] is passed in: both functions re-enter the state
    machine. *)
Section Reentrant.
Variable service_step : M Z.

(** svc_find_by_pid() searches the registry of svc.c; with one service in
    view, the reaped pid finds it exactly when it is the recorded pid. *)
Definition service_monitor (lost : Z) (status_ : Z) : M unit :=
  if fexist e SYNC_SHUTDOWN || (lost <=? 1) then ret tt else
  if tty_respawn e lost then ret tt else
  s <- get ;;
  if negb (pid s =? lost) then ret tt else
  modify (set_status status_) ;;
  (* Forking sysv/services declare themselves with pid:!/path/to/pid.file *)
  if svc_is_starting s && svc_is_forking s then ret tt else
  (if svc_is_daemon s then service_cleanup
   else if svc_is_runtask s then
     (* run/task should run at least once per runlevel *)
     modify (set_started (WIFEXITED status_ && (WEXITSTATUS status_ =? 0)))
   else ret tt) ;;
  (* Terminate any children in the same proess group, e.g. logit *)
  s1 <- get ;;
  emit (EvKill (- pid s1) SIGKILL) ;;
  (* No longer running, update books. *)
  modify (set_pid 0) ;;
  modify (set_start_time 0) ;;
  rc <- service_step ;;
  when (rc =? 0) (emit EvCleanBootstrap) ;;
  emit EvSmStep.

Definition service_restart : M Z :=
  if is_norespawn then ret 1 else
  s <- get ;;
  if negb (sighup s) then ret 1 else
  if pid s <=? 1 then
    modify (set_pid 0) ;;
    modify (set_start_time 0) ;;
    ret 1
  else
    (* Skip progress if desc disabled or bootstrap task *)
    let do_progress := string_nonempty (desc s) && negb (svc_in_runlevel s 0) in
    when do_progress (emit (EvPrintDesc "Restarting " (desc s))) ;;
    logit true LOG_NOTICE "Restarting %s[%d], sending SIGHUP ..." ;;
    emit (EvKill (pid s) SIGHUP) ;;
    let r := kill e (pid s) SIGHUP in
    let rc := kill_rc r in
    let lost := match r with KILL_ESRCH => pid s | _ => 0 end in
    match r with
    | KILL_ESRCH => ret tt    (* nobody home, reset internal state machine *)
    | _ =>
        (* Declare we're waiting for svc to re-assert/touch its pidfile *)
        svc_starting ;;
        when (svc_has_pidfile e) (emit EvSchedYield ;; emit (EvTouch (pid_file e)))
    end ;;
    when do_progress (emit (EvPrintResult rc)) ;;
    (if negb (lost =? 0) then service_monitor lost 0 else ret tt) ;;
    ret rc.

(** ** One pass over the [switch] of service_step() *)

Definition step_halted (enabled : bool) : M unit :=
  when enabled (svc_set_state SVC_READY_STATE).

Definition step_done : M unit :=
  s <- get ;;
  when (svc_is_changed s) (svc_set_state SVC_HALTED_STATE).

Definition step_stopping : M unit :=
  s <- get ;;
  if pid s =? 0 then
    (* PID was collected normally, no need to kill it *)
    service_timeout_cancel ;;
    emit (EvCondClear (mkcond e)) ;;
    match type s with
    | SVC_TYPE_SERVICE => svc_set_state SVC_HALTED_STATE
    | SVC_TYPE_TASK | SVC_TYPE_RUN | SVC_TYPE_SYSV => svc_set_state SVC_DONE_STATE
    | _ => emit (EvError "unknown service type %d")
    end
  else ret tt.

Definition step_ready (enabled : bool) : M unit :=
  if negb enabled then svc_set_state SVC_HALTED_STATE
  else
    match cond_get_agg e with
    | COND_ON =>
        (* wait until all processes have been stopped before continuing... *)
        if sm_is_in_teardown e then ret tt else
        err <- service_start ;;
        if negb (err =? 0) then
          s <- get ;;
          if svc_is_missing s then svc_set_state SVC_HALTED_STATE
          else modify (set_restart_cnt (char_incr (restart_cnt s)))
        else
          (* Everything went fine, clean and set state *)
          svc_mark_clean ;;
          svc_set_state SVC_RUNNING_STATE
    | _ => ret tt
    end.

Definition step_running_cond : M unit :=
  s <- get ;;
  match cond_get_agg e with
  | COND_OFF => service_stop ;; ret tt
  | COND_FLUX =>
      emit (EvKill (pid s) SIGSTOP) ;;
      svc_set_state SVC_WAITING_STATE
  | COND_ON =>
      if svc_is_changed s then
        if svc_nohup s then
          service_stop ;; svc_mark_clean
        else
          (* wait until all processes have been stopped before continuing... *)
          if sm_is_in_teardown e then ret tt
          else service_restart ;; svc_mark_clean
      else ret tt
  end.

Definition step_running (enabled : bool) : M unit :=
  if negb enabled then service_stop ;; ret tt else
  s <- get ;;
  if (pid s =? 0) && svc_is_daemon s then
    svc_restarting ;;
    svc_set_state SVC_HALTED_STATE ;;
    (* Restart directly after the first crash, then retry after 2 sec *)
    service_timeout_after 1 cb_service_retry ;;
    ret tt
  else if (pid s =? 0) && svc_is_runtask s then
    (if svc_is_sysv s
     then when (negb (started s)) (svc_set_state SVC_STOPPING_STATE)
     else svc_set_state SVC_STOPPING_STATE) ;;
    s1 <- get ;;
    modify (set_once (int_incr (once s1)))
  else step_running_cond.

Definition step_waiting (enabled : bool) : M unit :=
  s <- get ;;
  if negb enabled then
    emit (EvKill (pid s) SIGCONT) ;;
    service_stop ;;
    ret tt
  else if pid s =? 0 then
    modify (set_restart_cnt (char_incr (restart_cnt s))) ;;
    svc_set_state SVC_READY_STATE
  else
    match cond_get_agg e with
    | COND_ON =>
        emit (EvKill (pid s) SIGCONT) ;;
        svc_set_state SVC_RUNNING_STATE ;;
        (* Reassert condition if we go from waiting and no change *)
        s1 <- get ;;
        when (negb (svc_is_changed s1)) (emit (EvCondSetPath (mkcond e) COND_ON))
    | COND_OFF =>
        emit (EvKill (pid s) SIGCONT) ;;
        service_stop ;;
        ret tt
    | COND_FLUX => ret tt
    end.

Definition step_switch (enabled : bool) : M unit :=
  s <- get ;;
  match state s with
  | SVC_HALTED_STATE => step_halted enabled
  | SVC_DONE_STATE => step_done
  | SVC_STOPPING_STATE => step_stopping
  | SVC_READY_STATE => step_ready enabled
  | SVC_RUNNING_STATE => step_running enabled
  | SVC_WAITING_STATE => step_waiting enabled
  end.

End Reentrant.

(** ** service_step() *)

(** [goto restart] is the recursive call; [changed] is the local counter of
    the C function.  A nested call (from service_monitor) starts with a
    counter of its own. *)
Fixpoint service_step_loop (fuel : nat) (changed : Z) : M Z :=
  match fuel with
  | O => out_of_fuel
  | S n =>
      s <- get ;;
      let old_state := state s in
      let enabled := svc_enabled s in
      step_switch (service_step_loop n 0) enabled ;;
      s' <- get ;;
      if negb (svc_state_eqb (state s') old_state) then
        service_step_loop n (changed + 1)
      else
        (* When a run/task/service changes state other services may need
           to change state too. *)
        when (negb (changed =? 0)) (emit (EvScheduleWork work_service_worker)) ;;
        ret 0
  end.

Definition service_step (fuel : nat) : M Z := service_step_loop fuel 0.

Definition service_step_all (types : svc_type_mask) : M unit :=
  emit (EvStepAll types).

Definition service_worker : M unit :=
  service_step_all (SVC_TYPE_SERVICE :: SVC_TYPE_RUNTASK).

(** ** The crash-retry timer callback *)

Definition service_retry (fuel : nat) : M unit :=
  service_timeout_cancel ;;
  s <- get ;;
  if negb (svc_state_eqb (state s) SVC_HALTED_STATE)
     || negb (svc_block_eqb (block s) SVC_BLOCK_RESTARTING) then
    modify (set_restart_cnt 0)
  else if SVC_RESPAWN_MAX <=? restart_cnt s then
    logit true LOG_WARNING "Service %s keeps crashing, not restarting." ;;
    svc_crashing ;;
    modify (set_restart_cnt 0) ;;
    service_step fuel ;;
    ret tt
  else
    modify (set_restart_cnt (char_incr (restart_cnt s))) ;;
    logit true LOG_WARNING "Service %s[%d] died, restarting (%d/%d)" ;;
    svc_unblock ;;
    service_step fuel ;;
    (* Wait 2s for the first 5 respawns, then back off to 5s *)
    s1 <- get ;;
    let timeout :=
      if restart_cnt s1 <=? Z.quot SVC_RESPAWN_MAX 2 then 2000 else 5000 in
    service_timeout_after timeout cb_service_retry ;;
    ret tt.

(** service_timeout_cb(): the libuev callback runs what [timer_cb] holds. *)
Definition service_timeout_cb (fuel : nat) : M unit :=
  s <- get ;;
  match timer_cb s with
  | Some cb_service_kill => service_kill
  | Some cb_service_retry => service_retry fuel
  | None => ret tt
  end.

End WithEnv.

(** ** The [kill:<sec>] directive *)

(** strtonum(3) comes from libite (the OpenBSD function): the whole string
    must be a decimal integer as strtoll(3) reads it, and the value must
    lie within the bounds. *)
Inductive strtonum_err : Type := INVALID | TOOSMALL | TOOLARGE.

Definition LLONG_MAX : Z := 9223372036854775807.
Definition LLONG_MIN : Z := -9223372036854775808.

Definition isspace (c : ascii) : bool :=
  let n := nat_of_ascii c in
  Nat.eqb n 32 || (Nat.leb 9 n && Nat.leb n 13).

Definition digit_of (c : ascii) : option Z :=
  let n := nat_of_ascii c in
  if Nat.leb 48 n && Nat.leb n 57 then Some (Z.of_nat n - 48) else None.

Fixpoint skip_space (x : string) : string :=
  match x with
  | String c r => if isspace c then skip_space r else x
  | EmptyString => x
  end.

(** The longest prefix of digits: its value (given the digits read so
    far), how many digits were read and the rest of the string. *)
Fixpoint read_digits (acc : Z) (cnt : nat) (x : string) : Z * nat * string :=
  match x with
  | String c r =>
      match digit_of c with
      | Some d => read_digits (10 * acc + d) (S cnt) r
      | None => (acc, cnt, x)
      end
  | EmptyString => (acc, cnt, x)
  end.

(** An optional sign. *)
Definition read_sign (x : string) : bool * string :=
  match x with
  | String c r =>
      if Ascii.eqb c "-" then (true, r)
      else if Ascii.eqb c "+" then (false, r)
      else (false, x)
  | EmptyString => (false, x)
  end.

(** strtoll(nptr, &ep, 10): the value, saturated, [Some rest] for the end
    pointer when a number was read ([None]: [ep == nptr]) and whether
    [errno] is [ERANGE]. *)
Definition strtoll (nptr : string) : Z * option string * bool :=
  let '(neg, x1) := read_sign (skip_space nptr) in
  let '(v, cnt, rest) := read_digits 0 0 x1 in
  match cnt with
  | O => (0, None, false)
  | _ =>
      let v := if neg then - v else v in
      if LLONG_MAX <? v then (LLONG_MAX, Some rest, true)
      else if v <? LLONG_MIN then (LLONG_MIN, Some rest, true)
      else (v, Some rest, false)
  end.

Definition strtonum (numstr : string) (minval maxval : Z)
  : Z * option strtonum_err :=
  if maxval <? minval then (0, Some INVALID) else
  let '(ll, ep, erange) := strtoll numstr in
  match ep with
  | None => (0, Some INVALID)
  | Some (String _ _) => (0, Some INVALID)
  | Some EmptyString =>
      if ((ll =? LLONG_MIN) && erange) || (ll <? minval) then (0, Some TOOSMALL)
      else if ((ll =? LLONG_MAX) && erange) || (maxval <? ll) then (0, Some TOOLARGE)
      else (ll, None)
  end.

Definition parse_killdelay (delay : string) : M unit :=
  let '(sec, errstr) := strtonum delay 1 60 in
  match errstr with
  | Some _ => emit (EvError "%s: killdelay %s is %s (1-60)")
  | None =>
      (* convert to msec *)
      modify (set_killdelay (wrap_signed 32 (sec * 1000)))
  end.

(** ** Vocabulary of the properties *)

(** The events of service_timeout_cancel() and of service_cleanup(). *)
Definition cancel_events (s : svc_t) : list event :=
  match timer_cb s with
  | Some _ => [EvTimerStop]
  | None => []
  end.

Definition cleanup_events (e : env) : list event :=
  match pid_file e with
  | Some fn =>
      EvRemove fn ::
      match remove e fn with
      | REMOVE_EIO => [EvLogit false LOG_CRIT "Failed removing service %s pidfile %s"]
      | _ => []
      end
  | None => []
  end.

(** The books after service_cleanup(). *)
Definition cleaned (s : svc_t) : svc_t :=
  set_start_time 0 (set_pid 0 (set_oldpid (pid s) s)).

(** A service that has just entered the stopping state. *)
Definition stopping (s : svc_t) : svc_t :=
  set_timer_cb (Some cb_service_kill) (set_state SVC_STOPPING_STATE s).

(** The kill-timer invariant: a stopping service has its kill-timer armed
    or its child has been collected. *)
Definition kill_timer_inv (s : svc_t) : Prop :=
  state s = SVC_STOPPING_STATE ->
  timer_cb s = Some cb_service_kill \/ pid s = 0.

(** What the event loop may do to a service. *)
Inductive op : Type :=
| OpStep                              (* service_step() *)
| OpStop                              (* service_stop(), from service_unregister() *)
| OpMonitor (lost : Z) (status_ : Z)  (* SIGCHLD: service_monitor() *)
| OpTimeout.                          (* the timer fires: service_timeout_cb() *)

Definition run_op (SVC_RESPAWN_MAX : Z) (SYNC_SHUTDOWN : string) (e : env)
    (fuel : nat) (o : op) : M unit :=
  match o with
  | OpStep => service_step SYNC_SHUTDOWN e fuel ;; ret tt
  | OpStop => service_stop e ;; ret tt
  | OpMonitor lost status_ =>
      service_monitor SYNC_SHUTDOWN e (service_step SYNC_SHUTDOWN e fuel) lost status_
  | OpTimeout => service_timeout_cb SVC_RESPAWN_MAX SYNC_SHUTDOWN e fuel
  end.

(** The kill callback is the timer firing while [service_kill] is armed. *)
Definition is_kill_callback (o : op) (s : svc_t) : Prop :=
  o = OpTimeout /\ timer_cb s = Some cb_service_kill.

(** service_stop() moving every service above the stopping state into
    it, and the callback armed on entry always sending its signal. *)
Definition stop_enters_stopping (e : env) (s : svc_t) : Prop :=
  state_rank SVC_STOPPING_STATE < state_rank (state s) ->
  exists rc s' l, service_stop e s = Some (rc, s', l) /\
                  state s' = SVC_STOPPING_STATE.

Definition kill_callback_signals (e : env) (s : svc_t) : Prop :=
  forall s1 l1, svc_set_state e SVC_STOPPING_STATE s = Some (tt, s1, l1) ->
  exists s2 l2, service_kill e s1 = Some (tt, s2, l2) /\
                In (EvKill (- pid s1) SIGKILL) l2.

(** [k] calls of service_step(), one per turn of the event loop. *)
Fixpoint step_times (SYNC_SHUTDOWN : string) (e : env) (fuel k : nat) : M unit :=
  match k with
  | O => ret tt
  | S k' => service_step SYNC_SHUTDOWN e fuel ;; step_times SYNC_SHUTDOWN e fuel k'
  end.

(** A `run` job whose command keeps failing while the job is marked
    dirty, and the states it cycles through. *)
Definition run_fails (e : env) : bool :=
  negb (WIFEXITED (complete e) && (WEXITSTATUS (complete e) =? 0)).

Record failing_run (e : env) (s : svc_t) : Prop := {
  fr_type : type s = SVC_TYPE_RUN;
  fr_dirty : dirty s = true;
  fr_block : block s = SVC_BLOCK_NONE;
  fr_runlevel : svc_in_runlevel s (runlevel e) = true;
  fr_cond : cond_get_agg e = COND_ON;
  fr_teardown : sm_is_in_teardown e = false;
  fr_norespawn : is_norespawn e = false;
  fr_whichp : whichp e (cmd s) = true;
  fr_env : svc_checkenv e = true;
  fr_status : run_fails e = true
}.

Definition in_cycle (s : svc_t) : Prop :=
  match state s with
  | SVC_HALTED_STATE | SVC_READY_STATE | SVC_DONE_STATE => True
  | SVC_STOPPING_STATE => pid s = 0
  | _ => False
  end.

(** The number a [kill:] argument denotes: optional blanks, an optional
    sign and decimal digits up to the end of the string. *)
Definition numeric_value (x : string) : option Z :=
  let '(neg, y) := read_sign (skip_space x) in
  match read_digits 0 0 y with
  | (_, O, _) => None
  | (v, _, EmptyString) => Some (if neg then - v else v)
  | (_, _, String _ _) => None
  end.

(** A string of decimal digits and the number it denotes. *)
Fixpoint digits_string (ds : list nat) : string :=
  match ds with
  | [] => EmptyString
  | d :: r => String (ascii_of_nat (48 + d)) (digits_string r)
  end.

Fixpoint digits_value (acc : Z) (ds : list nat) : Z :=
  match ds with
  | [] => acc
  | d :: r => digits_value (10 * acc + Z.of_nat d) r
  end.

(** ** Sample systems *)

(** Runlevel 2, every condition on, every command found and succeeding. *)
Definition env_ok : env :=
  mk_env 2 COND_ON false false (fun _ => false) (fun _ => true) true
    1234 0 100 (fun _ _ => KILL_OK) None (fun _ => REMOVE_OK) false 0 0
    (fun _ => false) "pid/job".

(** The same system when the command run exits with status 1. *)
Definition env_exit1 : env :=
  mk_env 2 COND_ON false false (fun _ => false) (fun _ => true) true
    1234 256 100 (fun _ _ => KILL_OK) None (fun _ => REMOVE_OK) false 0 0
    (fun _ => false) "pid/job".

(** The same system with the /tmp/norespawn sentinel in place. *)
Definition env_norespawn : env :=
  mk_env 2 COND_ON false false (String.eqb "/tmp/norespawn") (fun _ => true) true
    1234 0 100 (fun _ _ => KILL_OK) None (fun _ => REMOVE_OK) false 0 0
    (fun _ => false) "pid/job".

(** The same system with the condition of the service in flux. *)
Definition env_flux : env :=
  mk_env 2 COND_FLUX false false (fun _ => false) (fun _ => true) true
    1234 0 100 (fun _ _ => KILL_OK) None (fun _ => REMOVE_OK) false 0 0
    (fun _ => false) "pid/job".

(** `run [2345] /bin/false`, as registered from a changed .conf file. *)
Definition svc_run_false : svc_t :=
  mk_svc SVC_TYPE_RUN SVC_HALTED_STATE 0 0 0 0 0 0 None true SVC_BLOCK_NONE
    false false false 3000 15 true false 60 "/bin/false" "false" "".

(** The same job, done in this runlevel, marked dirty by a reload. *)
Definition svc_run_done : svc_t :=
  mk_svc SVC_TYPE_RUN SVC_DONE_STATE 0 0 0 256 1 1 None true SVC_BLOCK_NONE
    false true false 3000 15 true false 60 "/bin/false" "false" "".

(** `service [2345] /sbin/daemon`, in a given state with a given child,
    timer and restart count. *)
Definition svc_daemon (st : svc_state_t) (child : Z) (t : option timer_cb_t)
    (blk : svc_block_t) (cnt : Z) : svc_t :=
  mk_svc SVC_TYPE_SERVICE st child 0 0 0 0 cnt t false blk
    false false false 3000 15 true false 60 "/sbin/daemon" "daemon" "".

(** ** Control groups *)

(** strlcpy(dst, src, size): what ends up in [dst]. *)
Definition strlcpy (src : string) (size : nat) : string :=
  substring 0 (size - 1) src.

(** strrchr(x, c) + 1: what follows the last [c] of [x], if there is one. *)
Fixpoint after_last (c : ascii) (x : string) : option string :=
  match x with
  | EmptyString => None
  | String a r =>
      match after_last c r with
      | Some t => Some t
      | None => if Ascii.eqb a c then Some r else None
      end
  end.

(** group_name(): [file] is [svc->file], [ident] what svc_ident() of the
    missing svc.c writes into the buffer, [len] the size of the buffer. *)
Definition group_name (file ident : string) (len : nat) : string :=
  if negb (string_nonempty file) then ident else
  let ptr := match after_last "/" file with
             | Some t => t
             | None => file
             end in
  let buf := strlcpy ptr len in
  match index 0 ".conf" buf with
  | Some i => substring 0 i buf
  | None => buf
  end.

(** ** The environment file *)

Definition quote_double : ascii := ascii_of_nat 34.
Definition quote_single : ascii := ascii_of_nat 39.
Definition newline : ascii := ascii_of_nat 10.

(** chomp() of libite, a library outside these sources: the trailing
    newlines are cut. *)
Fixpoint chomp (x : string) : string :=
  match x with
  | EmptyString => EmptyString
  | String c r =>
      match chomp r with
      | EmptyString => if Ascii.eqb c newline then EmptyString else String c EmptyString
      | r' => String c r'
      end
  end.

(** [end--; while (isspace( *end)) *end-- = 0;] on a string that does not
    begin with white space: the trailing white space is cut. *)
Fixpoint rstrip (x : string) : string :=
  match x with
  | EmptyString => EmptyString
  | String c r =>
      match rstrip r with
      | EmptyString => if isspace c then EmptyString else String c EmptyString
      | r' => String c r'
      end
  end.

(** strchr(x, c) and [*value++ = 0]: what is before the first [c] and
    what is after it. *)
Fixpoint split_at (c : ascii) (x : string) : option (string * string) :=
  match x with
  | EmptyString => None
  | String a r =>
      if Ascii.eqb a c then Some (EmptyString, r)
      else match split_at c r with
           | Some (k, v) => Some (String a k, v)
           | None => None
           end
  end.

Fixpoint last_char (x : string) : option ascii :=
  match x with
  | EmptyString => None
  | String c EmptyString => Some c
  | String _ r => last_char r
  end.

Fixpoint drop_last (x : string) : string :=
  match x with
  | EmptyString => EmptyString
  | String _ EmptyString => EmptyString
  | String c r => String c (drop_last r)
  end.

(** unquote value, if quoted: [end] points at the last character of the
    line, which is the last character of a value that is not empty. *)
Definition unquote (value : string) : string :=
  match value with
  | String q r =>
      if Ascii.eqb q quote_double || Ascii.eqb q quote_single then
        match last_char value with
        | Some z => if Ascii.eqb z q then drop_last r else value
        | None => value
        end
      else value
  | EmptyString => value
  end.

(** One turn of the loop of source_env() on a line fgets() has read: the
    arguments of setenv(), or [None] when the line is skipped. *)
Definition env_line (line : string) : option (string * string) :=
  (* skip any leading whitespace *)
  let key := skip_space (chomp line) in
  (* skip comments *)
  match key with
  | String c _ =>
      if Ascii.eqb c "#" || Ascii.eqb c ";" then None else
      (* strip trailing whitespace *)
      match split_at "=" (rstrip key) with
      | None => None
      | Some (k, value) =>
          (* strip leading whitespace from value, unquote, find end of key *)
          Some (rstrip k, unquote (skip_space value))
      end
  | EmptyString => None
  end.

(** source_env(): [lines] is what fgets() reads of the env file, [None]
    when the service has none or it cannot be opened; the result is the
    calls of setenv(key, value, 1), in order. *)
Definition source_env (lines : option (list string)) : list (string * string) :=
  match lines with
  | None => []
  | Some ls =>
      flat_map (fun line => match env_line line with
                            | Some kv => [kv]
                            | None => []
                            end) ls
  end.

(** ** The registry *)

(** A service in the registry of svc.c: the run-time record above with
    the two condition strings service.c reads besides, [svc->cond] and
    what mkcond() makes of the name and id of the service. *)
Record slot : Type := mk_slot {
  slot_svc : svc_t;
  slot_cond : string;
  slot_provides : string
}.

Definition with_svc (f : svc_t -> svc_t) (t : slot) : slot :=
  mk_slot (f (slot_svc t)) (slot_cond t) (slot_provides t).

(** Modelled from the spec: svc_has_cond() of the missing svc.h, a service
    that names a condition. *)
Definition svc_has_cond (t : slot) : bool := string_nonempty (slot_cond t).

(** strstr(haystack, needle) != NULL *)
Definition strstr_found (haystack needle : string) : bool :=
  match index 0 needle haystack with
  | Some _ => true
  | None => false
  end.

Section Registry.
Variable e : env.
(* cond_affects() of cond.c *)
Variable cond_affects : string -> string -> bool.
(* plugin_hook_str(HOOK_SVC_UP) and plugin_hook_str(HOOK_SYSTEM_UP) *)
Variable hook_svc_up hook_system_up : string.

(** The body of a loop over svc_iterator(), run on every service of the
    registry in turn. *)
Fixpoint foreach (body : M unit) (reg : list slot)
  : option (unit * list slot * list event) :=
  match reg with
  | [] => Some (tt, [], [])
  | t :: r =>
      match body (slot_svc t) with
      | None => None
      | Some (_, s', l1) =>
          match foreach body r with
          | None => None
          | Some (_, r', l2) => Some (tt, with_svc (fun _ => s') t :: r', l1 ++ l2)
          end
      end
  end.

Definition runtask_clean : M unit :=
  s <- get ;;
  if negb (svc_is_runtask s) then ret tt else
  modify (set_once 0) ;;
  s1 <- get ;;
  when (svc_state_eqb (state s1) SVC_DONE_STATE) (svc_set_state e SVC_HALTED_STATE).

Definition service_runtask_clean : Mon (list slot) event unit :=
  foreach runtask_clean.

Fixpoint service_completed (reg : list slot) : Z :=
  match reg with
  | [] => 1
  | t :: r =>
      if negb (svc_is_runtask (slot_svc t)) then service_completed r
      else if negb (svc_enabled e (slot_svc t)) then service_completed r
      else if strstr_found (slot_cond t) hook_svc_up
              || strstr_found (slot_cond t) hook_system_up
      then service_completed r
      else if once (slot_svc t) =? 0 then 0
      else service_completed r
  end.

Definition svc_mark_affected (c : string) (reg : list slot) : list slot :=
  map (fun t =>
         if negb (svc_has_cond t) then t
         else if cond_affects c (slot_cond t) then with_svc (set_dirty true) t
         else t) reg.

(** The outer loop of service_update_rdeps(): the iterator stands at
    service [i] of a registry whose flags the earlier turns have set. *)
Fixpoint update_rdeps_from (todo i : nat) (reg : list slot) : list slot :=
  match todo with
  | O => reg
  | S k =>
      match nth_error reg i with
      | None => reg
      | Some t =>
          update_rdeps_from k (S i)
            (if negb (svc_is_changed (slot_svc t)) then reg
             else svc_mark_affected (slot_provides t) reg)
      end
  end.

Definition service_update_rdeps (reg : list slot) : list slot :=
  update_rdeps_from (List.length reg) 0 reg.

End Registry.

(** ** Vocabulary of the further properties *)

(** What print_desc() and print_result() show of a start when the
    service has a description. *)
Definition progress_desc (s : svc_t) : list event :=
  if string_nonempty (desc s)
  then [EvPrintDesc (if svc_is_daemon s || svc_is_sysv s then "Starting " else "")
          (desc s)]
  else [].

Definition progress_result (s : svc_t) (rc : Z) : list event :=
  if string_nonempty (desc s) then [EvPrintResult rc] else [].

(** A string without white space at either end. *)
Definition stripped (x : string) : Prop := skip_space x = x /\ rstrip x = x.

(** A trace in which service_start() forks a child. *)
Definition forks_child (l : list event) : Prop := In (EvFork child_start) l.

(** A character that occurs in a string. *)
Fixpoint mentions (c : ascii) (x : string) : bool :=
  match x with
  | EmptyString => false
  | String a r => Ascii.eqb a c || mentions c r
  end.

(** A run/task that service_completed() waits for. *)
Definition awaited (e : env) (hook_svc_up hook_system_up : string) (t : slot) : bool :=
  svc_is_runtask (slot_svc t) && svc_enabled e (slot_svc t)
  && negb (strstr_found (slot_cond t) hook_svc_up
           || strstr_found (slot_cond t) hook_system_up).

(** What service_runtask_clean() makes of one service. *)
Definition cleaned_runtask (t : slot) : slot :=
  if svc_is_runtask (slot_svc t)
  then with_svc (fun s => if svc_state_eqb (state s) SVC_DONE_STATE
                          then set_state SVC_HALTED_STATE (set_once 0 s)
                          else set_once 0 s) t
  else t.

(** A service as it was, or marked dirty. *)
Definition marks (t t' : slot) : Prop :=
  t' = t \/ t' = with_svc (set_dirty true) t.

(** ** Further sample systems *)

(** The system of [env_ok] when no command is found in $PATH. *)
Definition env_nocmd : env :=
  mk_env 2 COND_ON false false (fun _ => false) (fun _ => false) true
    1234 0 100 (fun _ _ => KILL_OK) None (fun _ => REMOVE_OK) false 0 0
    (fun _ => false) "pid/job".

(** `run [2345] /bin/true`, as registered from a changed .conf file. *)
Definition svc_run_true : svc_t :=
  mk_svc SVC_TYPE_RUN SVC_HALTED_STATE 0 0 0 0 0 0 None true SVC_BLOCK_NONE
    false false false 3000 15 true false 60 "/bin/true" "true" "".

(** `task [2345] /bin/job`, running as [child]. *)
Definition svc_task (child : Z) : svc_t :=
  mk_svc SVC_TYPE_TASK SVC_RUNNING_STATE child 0 100 0 0 0 None false
    SVC_BLOCK_NONE false true false 3000 15 true false 60 "/bin/job" "job" "".

(** A registry of three: a done run job, a daemon waiting for it and a
    task not yet run. *)
Definition sample_registry : list slot :=
  [mk_slot svc_run_done "" "pid/false";
   mk_slot (svc_daemon SVC_RUNNING_STATE 77 None SVC_BLOCK_NONE 0)
     "pid/false" "pid/daemon";
   mk_slot (svc_task 78) "" "pid/job"].

End Service.

Module Plugin.

(** ** Data model (plugin.h) *)

(** A hook point is an index into the [hook] array of a plugin and into
    the table of condition names. *)
Definition hook_point_t : Type := Z.

(** A registered callback, a function pointer in the code, is known by
    its name; [None] is [NULL].  [arg] is a [void *], [0] is [NULL]. *)
Record hook_t : Type := mk_hook {
  cb : option string;
  arg : Z
}.

Record plugin_t : Type := mk_plugin {
  name : option string;
  hook : hook_point_t -> hook_t;
  depends : list (option string);      (* char *depends[PLUGIN_DEP_MAX] *)
  handle : option Z                    (* from dlopen() *)
}.

Definition set_name (v : option string) (p : plugin_t) : plugin_t :=
  mk_plugin v (hook p) (depends p) (handle p).

Definition set_handle (v : option Z) (p : plugin_t) : plugin_t :=
  mk_plugin (name p) (hook p) (depends p) v.

(** The file-scope variables of plugin.c, and [errno]. *)
Record state : Type := mk_state {
  plugins : list plugin_t;             (* the TAILQ, head first *)
  plugpath : option string;
  plugloaded : bool;
  errno : Z
}.

Definition set_plugins (v : list plugin_t) (st : state) : state :=
  mk_state v (plugpath st) (plugloaded st) (errno st).

Definition set_errno (v : Z) (st : state) : state :=
  mk_state (plugins st) (plugpath st) (plugloaded st) v.

Arguments set_plugins v !st /.
Arguments set_errno v !st /.

Definition EINVAL : Z := 22.
Definition ENOENT : Z := 2.

Inductive shutop_t : Type := SHUT_DEFAULT | SHUT_OFF | SHUT_HALT | SHUT_REBOOT.

Inductive event : Type :=
| EvHookCb (plugin : option string) (no : hook_point_t) (cb : string) (arg : Z)
| EvCondSetOneshot (cond : string)
| EvStepAll (types : Service.svc_type_mask)
| EvRunParts (path : string) (envp : list string)
| EvDlopen (sofile : string)
| EvDlclose (handle : Z)
| EvWarn (fmt : string).

(** What configure and the missing headers fix at build time. *)
Record config : Type := mk_config {
  ENABLE_STATIC : bool;
  HAVE_HOOK_SCRIPTS_PLUGIN : bool;
  PLUGIN_HOOK_SCRIPTS_PATH : option string;
  CMD_SIZE : nat;
  PLUGIN_DEP_MAX : nat;
  HOOK_BASEFS_UP : hook_point_t;
  HOOK_SHUTDOWN : hook_point_t;
  hook_cond : hook_point_t -> string     (* HOOK_TYPES, second column *)
}.

Record env : Type := mk_env {
  cond_is_available : bool;
  halt : shutop_t;                       (* the global of finit.c *)
  dladdr : plugin_t -> option string;    (* basenm(info.dli_fname) *)
  fisdir : string -> bool;
  (* dlopen(): the handle, and the plugins whose PLUGIN_INIT constructors
     run while the object is loaded *)
  dlopen : string -> option (Z * list plugin_t)
}.

Definition P : Type -> Type := Mon state event.

(** ** Strings *)

(** snprintf() and strlcat() into a buffer of [size] bytes. *)
Definition truncate (size : nat) (x : string) : string :=
  String.substring 0 (size - 1) x.

(** [x + n] for a [char *]. *)
Definition str_skip (n : nat) (x : string) : string :=
  String.substring n (String.length x - n) x.

(** [strcmp(name + strlen(name) - 3, ".so")] as a truth value; a name
    of fewer than three characters is compared as a whole. *)
Definition noext (x : string) : bool :=
  negb (String.eqb (str_skip (String.length x - 3) x) ".so").

Definition fisslashdir (dir : string) : bool :=
  String.eqb (str_skip (String.length dir - 1) dir) "/".

Definition starts_with_slash (x : string) : bool :=
  match x with
  | String "/"%char _ => true
  | _ => false
  end.

Definition trim_ext (x : string) : string :=
  match String.index 0 ".so" x with
  | Some i => String.substring 0 i x
  | None =>
      match String.index 0 ".c" x with
      | Some i => String.substring 0 i x
      | None => x
      end
  end.

Section WithConfig.
Variable c : config.
Variable e : env.

(** ** Lookup *)

Definition name_is (str : string) (p : plugin_t) : bool :=
  match name p with
  | Some n => String.eqb n str
  | None => false
  end.

(** SEARCH_PLUGIN(str) *)
Definition search_plugin (str : string) (st : state) : option plugin_t :=
  List.find (name_is str) (plugins st).

Definition plugin_find (nm : option string) : P (option plugin_t) :=
  match nm with
  | None => modify (set_errno EINVAL) ;; ret None
  | Some str =>
      st <- get ;;
      match search_plugin str st with
      | Some p => ret (Some p)
      | None =>
          match
            match plugpath st with
            | Some pp =>
                if negb (starts_with_slash str) then
                  let path :=
                    truncate (CMD_SIZE c)
                      (pp ++ (if fisslashdir pp then "" else "/") ++ str
                          ++ (if noext str then ".so" else ""))%string in
                  search_plugin path st
                else None
            | None => None
            end
          with
          | Some p => ret (Some p)
          | None => modify (set_errno ENOENT) ;; ret None
          end
      end
  end.

(** ** Registration and loading *)

Fixpoint set_last_handle (h : Z) (l : list plugin_t) : list plugin_t :=
  match l with
  | [] => []
  | [p] => [set_handle (Some h) p]
  | p :: r => p :: set_last_handle h r
  end.

Section Constructors.
(** plugin_register(), as run by the constructors of a loaded object. *)
Variable plugin_register : plugin_t -> P Z.

Fixpoint run_constructors (l : list plugin_t) : P unit :=
  match l with
  | [] => ret tt
  | p :: r => plugin_register p ;; run_constructors r
  end.

Definition load_one (path : option string) (nm : option string) : P Z :=
  match path, nm with
  | Some dir, Some str =>
      if negb (fisdir e dir) then modify (set_errno EINVAL) ;; ret 1 else
      (* Compose full path, with optional .so extension, to plugin *)
      let sofile :=
        truncate (CMD_SIZE c)
          (dir ++ "/" ++ str ++ (if noext str then ".so" else ""))%string in
      emit (EvDlopen sofile) ;;
      match dlopen e sofile with
      | None =>
          emit (EvWarn "Failed loading plugin %s: %s") ;;
          ret 1
      | Some (h, ctors) =>
          run_constructors ctors ;;
          st <- get ;;
          match plugins st with
          | [] =>
              emit (EvWarn "Plugin %s failed to register, unloading from memory") ;;
              emit (EvDlclose h) ;;
              ret 1
          | l =>
              (* Remember handle from dlopen() for plugin_unregister() *)
              modify (set_plugins (set_last_handle h l)) ;;
              ret 0
          end
      end
  | _, _ => modify (set_errno EINVAL) ;; ret 1
  end.

(** The loop of check_plugin_depends() over [depends[i]], [i] counted
    down from PLUGIN_DEP_MAX; a [NULL] entry ends it. *)
Fixpoint check_depends (n : nat) (deps : list (option string)) : P unit :=
  match n, deps with
  | S n', Some d :: r =>
      found <- plugin_find (Some d) ;;
      match found with
      | Some _ => check_depends n' r
      | None =>
          st <- get ;;
          load_one (plugpath st) (Some d) ;;
          check_depends n' r
      end
  | _, _ => ret tt
  end.

Definition check_plugin_depends (p : plugin_t) : P unit :=
  check_depends (PLUGIN_DEP_MAX c) (depends p).

End Constructors.

(** strdup() is taken to succeed.  The argument is the plugin the caller
    passes by pointer, an object that is not in the list yet; the record
    that ends up in the list carries the trimmed name.  Names are values
    here: the free() of the name of a duplicate has no counterpart. *)
Fixpoint plugin_register (fuel : nat) (plugin : option plugin_t) : P Z :=
  match fuel with
  | O => out_of_fuel
  | S n =>
      match plugin with
      | None => modify (set_errno EINVAL) ;; ret 1
      | Some p =>
          (* Setup default name if none is provided *)
          let nm :=
            match name p with
            | Some x => x
            | None =>
                match (if ENABLE_STATIC c then None else dladdr e p) with
                | Some x => x
                | None => "unknown"
                end
            end in
          let p := set_name (Some (trim_ext nm)) p in
          (* Already registered? *)
          found <- plugin_find (name p) ;;
          match found with
          | Some _ => ret 0
          | None =>
              (* Resolve plugin dependencies *)
              (if ENABLE_STATIC c then ret tt
               else check_plugin_depends
                      (fun q => plugin_register n (Some q)) p) ;;
              st <- get ;;
              modify (set_plugins (plugins st ++ [p])) ;;
              ret 0
          end
      end
  end.

(** ** Hooks *)

Definition plugin_hook_str (no : hook_point_t) : string := hook_cond c no.

Definition plugin_script_run (no : hook_point_t) : P unit :=
  match PLUGIN_HOOK_SCRIPTS_PATH c with
  | Some dir =>
      if HAVE_HOOK_SCRIPTS_PLUGIN c then
        let hook_name := hook_cond c no in
        let path :=
          truncate (CMD_SIZE c)
            (truncate (CMD_SIZE c) dir ++ str_skip 4 hook_name)%string in
        let envp :=
          if HOOK_SHUTDOWN c <=? no then
            match halt e with
            | SHUT_OFF => ["FINIT_HOOK_NAME"; hook_name; "FINIT_SHUTDOWN"; "poweroff"]
            | SHUT_HALT => ["FINIT_HOOK_NAME"; hook_name; "FINIT_SHUTDOWN"; "halt"]
            | SHUT_REBOOT => ["FINIT_HOOK_NAME"; hook_name; "FINIT_SHUTDOWN"; "reboot"]
            | SHUT_DEFAULT => ["FINIT_HOOK_NAME"; hook_name; "FINIT_SHUTDOWN"]
            end
          else ["FINIT_HOOK_NAME"; hook_name] in
        emit (EvRunParts path envp)
      else ret tt
  | None => ret tt
  end.

(** The body of PLUGIN_ITERATOR in plugin_run_hook(). *)
Definition call_hook (no : hook_point_t) (a : Z) (p : plugin_t) : P unit :=
  match cb (hook p no) with
  | Some f =>
      emit (EvHookCb (name p) no f (if a =? 0 then arg (hook p no) else a))
  | None => ret tt
  end.

Fixpoint call_hooks (no : hook_point_t) (a : Z) (l : list plugin_t) : P unit :=
  match l with
  | [] => ret tt
  | p :: r => call_hook no a p ;; call_hooks no a r
  end.

(** Some hooks are called with a fixed argument *)
Definition plugin_run_hook (no : hook_point_t) (a : Z) : P unit :=
  st <- get ;;
  when (HAVE_HOOK_SCRIPTS_PLUGIN c
        && negb (cond_is_available e) && negb (plugloaded st))
       (plugin_script_run no) ;;
  call_hooks no a (plugins st) ;;
  (* Conditions are stored in /run, so don't try to signal conditions for
     any hooks before filesystems have been mounted. *)
  when (cond_is_available e
        && (HOOK_BASEFS_UP c <=? no) && (no <=? HOOK_SHUTDOWN c))
       (emit (EvCondSetOneshot (hook_cond c no))) ;;
  emit (EvStepAll Service.SVC_TYPE_RUNTASK).

(** Regular hooks are called with the registered plugin's argument *)
Definition plugin_run_hooks (no : hook_point_t) : P unit :=
  plugin_run_hook no 0.

End WithConfig.

(** ** Vocabulary of the properties *)

(** The name under which plugin_register() looks a plugin up and stores
    it. *)
Definition registered_name (c : config) (e : env) (p : plugin_t) : string :=
  trim_ext
    match name p with
    | Some x => x
    | None =>
        match (if ENABLE_STATIC c then None else dladdr e p) with
        | Some x => x
        | None => "unknown"
        end
    end.

(** The callbacks plugin_run_hook() invokes, plugin by plugin. *)
Definition hook_calls (no : hook_point_t) (a : Z) (l : list plugin_t) : list event :=
  flat_map
    (fun p =>
       match cb (hook p no) with
       | Some f => [EvHookCb (name p) no f (if a =? 0 then arg (hook p no) else a)]
       | None => []
       end) l.

Definition is_run_parts (ev : event) : Prop :=
  exists path envp, ev = EvRunParts path envp.

(** ** Sample plugins *)

Definition no_hooks : hook_point_t -> hook_t := fun _ => mk_hook None 0.

Definition plugin_named (n : string) : plugin_t :=
  mk_plugin (Some n) no_hooks [] None.

Definition static_build : config :=
  mk_config true false None 256 10 2 7 (fun _ => "hook/any").

Definition quiet_env : env :=
  mk_env true SHUT_DEFAULT (fun _ => None) (fun _ => false) (fun _ => None).

(** ** Queries *)

(** The loop of plugin_exists() over the registry. *)
Fixpoint any_hook (no : hook_point_t) (l : list plugin_t) : Z :=
  match l with
  | [] => 0
  | p :: r =>
      match cb (hook p no) with
      | Some _ => 1
      | None => any_hook no r
      end
  end.

Definition plugin_exists (no : hook_point_t) : P Z :=
  st <- get ;;
  ret (any_hook no (plugins st)).

(** strlcat(dst, src, size) of libite: [src] is appended as far as the
    [size - 1] characters of the buffer allow; a [dst] that already fills
    the buffer is left alone. *)
Definition strlcat (dst src : string) (size : nat) : string :=
  if (String.length dst <? size)%nat
  then (dst ++ substring 0 (size - 1 - String.length dst) src)%string
  else dst.

(** A NULL name passed to strlcat(): the call does not return. *)
Definition null_deref {A} : P A := fun _ => None.

(** The loop of plugin_list() over the registry. *)
Fixpoint list_names (len : nat) (buf : string) (l : list plugin_t) : option string :=
  match l with
  | [] => Some buf
  | p :: r =>
      let buf := if Service.string_nonempty buf then strlcat buf " " len else buf in
      match name p with
      | Some n => list_names len (strlcat buf n len) r
      | None => None
      end
  end.

(** plugin_list(buf, len): the value returned and what [buf] holds. *)
Definition plugin_list (c : config) (len : nat) : P (Z * string) :=
  if ENABLE_STATIC c then ret (0, "") else
  st <- get ;;
  match list_names len "" (plugins st) with
  | Some buf => ret (0, buf)
  | None => null_deref
  end.

(** ** Loading a directory *)

Definition set_plugpath (v : option string) (st : state) : state :=
  mk_state (plugins st) v (plugloaded st) (errno st).

Definition starts_with_dot (x : string) : bool :=
  match x with
  | String "."%char _ => true
  | _ => false
  end.

Section LoadPlugins.
Variable c : config.
Variable e : env.
Variable plugin_register : plugin_t -> P Z.
(* opendir() and the names readdir() returns, or errno *)
Variable opendir : string -> list string + Z.

(** The readdir() loop of load_plugins(), [fail] failures so far. *)
Fixpoint load_entries (path : string) (entries : list string) (fail : Z) : P Z :=
  match entries with
  | [] => ret fail
  | d :: r =>
      if starts_with_dot d then load_entries path r fail   (* Skip . and .. directories *)
      else
        rc <- load_one c e plugin_register (Some path) (Some d) ;;
        load_entries path r (if rc =? 0 then fail else int_incr fail)
  end.

(** load_plugins() of a build with loadable plugins, [path] not NULL. *)
Definition load_plugins (path : string) : P Z :=
  match opendir path with
  | inr err =>
      modify (set_errno err) ;;
      if err =? ENOENT then ret 0
      else emit (EvWarn "Failed, cannot open plugin directory %s: %s") ;; ret 1
  | inl entries =>
      modify (set_plugpath (Some path)) ;;
      load_entries path entries 0
  end.

End LoadPlugins.

(** ** Vocabulary of the further properties *)

(** The entries load_plugins() looks at. *)
Definition visible (entries : list string) : list string :=
  filter (fun d => negb (starts_with_dot d)) entries.

(** The names of the registry, in the order of the list. *)
Definition names (st : state) : list (option string) := map name (plugins st).

Fixpoint name_strings (l : list plugin_t) : list string :=
  match l with
  | [] => []
  | p :: r =>
      match name p with
      | Some n => n :: name_strings r
      | None => name_strings r
      end
  end.

(** A name as plugin_register() stores it: not NULL, without [.so]. *)
Definition trimmed (n : option string) : Prop :=
  exists x, n = Some x /\ index 0 ".so" x = None.

(** A registry that has grown at its tail, by names plugin_register()
    has trimmed, with the load path and the loaded flag as they were. *)
Definition extends (st st' : state) : Prop :=
  (exists added,
     names st' = names st ++ map (fun x => Some (trim_ext x)) added) /\
  plugpath st' = plugpath st /\ plugloaded st' = plugloaded st.

(** A callback of hook point [no] being called. *)
Definition is_hook_call (no : hook_point_t) (ev : event) : Prop :=
  exists pl f x, ev = EvHookCb pl no f x.

(** The object file load_one() opens. *)
Definition sofile (c : config) (dir str : string) : string :=
  truncate (CMD_SIZE c)
    (dir ++ "/" ++ str ++ (if noext str then ".so" else ""))%string.

(** ** Further samples *)

Definition dynamic_build : config :=
  mk_config false false None 256 10 2 7 (fun _ => "hook/any").

(** A plugin with a callback at every hook point. *)
Definition plugin_hooked (n f : string) : plugin_t :=
  mk_plugin (Some n) (fun _ => mk_hook (Some f) 0) [] None.

(** A system whose plugin directory holds one loadable object. *)
Definition plugin_dir_env : env :=
  mk_env true SHUT_DEFAULT (fun _ => None)
    (fun d => String.eqb d "/lib/finit/plugins")
    (fun f => if String.eqb f "/lib/finit/plugins/tty.so"
              then Some (7, [plugin_named "tty.so"]) else None).

End Plugin.

(** * Laws of the monad *)

Lemma bind_inv {St Ev A B} (m : Mon St Ev A) (f : A -> Mon St Ev B) s b s2 l :
  bind m f s = Some (b, s2, l) ->
  exists a s1 l1 l2,
    m s = Some (a, s1, l1) /\ f a s1 = Some (b, s2, l2) /\ l = l1 ++ l2.
Proof.
  unfold bind. destruct (m s) as [[[a s1] l1]|] eqn:Hm; [|discriminate].
  destruct (f a s1) as [[[b' s2'] l2]|] eqn:Hf; [|discriminate].
  intros H. inversion H; subst. now exists a, s1, l1, l2.
Qed.

Lemma bind_some {St Ev A B} (m : Mon St Ev A) (f : A -> Mon St Ev B) s a s1 l1 :
  m s = Some (a, s1, l1) ->
  bind m f s =
    match f a s1 with
    | Some (b, s2, l2) => Some (b, s2, l1 ++ l2)
    | None => None
    end.
Proof. unfold bind. now intros ->. Qed.

Lemma bind_none {St Ev A B} (m : Mon St Ev A) (f : A -> Mon St Ev B) s :
  m s = None -> bind m f s = None.
Proof. unfold bind. now intros ->. Qed.


Lemma bind_ext {St Ev A B} (m : Mon St Ev A) (f g : A -> Mon St Ev B) s :
  (forall a s1, f a s1 = g a s1) -> bind m f s = bind m g s.
Proof.
  intros H. unfold bind. destruct (m s) as [[[a s1] l1]|]; [|reflexivity].
  now rewrite H.
Qed.

(** * Strings *)

Lemma substring_length n m x :
  (String.length (substring n m x) <= m)%nat.
Proof.
  revert n m. induction x as [|a x IH]; intros n m.
  - destruct n, m; cbn; lia.
  - destruct n as [|n]; [destruct m as [|m]|]; cbn; [lia| |apply IH].
    specialize (IH 0%nat m). lia.
Qed.

Lemma substring_prefix_substring k n i x :
  (k + n <= i)%nat ->
  substring k n (substring 0 i x) = substring k n x.
Proof.
  revert k n i. induction x as [|a x IH]; intros k n i H.
  - destruct i; cbn; reflexivity.
  - destruct i as [|i].
    + assert (k = 0%nat) by lia. assert (n = 0%nat) by lia. subst. reflexivity.
    + cbn [substring]. destruct k as [|k].
      * destruct n as [|n]; [reflexivity|]. cbn [substring]. f_equal.
        apply (IH 0%nat n i). lia.
      * cbn [substring]. apply IH. lia.
Qed.

Lemma substring_full_length k n x :
  (0 < n)%nat ->
  String.length (substring k n x) = n -> (k + n <= String.length x)%nat.
Proof.
  revert k n. induction x as [|a x IH]; intros k n Hn H.
  - destruct k, n; cbn in *; lia.
  - destruct k as [|k].
    + destruct n as [|n]; cbn in *; [lia|].
      destruct n as [|n]; [lia|]. specialize (IH 0%nat (S n)). lia.
    + cbn in *. specialize (IH k n Hn H). lia.
Qed.

Lemma substring_beyond i x :
  (String.length x <= i)%nat -> substring 0 i x = x.
Proof.
  revert i. induction x as [|a x IH]; intros i H.
  - destruct i; reflexivity.
  - destruct i as [|i]; cbn in *; [lia|]. f_equal. apply IH. lia.
Qed.


Lemma append_length a b :
  String.length (a ++ b) = (String.length a + String.length b)%nat.
Proof. induction a as [|ch a IH]; [reflexivity|]. cbn. now rewrite IH. Qed.

Lemma append_assoc (a b d : string) : ((a ++ b) ++ d = a ++ (b ++ d))%string.
Proof. induction a as [|ch a IH]; [reflexivity|]. cbn. now rewrite IH. Qed.


(** The part of a string before the first occurrence of a pattern does
    not contain the pattern. *)
Lemma index_prefix_none pat x i :
  pat <> "" -> index 0 pat x = Some i ->
  index 0 pat (substring 0 i x) = None.
Proof.
  intros Hp Hi.
  destruct (index 0 pat (substring 0 i x)) as [m|] eqn:Hm; [|reflexivity].
  exfalso.
  pose proof (index_correct1 _ _ _ _ Hm) as H1.
  assert (Hl : (m + String.length pat <= String.length (substring 0 i x))%nat).
  { apply substring_full_length; [|now rewrite H1].
    destruct pat; [contradiction|cbn; lia]. }
  pose proof (substring_length 0 i x) as Hl'.
  rewrite substring_prefix_substring in H1 by lia.
  destruct pat as [|c pat]; [contradiction|]. cbn [String.length] in *.
  apply (index_correct2 _ _ _ _ Hi m); [lia | lia | exact H1].
Qed.

(** A prefix of a string without the pattern is without it too. *)
Lemma index_none_prefix pat x i :
  pat <> "" -> index 0 pat x = None ->
  index 0 pat (substring 0 i x) = None.
Proof.
  intros Hp Hi.
  destruct (index 0 pat (substring 0 i x)) as [m|] eqn:Hm; [|reflexivity].
  exfalso.
  pose proof (index_correct1 _ _ _ _ Hm) as H1.
  assert (Hl : (m + String.length pat <= String.length (substring 0 i x))%nat).
  { apply substring_full_length; [|now rewrite H1].
    destruct pat; [contradiction|cbn; lia]. }
  pose proof (substring_length 0 i x) as Hl'.
  rewrite substring_prefix_substring in H1 by lia.
  apply (index_correct3 _ m _ _ Hi Hp); [lia | exact H1].
Qed.

Lemma prefix_substring i x : prefix (substring 0 i x) x = true.
Proof.
  revert i. induction x as [|a x IH]; intros i.
  - destruct i; reflexivity.
  - destruct i as [|i]; [reflexivity|]. cbn.
    destruct (ascii_dec a a); [apply IH|contradiction].
Qed.

Lemma prefix_refl x : prefix x x = true.
Proof.
  induction x as [|a x IH]; [reflexivity|]. cbn.
  destruct (ascii_dec a a); [apply IH|contradiction].
Qed.

(** * Properties of the service state machine *)

Module ServiceProofs.
Import Service.

(** ** Symbolic execution *)

(** The term a stuck computation waits for. *)
Ltac stuck t :=
  lazymatch t with
  | match ?x with Some _ => _ | None => _ end => stuck x
  | match ?x with pair _ _ => _ end => stuck x
  | if ?x then _ else _ => stuck x
  | negb ?x => stuck x
  | andb ?x _ => stuck x
  | orb ?x _ => stuck x
  | match ?x with COND_OFF => _ | COND_FLUX => _ | COND_ON => _ end => stuck x
  | match ?x with KILL_OK => _ | KILL_ESRCH => _ | KILL_EPERM => _ end => stuck x
  | match ?x with REMOVE_OK => _ | REMOVE_ENOENT => _ | REMOVE_EIO => _ end => stuck x
  | match ?x with cb_service_kill => _ | cb_service_retry => _ end => stuck x
  | match ?x with
    | SVC_TYPE_SERVICE => _ | SVC_TYPE_TASK => _ | SVC_TYPE_RUN => _
    | SVC_TYPE_SYSV => _ | SVC_TYPE_TTY => _ | SVC_TYPE_INETD => _
    end => stuck x
  | match ?x with
    | SVC_HALTED_STATE => _ | SVC_DONE_STATE => _ | SVC_STOPPING_STATE => _
    | SVC_WAITING_STATE => _ | SVC_READY_STATE => _ | SVC_RUNNING_STATE => _
    end => stuck x
  | match ?x with
    | SVC_BLOCK_NONE => _ | SVC_BLOCK_MISSING => _ | SVC_BLOCK_CRASHING => _
    | SVC_BLOCK_USER => _ | SVC_BLOCK_RESTARTING => _
    end => stuck x
  | match ?x with EmptyString => _ | String _ _ => _ end => stuck x
  | svc_state_eqb ?x _ => stuck x
  | svc_block_eqb ?x _ => stuck x
  | svc_type_eqb ?x _ => stuck x
  | Z.eqb (state_rank ?x) _ => stuck x
  | Z.leb (state_rank ?x) _ => stuck x
  | ?f ?a =>
      let r := stuck f in
      lazymatch r with
      | f => t
      | _ => r
      end
  | _ => t
  end.

Ltac unfold_model_in H :=
  unfold step_switch, step_halted, step_done, step_stopping, step_ready,
    step_running, step_running_cond, step_waiting, service_restart,
    service_monitor, service_stop, service_start, service_cleanup,
    service_kill, svc_set_state, service_timeout_cancel,
    service_timeout_after, is_norespawn, string_nonempty,
    svc_unblock, svc_missing, svc_crashing, svc_restarting, svc_starting,
    svc_mark_clean, svc_mark_dirty, svc_is_daemon, svc_is_sysv,
    svc_is_runtask, in_mask, svc_is_blocked, svc_is_missing, svc_is_changed,
    svc_is_starting, svc_is_forking, svc_nohup, logit, when, bind, ret, get,
    modify, emit in H.

Ltac unfold_model :=
  unfold step_switch, step_halted, step_done, step_stopping, step_ready,
    step_running, step_running_cond, step_waiting, service_restart,
    service_monitor, service_stop, service_start, service_cleanup,
    service_kill, svc_set_state, service_timeout_cancel,
    service_timeout_after, is_norespawn, string_nonempty,
    svc_unblock, svc_missing, svc_crashing, svc_restarting, svc_starting,
    svc_mark_clean, svc_mark_dirty, svc_is_daemon, svc_is_sysv,
    svc_is_runtask, in_mask, svc_is_blocked, svc_is_missing, svc_is_changed,
    svc_is_starting, svc_is_forking, svc_nohup, logit, when, bind, ret, get,
    modify, emit.

(** Split on [x], or use what an earlier split has settled. *)
Ltac split_on x H :=
  lazymatch goal with
  | E : x = _ |- _ => rewrite E in H
  | _ => destruct x eqn:?
  end.

(** Run the computation in [H : m s = r], splitting on what it branches
    on. *)
Ltac exec H :=
  repeat (cbn in H;
          lazymatch type of H with
          | Some _ = _ => fail
          | None = _ => fail
          | ?lhs = _ => let x := stuck lhs in split_on x H
          end).

Ltac destruct_svc s :=
  let ty := fresh "ty" in let st := fresh "st" in let pd := fresh "pd" in
  let opd := fresh "opd" in let stt := fresh "stt" in let sta := fresh "sta" in
  let onc := fresh "onc" in let rc := fresh "cnt" in let tcb := fresh "tcb" in
  let dty := fresh "dty" in let blk := fresh "blk" in let sd := fresh "sd" in
  let sg := fresh "sg" in let fk := fresh "fk" in let kd := fresh "kd" in
  let sh := fresh "sh" in let shp := fresh "shp" in let ad := fresh "ad" in
  let rl := fresh "rl" in let cm := fresh "cm" in
  let nm := fresh "nm" in let ds := fresh "ds" in
  destruct s as [ty st pd opd stt sta onc rc tcb dty blk sd sg fk kd sh shp
                 ad rl cm nm ds].

(** ** Timers and state changes *)

Lemma service_timeout_cancel_eq e s :
  service_timeout_cancel e s =
    Some (match timer_cb s with Some _ => uev_timer_stop e | None => 0 end,
          set_timer_cb None s, cancel_events s).
Proof. destruct_svc s. destruct tcb; reflexivity. Qed.

Lemma svc_set_state_stopping e s :
  svc_set_state e SVC_STOPPING_STATE s =
    Some (tt, stopping s,
          cancel_events s ++ [EvTimerInit (killdelay s) cb_service_kill]).
Proof. destruct_svc s. destruct tcb; reflexivity. Qed.

Lemma svc_set_state_other e new s :
  new <> SVC_STOPPING_STATE ->
  svc_set_state e new s = Some (tt, set_state new s, []).
Proof. intros H. destruct_svc s. destruct new; try reflexivity. contradiction. Qed.

(** ** The loop of service_step() *)

(** Whatever service_step() returns is 0: its only [return]. *)
Lemma service_step_loop_returns_0 SYNC e fuel :
  forall changed s rc s' l,
    service_step_loop SYNC e fuel changed s = Some (rc, s', l) -> rc = 0.
Proof.
  induction fuel as [|n IH]; intros changed s rc s' l H; [discriminate|].
  cbn [service_step_loop] in H.
  apply bind_inv in H as (s0 & s1 & l1 & l2 & Hg & H & _).
  apply bind_inv in H as (u & s2 & l3 & l4 & _ & H & _).
  apply bind_inv in H as (s3 & s4 & l5 & l6 & _ & H & _).
  destruct (negb (svc_state_eqb (state s3) (state s0))).
  - now apply IH in H.
  - apply bind_inv in H as (u' & s5 & l7 & l8 & _ & H & _).
    unfold ret in H. now inversion H.
Qed.

(** A pass that leaves the state as it was ends the call; nothing is
    scheduled. *)
Lemma service_step_fixed_point SYNC e n s s1 l1 :
  step_switch SYNC e (service_step_loop SYNC e n 0) (svc_enabled e s) s
    = Some (tt, s1, l1) ->
  state s1 = state s ->
  service_step SYNC e (S n) s = Some (0, s1, l1).
Proof.
  intros Hsw Hst. unfold service_step. cbn [service_step_loop].
  unfold bind at 1, get. rewrite (bind_some _ _ _ _ _ _ Hsw).
  unfold bind at 1, get. rewrite Hst. unfold svc_state_eqb.
  rewrite Z.eqb_refl. cbn. now rewrite ?app_nil_r.
Qed.

(** Once a pass has changed the state, the call ends by scheduling the
    worker. *)
Lemma service_step_loop_schedules SYNC e fuel :
  forall changed s rc s' l,
    0 < changed ->
    service_step_loop SYNC e fuel changed s = Some (rc, s', l) ->
    exists l', l = l' ++ [EvScheduleWork work_service_worker].
Proof.
  induction fuel as [|n IH]; intros changed s rc s' l Hc H; [discriminate|].
  cbn [service_step_loop] in H.
  apply bind_inv in H as (s0 & s1 & l1 & l2 & Hg & H & ->).
  unfold get in Hg. inversion Hg; subst s0 s1 l1. clear Hg.
  apply bind_inv in H as ([] & s2 & l3 & l4 & Hsw & H & ->).
  apply bind_inv in H as (s3 & s4 & l5 & l6 & Hg & H & ->).
  unfold get in Hg. inversion Hg; subst s3 s4 l5. clear Hg.
  destruct (negb (svc_state_eqb (state s2) (state s))).
  - apply IH in H as (l' & ->); [|lia].
    exists (l3 ++ l'). cbn. now rewrite app_assoc.
  - assert (Hz : (changed =? 0) = false) by (apply Z.eqb_neq; lia).
    rewrite Hz in H. cbn in H. inversion H; subst.
    exists l3. reflexivity.
Qed.

Lemma service_step_changed_schedules SYNC e n s s1 l1 rc s' l :
  step_switch SYNC e (service_step_loop SYNC e n 0) (svc_enabled e s) s
    = Some (tt, s1, l1) ->
  state s1 <> state s ->
  service_step SYNC e (S n) s = Some (rc, s', l) ->
  exists l', l = l' ++ [EvScheduleWork work_service_worker].
Proof.
  intros Hsw Hst H. unfold service_step in H. cbn [service_step_loop] in H.
  unfold bind at 1, get in H. rewrite (bind_some _ _ _ _ _ _ Hsw) in H.
  unfold bind at 1, get in H.
  assert (Hne : svc_state_eqb (state s1) (state s) = false).
  { unfold svc_state_eqb. apply Z.eqb_neq. intros Hr. apply Hst.
    destruct (state s1), (state s); try reflexivity; discriminate Hr. }
  rewrite Hne in H. cbn [negb] in H.
  destruct (service_step_loop SYNC e n (0 + 1) s1) as [[[rc' s''] l'']|] eqn:Hl;
    [|discriminate].
  apply service_step_loop_schedules in Hl as (l' & ->); [|lia].
  inversion H; subst. exists (l1 ++ l'). cbn. rewrite ?app_nil_r.
  now rewrite app_assoc.
Qed.

(** A reap that reaches the step call cleans the bootstrap tasks once the
    step has returned, and then steps the runlevel machine. *)
Lemma service_monitor_cleans_bootstrap SYNC e fuel lost status_ s s' l :
  fexist e SYNC = false -> 1 < lost -> tty_respawn e lost = false ->
  pid s = lost -> svc_is_starting s && svc_is_forking s = false ->
  service_monitor SYNC e (service_step SYNC e fuel) lost status_ s
    = Some (tt, s', l) ->
  exists l', l = l' ++ [EvCleanBootstrap; EvSmStep].
Proof.
  intros Hf Hl Ht Hp Hsf H.
  assert (Hl' : (lost <=? 1) = false) by (apply Z.leb_gt; lia).
  unfold service_monitor in H. rewrite Hf, Hl', Ht in H. cbn [orb] in H.
  apply bind_inv in H as (s0 & s1 & l1 & l2 & Hg & H & ->).
  unfold get in Hg. inversion Hg; subst s0 s1 l1. clear Hg.
  rewrite Hp, Z.eqb_refl in H. cbn [negb] in H.
  apply bind_inv in H as ([] & s2 & l3 & l4 & _ & H & ->).
  rewrite Hsf in H.
  apply bind_inv in H as ([] & s3 & l5 & l6 & _ & H & ->).
  apply bind_inv in H as (s4 & s5 & l7 & l8 & _ & H & ->).
  apply bind_inv in H as ([] & s6 & l9 & l10 & _ & H & ->).
  apply bind_inv in H as ([] & s7 & l11 & l12 & _ & H & ->).
  apply bind_inv in H as ([] & s8 & l13 & l14 & _ & H & ->).
  apply bind_inv in H as (rc & s9 & l15 & l16 & Hs & H & ->).
  apply service_step_loop_returns_0 in Hs. subst rc.
  cbn in H. inversion H; subst.
  rewrite ?app_assoc. eexists. reflexivity.
Qed.

(** The worker steps the services, tasks and run jobs. *)
Example service_worker_steps s :
  service_worker s =
    Some (tt, s, [EvStepAll [SVC_TYPE_SERVICE; SVC_TYPE_RUN; SVC_TYPE_TASK;
                             SVC_TYPE_SYSV]]).
Proof. reflexivity. Qed.

(** A `run` job whose command fails while the job is dirty goes from
    ready to stopping inside service_start(), then to done, halted and
    ready again: the loop has no exit. *)
Lemma failing_run_diverges SYNC e fuel :
  forall changed s, failing_run e s -> in_cycle s ->
    service_step_loop SYNC e fuel changed s = None.
Proof.
  induction fuel as [|n IH]; intros changed s F C; [reflexivity|].
  destruct F as [Ht Hd Hb Hrl Hc Htd Hn Hw Hce Hst].
  assert (Hst' := Hst). unfold run_fails in Hst. apply negb_true_iff in Hst.
  destruct_svc s. unfold svc_in_runlevel in Hrl.
  cbn in Ht, Hd, Hw, Hb, Hrl, C. subst ty dty blk.
  unfold in_cycle in C; cbn in C.
  destruct st; try contradiction.
  - (* halted *)
    cbn. unfold bind at 1. cbn. unfold svc_enabled, svc_in_runlevel; cbn.
    rewrite Hrl. cbn.
    rewrite IH; [reflexivity | constructor; cbn; auto | exact I].
  - (* done *)
    cbn. rewrite IH; [reflexivity | constructor; cbn; auto | exact I].
  - (* stopping, child collected *)
    subst pd. cbn.
    destruct tcb; cbn;
      (rewrite IH; [reflexivity | constructor; cbn; auto | exact I]).
  - (* ready *)
    cbn. unfold bind at 1. cbn. unfold svc_enabled, svc_in_runlevel; cbn.
    rewrite Hrl. cbn. unfold step_ready. cbn. rewrite Hc, Htd.
    unfold service_start. rewrite Hn. unfold bind at 1. cbn. rewrite Hw, Hce.
    destruct ds, tcb; cbn; rewrite Hst; cbn.
    all: rewrite IH;
      [ reflexivity
      | constructor; cbn; first [assumption | reflexivity]
      | unfold in_cycle; cbn; reflexivity ].
Qed.

(** C1 (code defect): service_step() does not reach a fixed point for
    `run [2345] /bin/false` registered from a changed file: whatever the
    number of passes allowed, the call has not returned. *)
Theorem service_step_never_settles :
  forall SYNC fuel, service_step SYNC env_exit1 fuel svc_run_false = None.
Proof.
  intros SYNC fuel. unfold service_step.
  apply failing_run_diverges; [constructor; reflexivity | exact I].
Qed.

(** C10 (code defect): on the same job, found done and dirty after a
    reload, service_step() returns no value at all, hence not 0. *)
Theorem service_step_returns_nothing :
  forall SYNC fuel r, service_step SYNC env_exit1 fuel svc_run_done <> Some r.
Proof.
  intros SYNC fuel r. unfold service_step.
  rewrite failing_run_diverges; [discriminate | constructor; reflexivity | exact I].
Qed.

(** ** Arithmetic side conditions *)

Ltac zbool :=
  repeat match goal with
         | H : (_ =? _) = true |- _ => apply Z.eqb_eq in H
         | H : (_ =? _) = false |- _ => apply Z.eqb_neq in H
         | H : (_ <=? _) = true |- _ => apply Z.leb_le in H
         | H : (_ <=? _) = false |- _ => apply Z.leb_gt in H
         | H : (_ <? _) = true |- _ => apply Z.ltb_lt in H
         | H : (_ <? _) = false |- _ => apply Z.ltb_ge in H
         end.

Ltac by_lia := exfalso; zbool; cbn in *; lia.

(** ** WAITING *)

(** C5: one pass of service_step() over a service in the waiting state. *)
Theorem step_waiting_behaviour :
  forall SYNC e (rec : M Z) s,
    state s = SVC_WAITING_STATE ->
    let enabled := svc_enabled e s in
    let step := step_switch SYNC e rec enabled in
    (enabled = false ->
       step s = (emit (EvKill (pid s) SIGCONT) ;; service_stop e ;; ret tt) s) /\
    (enabled = true -> pid s = 0 ->
       step s = Some (tt, set_state SVC_READY_STATE
                            (set_restart_cnt (char_incr (restart_cnt s)) s), [])) /\
    (enabled = true -> pid s <> 0 -> cond_get_agg e = COND_ON ->
       step s = Some (tt, set_state SVC_RUNNING_STATE s,
                      EvKill (pid s) SIGCONT ::
                      (if dirty s then [] else [EvCondSetPath (mkcond e) COND_ON]))) /\
    (enabled = true -> pid s <> 0 -> cond_get_agg e = COND_OFF ->
       step s = (emit (EvKill (pid s) SIGCONT) ;; service_stop e ;; ret tt) s) /\
    (enabled = true -> pid s <> 0 -> cond_get_agg e = COND_FLUX ->
       step s = Some (tt, s, []) /\
       forall n, service_step SYNC e (S n) s = Some (0, s, [])).
Proof.
  intros SYNC e rec s Hst enabled step. subst step enabled.
  destruct_svc s. cbn in Hst. subst st.
  set (s := mk_svc _ _ _ _ _ _ _ _ _ _ _ _ _ _ _ _ _ _ _ _ _ _).
  assert (Hstop : forall b, b = false \/ cond_get_agg e = COND_OFF /\ pd <> 0 ->
            step_switch SYNC e rec b s =
            (emit (EvKill (pid s) SIGCONT) ;; service_stop e ;; ret tt) s).
  { intros b Hb. unfold step_switch, step_waiting, bind, get, emit, ret; cbn [state pid s].
    destruct Hb as [-> | [Hc Hp]]; cbn [negb].
    - destruct (service_stop e s) as [[[a s'] l]|]; reflexivity.
    - apply Z.eqb_neq in Hp. rewrite Hp, Hc.
      destruct b; cbn [negb]; destruct (service_stop e s) as [[[a s'] l]|]; reflexivity. }
  repeat split.
  - intros H. apply Hstop. now left.
  - intros -> Hp. cbn in Hp. subst pd. reflexivity.
  - intros -> Hp Hc. cbn in Hp. apply Z.eqb_neq in Hp.
    cbn. rewrite Hp, Hc. destruct dty; reflexivity.
  - intros _ Hp Hc. apply Hstop. right. split; assumption.
  - cbn in H0. apply Z.eqb_neq in H0.
    rewrite H. cbn. rewrite H0, H1. reflexivity.
  - intros n. cbn in H0. apply Z.eqb_neq in H0.
    unfold service_step. cbn [service_step_loop]. unfold bind at 1, get.
    rewrite H. subst s. unfold_model. cbn. rewrite H0, H1. reflexivity.
Qed.

Lemma step_waiting_behaviour_witness :
  state (svc_daemon SVC_WAITING_STATE 77 None SVC_BLOCK_NONE 0) = SVC_WAITING_STATE /\
  forall n, service_step "/run/finit/shutdown" env_flux (S n)
              (svc_daemon SVC_WAITING_STATE 77 None SVC_BLOCK_NONE 0)
            = Some (0, svc_daemon SVC_WAITING_STATE 77 None SVC_BLOCK_NONE 0, []).
Proof.
  split; [reflexivity|].
  refine (proj2 (proj2 (proj2 (proj2 (proj2
    (step_waiting_behaviour "/run/finit/shutdown" env_flux (ret 0)
       (svc_daemon SVC_WAITING_STATE 77 None SVC_BLOCK_NONE 0) eq_refl))))
    eq_refl _ eq_refl)).
  cbn. lia.
Defined.

(** ** service_stop() *)

Lemma stopping_cancelled s : stopping (set_timer_cb None s) = stopping s.
Proof. now destruct_svc s. Qed.

(** C6 (counterexample): a daemon found running without a child is left in
    the running state by service_stop(). *)
Lemma service_stop_without_child :
  ~ stop_enters_stopping env_ok (svc_daemon SVC_RUNNING_STATE 0 None SVC_BLOCK_NONE 0).
Proof.
  intros H. destruct H as (rc & s' & l & Hs & Hst); [cbn; lia|].
  cbn in Hs. inversion Hs; subst. discriminate Hst.
Qed.

(** C6 (amended): service_stop() on a service in a state above stopping
    cancels its timer; a service that is no SysV script and has no child
    (pid <= 1) is then left as it is and 1 is returned; otherwise the
    service enters the stopping state, and either its process group is
    sent the halt signal, the books being cleaned when kill() fails with
    ESRCH, or the SysV script is forked with "stop" and waited for. *)
Theorem service_stop_above_stopping :
  forall e s,
    state_rank SVC_STOPPING_STATE < state_rank (state s) ->
    let prdesc := if runlevel e =? 1 then [] else [EvPrintDesc "Stopping " (desc s)] in
    let prres rc := if runlevel e =? 1 then [] else [EvPrintResult rc] in
    (svc_is_sysv s = false -> pid s <= 1 ->
       service_stop e s = Some (1, set_timer_cb None s, cancel_events s)) /\
    (svc_is_sysv s = false -> 1 < pid s ->
       forall r, kill e (- pid s) (sighalt s) = r ->
       service_stop e s =
         Some (kill_rc r,
               match r with KILL_ESRCH => cleaned (stopping s) | _ => stopping s end,
               cancel_events s ++
               [EvLogit true LOG_NOTICE "Stopping %s[%d], sending %s ...";
                EvTimerInit (killdelay s) cb_service_kill] ++ prdesc ++
               [EvKill (- pid s) (sighalt s)] ++
               match r with KILL_ESRCH => cleanup_events e | _ => [] end ++
               prres (kill_rc r))) /\
    (svc_is_sysv s = true ->
       let rc := if fork e =? -1 then 1 else WEXITSTATUS (complete e) in
       service_stop e s =
         Some (rc, stopping s,
               cancel_events s ++
               [EvLogit true LOG_NOTICE "Calling '%s stop' ...";
                EvTimerInit (killdelay s) cb_service_kill] ++ prdesc ++
               [EvFork child_sysv_stop] ++
               (if fork e =? -1
                then [EvError "Failed fork() to call sysv script '%s stop'"]
                else [EvComplete (cmd s) (fork e)]) ++
               prres rc)) /\
    pid (cleaned (stopping s)) = 0 /\
    oldpid (cleaned (stopping s)) = pid s /\
    (forall fn, pid_file e = Some fn -> In (EvRemove fn) (cleanup_events e)).
Proof.
  intros e s Hst prdesc prres. subst prdesc prres.
  destruct_svc s. cbn in Hst.
  repeat split.
  - intros Hsysv Hp. cbn in Hsysv, Hp. apply Z.leb_le in Hp.
    unfold service_stop. unfold bind at 1, get. cbn [state].
    destruct st; cbn in Hst; try lia.
    all: cbn; rewrite Hsysv; cbn; rewrite Hp; destruct tcb; reflexivity.
  - intros Hsysv Hp r Hr. unfold svc_is_sysv in Hsysv. cbn in Hsysv, Hp, Hr.
    assert (Hp1 : (pd <=? 1) = false) by (apply Z.leb_gt; lia).
    apply Z.ltb_lt in Hp.
    unfold cleanup_events.
    destruct st; cbn in Hst; try lia.
    all: unfold_model; cbn; rewrite Hsysv; cbn; rewrite Hp1; cbn; rewrite Hp, Hr;
      destruct tcb, (runlevel e =? 1), r; cbn;
      try reflexivity;
      destruct (pid_file e) as [fn|]; cbn; try reflexivity;
      destruct (remove e fn); reflexivity.
  - intros Hsysv. unfold svc_is_sysv in Hsysv. cbn in Hsysv.
    destruct st; cbn in Hst; try lia.
    all: unfold_model; cbn; rewrite Hsysv; cbn;
      destruct tcb, (runlevel e =? 1), (fork e =? -1); reflexivity.
  - intros fn Hfn. unfold cleanup_events. rewrite Hfn. now left.
Qed.

Lemma service_stop_above_stopping_witness :
  state_rank SVC_STOPPING_STATE <
    state_rank (state (svc_daemon SVC_RUNNING_STATE 77 None SVC_BLOCK_NONE 0)) /\
  service_stop env_ok (svc_daemon SVC_RUNNING_STATE 77 None SVC_BLOCK_NONE 0) =
    Some (0, svc_daemon SVC_STOPPING_STATE 77 (Some cb_service_kill) SVC_BLOCK_NONE 0,
          [EvLogit true LOG_NOTICE "Stopping %s[%d], sending %s ...";
           EvTimerInit 3000 cb_service_kill; EvPrintDesc "Stopping " "";
           EvKill (-77) 15; EvPrintResult 0]).
Proof.
  assert (H : state_rank SVC_STOPPING_STATE <
    state_rank (state (svc_daemon SVC_RUNNING_STATE 77 None SVC_BLOCK_NONE 0)))
    by (cbn; lia).
  split; [exact H|].
  refine (proj1 (proj2 (service_stop_above_stopping env_ok _ H)) eq_refl _ KILL_OK eq_refl).
  cbn. lia.
Defined.

(** ** Restart counter *)

(** C3 (code defect): with the norespawn sentinel in place every call of
    service_step() on a ready daemon counts a failed start; after eleven
    turns of the event loop the counter stands at 11, above a cap of 10,
    and the service is not marked crashing. *)
Theorem restart_cnt_exceeds_respawn_max :
  let SVC_RESPAWN_MAX := 10 in
  forall SYNC, exists s' l,
    step_times SYNC env_norespawn 1 11
      (svc_daemon SVC_READY_STATE 0 None SVC_BLOCK_NONE 0) = Some (tt, s', l) /\
    restart_cnt s' = 11 /\
    SVC_RESPAWN_MAX < restart_cnt s' /\
    block s' = SVC_BLOCK_NONE.
Proof.
  intros MAX SYNC. vm_compute.
  eexists. eexists. split; [reflexivity|]. repeat split; reflexivity.
Qed.

(** ** The kill-timer *)

Ltac finish_inv Hrec H :=
  first
    [ discriminate H
    | inversion H; subst; clear H;
      repeat match goal with
             | E : _ = Some (_, ?s2, _) |- _ =>
                 apply Hrec in E;
                 [ destruct_svc s2
                 | unfold kill_timer_inv; cbn; intros;
                   first [discriminate | tauto | auto] ]
             end;
      unfold kill_timer_inv in *; cbn in *; intros;
      try discriminate; zbool; try solve [auto]; intuition congruence ].

Lemma step_switch_inv SYNC e (rec : M Z) enabled :
  (forall s rc s' l, kill_timer_inv s -> rec s = Some (rc, s', l) -> kill_timer_inv s') ->
  forall s s' l,
    kill_timer_inv s ->
    step_switch SYNC e rec enabled s = Some (tt, s', l) ->
    kill_timer_inv s'.
Proof.
  intros Hrec s s' l HJ H.
  destruct_svc s. unfold kill_timer_inv in HJ; cbn in HJ.
  unfold_model_in H.
  destruct st; exec H; finish_inv Hrec H.
Qed.

Lemma service_step_loop_inv SYNC e fuel :
  forall changed s rc s' l,
    kill_timer_inv s ->
    service_step_loop SYNC e fuel changed s = Some (rc, s', l) ->
    kill_timer_inv s'.
Proof.
  induction fuel as [|n IH]; intros changed s rc s' l HJ H; [discriminate|].
  cbn [service_step_loop] in H.
  apply bind_inv in H as (s0 & s1 & l1 & l2 & Hg & H & _).
  unfold get in Hg. inversion Hg; subst s0 s1 l1. clear Hg.
  apply bind_inv in H as ([] & s2 & l3 & l4 & Hsw & H & _).
  apply (step_switch_inv _ _ _ _ (IH 0)) in Hsw; [|assumption].
  apply bind_inv in H as (s3 & s4 & l5 & l6 & Hg & H & _).
  unfold get in Hg. inversion Hg; subst s3 s4 l5. clear Hg.
  destruct (negb (svc_state_eqb (state s2) (state s))).
  - now apply IH in H.
  - apply bind_inv in H as (u' & s5 & l7 & l8 & Hw & H & _).
    unfold ret in H. inversion H; subst.
    destruct (negb (changed =? 0)); cbn in Hw; inversion Hw; now subst.
Qed.

Lemma service_stop_inv e s rc s' l :
  kill_timer_inv s -> service_stop e s = Some (rc, s', l) -> kill_timer_inv s'.
Proof.
  intros HJ H. destruct_svc s. unfold kill_timer_inv in HJ; cbn in HJ.
  unfold_model_in H.
  destruct st; exec H; finish_inv HJ H.
Qed.

Lemma service_monitor_inv SYNC e (rec : M Z) lost status_ s s' l :
  (forall s rc s' l, kill_timer_inv s -> rec s = Some (rc, s', l) -> kill_timer_inv s') ->
  kill_timer_inv s ->
  service_monitor SYNC e rec lost status_ s = Some (tt, s', l) ->
  kill_timer_inv s'.
Proof.
  intros Hrec HJ H. destruct_svc s. unfold kill_timer_inv in HJ; cbn in HJ.
  unfold_model_in H.
  exec H; finish_inv Hrec H.
Qed.

Lemma service_retry_inv MAX SYNC e fuel s s' l :
  timer_cb s = Some cb_service_retry ->
  kill_timer_inv s ->
  service_retry MAX SYNC e fuel s = Some (tt, s', l) ->
  kill_timer_inv s'.
Proof.
  intros Ht HJ H. destruct_svc s. cbn in Ht. subst tcb.
  unfold kill_timer_inv in HJ; cbn in HJ.
  unfold service_retry, service_step in H. unfold_model_in H.
  exec H; finish_inv (service_step_loop_inv SYNC e fuel) H.
Qed.

Lemma service_kill_eq e s :
  service_kill e s =
    Some (tt, set_timer_cb None s,
          cancel_events s ++
          (if pid s <=? 1 then []
           else [EvLogit true LOG_NOTICE "Stopping %s[%d], sending SIGKILL ..."] ++
                (if runlevel e =? 1 then [] else [EvPrintDesc "Killing " (desc s)]) ++
                [EvKill (- pid s) SIGKILL] ++
                (if runlevel e =? 1 then [] else [EvPrint 2]))).
Proof.
  destruct_svc s. destruct tcb; unfold_model; cbn;
    destruct (pd <=? 1), (runlevel e =? 1); reflexivity.
Qed.

(** C2 (counterexample): a `run` job enters the stopping state with its
    child already collected; the callback armed then sends no signal. *)
Lemma kill_callback_without_child :
  ~ kill_callback_signals env_ok svc_run_false.
Proof.
  intros H. destruct (H _ _ eq_refl) as (s2 & l2 & Hk & Hin).
  cbn in Hk. inversion Hk; subst. cbn in Hin.
  destruct Hin as [Hin|[]]. discriminate Hin.
Qed.

(** C2 (amended): every entry into the stopping state first cancels the
    pending timer and then arms a timer of [killdelay] ms running
    service_kill(); that callback cancels the timer and, when the service
    still has a child (pid > 1), sends SIGKILL to its process group; and a
    stopping service keeps its kill-timer armed through whatever the event
    loop does to it, until the child is collected (pid = 0) or the kill
    callback itself has run. *)
Theorem stopping_kill_timer :
  forall MAX SYNC e,
    (forall s,
       svc_set_state e SVC_STOPPING_STATE s =
         Some (tt, stopping s,
               cancel_events s ++ [EvTimerInit (killdelay s) cb_service_kill]) /\
       state (stopping s) = SVC_STOPPING_STATE /\
       timer_cb (stopping s) = Some cb_service_kill) /\
    (forall fuel s,
       timer_cb s = Some cb_service_kill ->
       service_timeout_cb MAX SYNC e fuel s =
         Some (tt, set_timer_cb None s,
               EvTimerStop ::
               (if pid s <=? 1 then []
                else [EvLogit true LOG_NOTICE "Stopping %s[%d], sending SIGKILL ..."] ++
                     (if runlevel e =? 1 then [] else [EvPrintDesc "Killing " (desc s)]) ++
                     [EvKill (- pid s) SIGKILL] ++
                     (if runlevel e =? 1 then [] else [EvPrint 2])))) /\
    (forall fuel o s s' l,
       kill_timer_inv s ->
       ~ is_kill_callback o s ->
       run_op MAX SYNC e fuel o s = Some (tt, s', l) ->
       kill_timer_inv s').
Proof.
  intros MAX SYNC e. split; [|split].
  - intros s. split; [apply svc_set_state_stopping|].
    destruct_svc s. split; reflexivity.
  - intros fuel s Ht. unfold service_timeout_cb.
    unfold bind at 1, get. rewrite Ht.
    rewrite service_kill_eq. unfold cancel_events. rewrite Ht. reflexivity.
  - intros fuel o s s' l HJ Hk H. destruct o; cbn [run_op] in H.
    + apply bind_inv in H as (rc & s1 & l1 & l2 & Hs & H & _).
      unfold ret in H. inversion H; subst.
      eapply service_step_loop_inv; eassumption.
    + apply bind_inv in H as (rc & s1 & l1 & l2 & Hs & H & _).
      unfold ret in H. inversion H; subst.
      eapply service_stop_inv; eassumption.
    + eapply service_monitor_inv; [|eassumption|eassumption].
      apply service_step_loop_inv.
    + unfold service_timeout_cb in H. unfold bind at 1, get in H.
      destruct (timer_cb s) as [[]|] eqn:Ht.
      * exfalso. apply Hk. now split.
      * destruct (service_retry MAX SYNC e fuel s) as [[[[] s1] l1]|] eqn:Hr;
          [|discriminate].
        inversion H; subst. eapply service_retry_inv; eassumption.
      * unfold ret in H. inversion H; now subst.
Qed.

Lemma stopping_kill_timer_witness :
  kill_timer_inv (svc_daemon SVC_RUNNING_STATE 77 None SVC_BLOCK_NONE 0) /\
  kill_timer_inv (svc_daemon SVC_STOPPING_STATE 77 (Some cb_service_kill) SVC_BLOCK_NONE 0).
Proof.
  assert (H0 : kill_timer_inv (svc_daemon SVC_RUNNING_STATE 77 None SVC_BLOCK_NONE 0))
    by (intros H; discriminate H).
  split; [exact H0|].
  refine (proj2 (proj2 (stopping_kill_timer 10 "/run/finit/shutdown" env_ok))
            1%nat OpStop _ _ _ H0 _ eq_refl).
  intros [H _]. discriminate H.
Defined.

(** ** The crash-retry callback *)

(** Bring the service a nested step is applied to into the form it has
    in [Hs]. *)
Ltac same_arg Hs :=
  lazymatch type of Hs with
  | service_step_loop ?a ?b ?c ?d ?y = _ =>
      match goal with
      | |- context [service_step_loop a b c d ?x] => change x with y
      end
  end.

(** A daemon that has just been unblocked in the halted state is started,
    or left ready or halted; no timer is armed on the way. *)
Lemma service_step_after_unblock SYNC e fuel s :
  fork e <> 0 -> (3 <= fuel)%nat ->
  svc_is_daemon s = true ->
  state s = SVC_HALTED_STATE ->
  block s = SVC_BLOCK_NONE ->
  timer_cb s = None ->
  exists s' l,
    service_step SYNC e fuel s = Some (0, s', l) /\ timer_cb s' = None.
Proof.
  intros Hfork Hfuel Hd Hst Hb Ht.
  destruct fuel as [|[|[|k]]]; try lia. clear Hfuel.
  destruct_svc s. unfold svc_is_daemon in Hd. cbn in Hd, Hst, Hb, Ht. subst st blk tcb.
  destruct ty; try discriminate Hd. clear Hd.
  apply Z.eqb_neq in Hfork.
  remember (service_step SYNC e (S (S (S k))) _) as r eqn:H. symmetry in H.
  unfold service_step in H. cbn [service_step_loop] in H.
  unfold svc_enabled, svc_in_runlevel in H. unfold_model_in H.
  exec H.
  all: subst r; eexists; eexists; split; reflexivity.
Qed.

(** A service marked crashing stays halted: service_step() is a no-op. *)
Lemma service_step_crashing SYNC e n s :
  state s = SVC_HALTED_STATE ->
  block s = SVC_BLOCK_CRASHING ->
  svc_enabled e s = false /\ service_step SYNC e (S n) s = Some (0, s, []).
Proof.
  intros Hst Hb. destruct_svc s. cbn in Hst, Hb. subst st blk.
  assert (He : svc_enabled e (mk_svc ty SVC_HALTED_STATE pd opd stt sta onc
            cnt tcb dty SVC_BLOCK_CRASHING sd sg fk kd sh shp ad rl cm nm ds) = false).
  { unfold svc_enabled, svc_is_blocked. cbn. now rewrite andb_false_r. }
  split; [apply He|].
  unfold service_step. cbn [service_step_loop]. unfold bind at 1, get.
  rewrite He. reflexivity.
Qed.

(** C4: the retry callback on a crashing daemon (halted, blocked as
    restarting).  Below the cap it counts the restart, unblocks and steps
    the service and arms itself again, for 2000 ms while the counter is at
    most SVC_RESPAWN_MAX / 2 and for 5000 ms after that.  At the cap it
    warns, marks the service crashing, clears the counter and arms
    nothing: the service then stays halted through every later step until
    the block is cleared, as service_register() does on a reload. *)
Theorem service_retry_backoff :
  forall MAX SYNC e fuel s,
    fork e <> 0 -> (3 <= fuel)%nat ->
    svc_is_daemon s = true ->
    state s = SVC_HALTED_STATE ->
    block s = SVC_BLOCK_RESTARTING ->
    (restart_cnt s < MAX ->
       let s1 := set_block SVC_BLOCK_NONE
                   (set_restart_cnt (char_incr (restart_cnt s))
                      (set_timer_cb None s)) in
       exists s2 l2,
         service_step SYNC e fuel s1 = Some (0, s2, l2) /\
         service_retry MAX SYNC e fuel s =
           Some (tt, set_timer_cb (Some cb_service_retry) s2,
                 cancel_events s ++
                 [EvLogit true LOG_WARNING "Service %s[%d] died, restarting (%d/%d)"] ++
                 l2 ++
                 [EvTimerInit (if restart_cnt s2 <=? Z.quot MAX 2 then 2000 else 5000)
                    cb_service_retry])) /\
    (MAX <= restart_cnt s ->
       let s1 := set_restart_cnt 0
                   (set_block SVC_BLOCK_CRASHING (set_timer_cb None s)) in
       service_retry MAX SYNC e fuel s =
         Some (tt, s1,
               cancel_events s ++
               [EvLogit true LOG_WARNING "Service %s keeps crashing, not restarting."]) /\
       timer_cb s1 = None /\
       state s1 = SVC_HALTED_STATE /\
       svc_enabled e s1 = false /\
       (forall n, service_step SYNC e (S n) s1 = Some (0, s1, [])) /\
       (forall n, service_timeout_cb MAX SYNC e n s1 = Some (tt, s1, [])) /\
       svc_enabled e (set_block SVC_BLOCK_NONE s1) =
         svc_in_runlevel s (runlevel e)).
Proof.
  intros MAX SYNC e fuel s Hfork Hfuel Hd Hst Hb. split.
  - intros Hcnt s1.
    destruct (service_step_after_unblock SYNC e fuel s1 Hfork Hfuel)
      as (s2 & l2 & Hs & Ht2); try (subst s1; destruct_svc s; assumption || reflexivity).
    exists s2, l2. split; [exact Hs|].
    apply Z.leb_gt in Hcnt. subst s1.
    destruct_svc s. cbn in Hst, Hb, Hcnt, Hs. subst st blk.
    unfold service_step in Hs.
    unfold service_retry, service_step. unfold_model. 
    destruct tcb; cbn; rewrite Hcnt; same_arg Hs; rewrite Hs; cbn;
      rewrite Ht2; cbn; rewrite ?app_nil_r; reflexivity.
  - intros Hcnt s1.
    assert (Hs1 : state s1 = SVC_HALTED_STATE /\ block s1 = SVC_BLOCK_CRASHING /\
                  timer_cb s1 = None).
    { subst s1. destruct_svc s. cbn in *. now subst. }
    destruct Hs1 as (Hst1 & Hb1 & Ht1).
    pose proof (fun n => service_step_crashing SYNC e n s1 Hst1 Hb1) as Hcr.
    split; [|split; [assumption|split; [assumption|split; [|split; [|split]]]]].
    + apply Z.leb_le in Hcnt.
      destruct fuel as [|n]; [lia|]. subst s1.
      destruct_svc s. cbn in Hst, Hb, Hcnt. subst st blk.
      unfold service_retry, service_step. unfold_model.
      destruct tcb; cbn; rewrite Hcnt; cbn;
        unfold svc_enabled, svc_in_runlevel, svc_is_blocked; cbn;
        destruct (Z.testbit rl (runlevel e)); reflexivity.
    + apply (proj1 (Hcr 0%nat)).
    + intros n. apply (proj2 (Hcr n)).
    + intros n. unfold service_timeout_cb, bind, get. rewrite Ht1. reflexivity.
    + subst s1. destruct_svc s. unfold svc_enabled, svc_is_blocked. cbn.
      now rewrite andb_true_r.
Qed.

Lemma service_retry_backoff_witness :
  fork env_ok <> 0 /\
  service_retry 10 "/run/finit/shutdown" env_ok 3
    (svc_daemon SVC_HALTED_STATE 0 (Some cb_service_retry) SVC_BLOCK_RESTARTING 10) =
  Some (tt, svc_daemon SVC_HALTED_STATE 0 None SVC_BLOCK_CRASHING 0,
        [EvTimerStop;
         EvLogit true LOG_WARNING "Service %s keeps crashing, not restarting."]).
Proof.
  assert (H : fork env_ok <> 0) by discriminate.
  split; [exact H|].
  refine (proj1 (proj2 (service_retry_backoff 10 "/run/finit/shutdown" env_ok 3
            (svc_daemon SVC_HALTED_STATE 0 (Some cb_service_retry) SVC_BLOCK_RESTARTING 10)
            H _ eq_refl eq_refl eq_refl) _)).
  - lia.
  - cbn. lia.
Defined.

(** ** The kill: directive *)

Lemma wrap_signed_small w z :
  0 < w -> - 2 ^ (w - 1) <= z < 2 ^ (w - 1) -> wrap_signed w z = z.
Proof.
  intros Hw Hz. unfold wrap_signed.
  assert (H2 : 2 ^ w = 2 * 2 ^ (w - 1)).
  { replace w with (Z.succ (w - 1)) at 1 by lia. apply Z.pow_succ_r. lia. }
  rewrite Z.mod_small; lia.
Qed.

Lemma digit_of_digit d :
  (d < 10)%nat -> digit_of (ascii_of_nat (48 + d)) = Some (Z.of_nat d).
Proof.
  intros H. do 10 (destruct d as [|d]; [reflexivity|]). lia.
Qed.

Lemma read_digits_digits ds :
  Forall (fun d => (d < 10)%nat) ds ->
  forall acc cnt,
    read_digits acc cnt (digits_string ds) =
      (digits_value acc ds, (cnt + List.length ds)%nat, EmptyString).
Proof.
  induction 1 as [|d r Hd Hr IH]; intros acc cnt; cbn [digits_string read_digits].
  - cbn. now rewrite Nat.add_0_r.
  - rewrite (digit_of_digit d Hd), IH. cbn [digits_value List.length].
    now rewrite Nat.add_succ_r.
Qed.

Lemma numeric_value_digits d ds :
  Forall (fun d => (d < 10)%nat) (d :: ds) ->
  numeric_value (digits_string (d :: ds)) = Some (digits_value 0 (d :: ds)).
Proof.
  intros H. unfold numeric_value.
  assert (Hd : (d < 10)%nat) by now inversion H.
  assert (Hs : read_sign (skip_space (digits_string (d :: ds))) =
               (false, digits_string (d :: ds))).
  { cbn [digits_string]. do 10 (destruct d as [|d]; [reflexivity|]). lia. }
  rewrite Hs, (read_digits_digits _ H). reflexivity.
Qed.

(** C8: a [kill:] argument is accepted exactly when it denotes a number
    from 1 to 60; the delay stored is that number of seconds in
    milliseconds, between 1000 and 60000; any other argument is reported
    and leaves the service as it was. *)
Theorem parse_killdelay_range :
  forall delay s,
    match numeric_value delay with
    | Some n =>
        if (1 <=? n) && (n <=? 60)
        then parse_killdelay delay s = Some (tt, set_killdelay (n * 1000) s, []) /\
             1000 <= n * 1000 <= 60000
        else parse_killdelay delay s =
               Some (tt, s, [EvError "%s: killdelay %s is %s (1-60)"])
    | None =>
        parse_killdelay delay s =
          Some (tt, s, [EvError "%s: killdelay %s is %s (1-60)"])
    end.
Proof.
  intros delay s.
  unfold numeric_value, parse_killdelay, strtonum, strtoll.
  change (60 <? 1) with false. cbv iota.
  destruct (read_sign (skip_space delay)) as [neg y].
  destruct (read_digits 0 0 y) as [[v cnt] rest].
  destruct cnt as [|cnt]; [reflexivity|].
  destruct rest as [|c rest].
  2:{ destruct (LLONG_MAX <? _); [reflexivity|].
      destruct (_ <? LLONG_MIN); reflexivity. }
  set (n := if neg then - v else v).
  unfold LLONG_MAX, LLONG_MIN.
  destruct (1 <=? n) eqn:H1; destruct (n <=? 60) eqn:H60; cbn [andb];
    destruct (9223372036854775807 <? n) eqn:Hmax;
    destruct (n <? -9223372036854775808) eqn:Hmin; zbool; try lia.
  all: cbn -[Z.mul wrap_signed].
  all: try reflexivity.
  all: repeat match goal with
       | |- context [?a <? ?b] => 
           let E := fresh in destruct (a <? b) eqn:E; zbool; try lia
       | |- context [?a =? ?b] => 
           let E := fresh in destruct (a =? b) eqn:E; zbool; try lia
       end; cbn -[Z.mul wrap_signed]; try reflexivity.
  split; [|lia].
  rewrite wrap_signed_small by lia. reflexivity.
Qed.

Example parse_killdelay_2 s :
  parse_killdelay "2" s = Some (tt, set_killdelay 2000 s, []).
Proof. reflexivity. Qed.

Example parse_killdelay_61 s :
  parse_killdelay "61" s = Some (tt, s, [EvError "%s: killdelay %s is %s (1-60)"]).
Proof. reflexivity. Qed.

Example parse_killdelay_soon s :
  parse_killdelay "soon" s = Some (tt, s, [EvError "%s: killdelay %s is %s (1-60)"]).
Proof. reflexivity. Qed.

(** ** Scenarios of the state machine *)

(** One pass of the loop that changes the state, and the last one. *)
Lemma service_step_loop_pass SYNC e n changed s s1 l1 :
  step_switch SYNC e (service_step_loop SYNC e n 0) (svc_enabled e s) s
    = Some (tt, s1, l1) ->
  state s1 <> state s ->
  service_step_loop SYNC e (S n) changed s =
    match service_step_loop SYNC e n (changed + 1) s1 with
    | Some (rc, s2, l2) => Some (rc, s2, l1 ++ l2)
    | None => None
    end.
Proof.
  intros Hsw Hst. cbn [service_step_loop].
  unfold bind at 1, get. rewrite (bind_some _ _ _ _ _ _ Hsw).
  unfold bind at 1, get.
  assert (Hne : svc_state_eqb (state s1) (state s) = false).
  { unfold svc_state_eqb. apply Z.eqb_neq. intros Hr. apply Hst.
    destruct (state s1), (state s); try reflexivity; discriminate Hr. }
  rewrite Hne. cbn [negb].
  destruct (service_step_loop SYNC e n (changed + 1) s1) as [[[rc s2] l2]|];
    cbn; rewrite ?app_nil_r; reflexivity.
Qed.

Lemma service_step_loop_last SYNC e n changed s s1 l1 :
  step_switch SYNC e (service_step_loop SYNC e n 0) (svc_enabled e s) s
    = Some (tt, s1, l1) ->
  state s1 = state s ->
  service_step_loop SYNC e (S n) changed s =
    Some (0, s1,
          l1 ++ if changed =? 0 then [] else [EvScheduleWork work_service_worker]).
Proof.
  intros Hsw Hst. cbn [service_step_loop].
  unfold bind at 1, get. rewrite (bind_some _ _ _ _ _ _ Hsw).
  unfold bind at 1, get. rewrite Hst. unfold svc_state_eqb.
  rewrite Z.eqb_refl. cbn [negb].
  destruct (changed =? 0); cbn; rewrite ?app_nil_r; reflexivity.
Qed.

(** Evaluate with what the hypotheses say of the environment. *)
Ltac use_hyps :=
  repeat (cbn;
          match goal with
          | H : ?x = _ |- context [?x] => rewrite H
          end).

Ltac run_switch :=
  unfold svc_enabled, svc_in_runlevel; unfold_model; use_hyps; cbn;
  rewrite ?app_nil_r; reflexivity.

Ltac pass :=
  erewrite service_step_loop_pass; [ | run_switch | cbn; discriminate ].

Ltac last_pass :=
  erewrite service_step_loop_last; [ | run_switch | reflexivity ].

(** Split [svc_enabled e s = true] into its parts. *)
Ltac enabled_parts He Hrl :=
  unfold svc_enabled, svc_in_runlevel, svc_is_blocked in He; cbn in He;
  apply andb_prop in He as [Hrl He];
  match type of He with
  | negb (negb (svc_block_eqb ?b _)) = true =>
      destruct b; try discriminate He; clear He
  end.

(** X1: a `run` job that is halted, enabled and whose condition is on is
    run to its end by one call of service_step(): when the command exits
    with status 0 the job ends in the done state, clean, without child or
    timer, and its [once] counter has been incremented twice, once in
    service_start() and once in the running state. *)
Theorem run_job_succeeds SYNC e n s :
  type s = SVC_TYPE_RUN -> state s = SVC_HALTED_STATE ->
  svc_enabled e s = true -> cond_get_agg e = COND_ON ->
  sm_is_in_teardown e = false -> is_norespawn e = false ->
  whichp e (cmd s) = true -> svc_checkenv e = true ->
  run_fails e = false ->
  service_step SYNC e (5 + n) s =
    Some (0,
          set_state SVC_DONE_STATE
            (set_timer_cb None
               (set_dirty false
                  (set_once (int_incr (int_incr (once s)))
                     (set_start_time 0
                        (set_pid 0
                           (set_status (complete e) (set_starting true s))))))),
          progress_desc s ++
          [EvSigBlock; EvFork child_start; EvCgroupService (fork e);
           EvLogit true LOG_NOTICE "Starting %s[%d]"; EvComplete (cmd s) (fork e)] ++
          cancel_events s ++
          [EvTimerInit (killdelay s) cb_service_kill; EvSigRestore] ++
          progress_result s 0 ++
          [EvTimerStop; EvTimerInit (killdelay s) cb_service_kill;
           EvTimerStop; EvCondClear (mkcond e);
           EvScheduleWork work_service_worker]).
Proof.
  intros Ht Hst He Hc Htd Hn Hw Hce Hrf.
  unfold run_fails in Hrf. apply negb_false_iff in Hrf.
  destruct_svc s. cbn in Ht, Hst, Hw. subst ty st.
  enabled_parts He Hrl.
  unfold is_norespawn in Hn.
  unfold service_step. cbn [Nat.add].
  destruct ds as [|c0 ds], tcb as [t|];
    (pass; pass; pass; pass; last_pass; reflexivity).
Qed.

Lemma run_job_succeeds_witness :
  exists s l,
    service_step "/run/finit/shutdown" env_ok 5 svc_run_true = Some (0, s, l) /\
    state s = SVC_DONE_STATE /\ once s = 2 /\ dirty s = false.
Proof.
  eexists. eexists. split.
  - apply (run_job_succeeds "/run/finit/shutdown" env_ok 0 svc_run_true);
      reflexivity.
  - repeat split; reflexivity.
Defined.

(** X2: a daemon that is halted, enabled and whose condition is on is
    started by one call of service_step() and ends running with the pid
    fork() returned, whatever that is in the parent (fork() failing with
    -1 included: service_start() does not test it), marked as starting
    and clean. *)
Theorem daemon_starts SYNC e n s :
  svc_is_daemon s = true -> state s = SVC_HALTED_STATE ->
  svc_enabled e s = true -> cond_get_agg e = COND_ON ->
  sm_is_in_teardown e = false -> is_norespawn e = false ->
  whichp e (cmd s) = true -> svc_checkenv e = true ->
  fork e <> 0 ->
  service_step SYNC e (3 + n) s =
    Some (0,
          set_state SVC_RUNNING_STATE
            (set_dirty false
               (set_start_time (jiffies e)
                  (set_pid (fork e) (set_starting true s)))),
          progress_desc s ++
          [EvSigBlock; EvFork child_start; EvCgroupService (fork e);
           EvLogit true LOG_NOTICE "Starting %s[%d]"; EvPidFileCreate;
           EvSigRestore] ++
          progress_result s 0 ++
          [EvScheduleWork work_service_worker]).
Proof.
  intros Hd Hst He Hc Htd Hn Hw Hce Hf.
  destruct_svc s. unfold svc_is_daemon in Hd. cbn in Hd, Hst, Hw. subst st.
  destruct ty; try discriminate Hd. clear Hd.
  enabled_parts He Hrl. apply Z.eqb_neq in Hf.
  unfold is_norespawn in Hn.
  unfold service_step. cbn [Nat.add].
  destruct ds as [|c0 ds];
    (pass; pass; last_pass; reflexivity).
Qed.

Lemma daemon_starts_witness :
  exists s l,
    service_step "/run/finit/shutdown" env_ok 3
      (svc_daemon SVC_HALTED_STATE 0 None SVC_BLOCK_NONE 0) = Some (0, s, l) /\
    state s = SVC_RUNNING_STATE /\ pid s = 1234.
Proof.
  eexists. eexists. split.
  - apply (daemon_starts "/run/finit/shutdown" env_ok 0
             (svc_daemon SVC_HALTED_STATE 0 None SVC_BLOCK_NONE 0));
      try reflexivity. discriminate.
  - split; reflexivity.
Defined.

(** X3: a ready service whose command is not in $PATH, or whose env file
    is missing, is not forked: service_step() logs the warning, marks the
    service missing and halts it, and from then on the service is not
    enabled and further steps leave it alone. *)
Theorem missing_command_latches SYNC e n s :
  state s = SVC_READY_STATE ->
  svc_enabled e s = true -> cond_get_agg e = COND_ON ->
  sm_is_in_teardown e = false -> is_norespawn e = false ->
  whichp e (cmd s) = false \/ svc_checkenv e = false ->
  let s' := set_state SVC_HALTED_STATE (set_block SVC_BLOCK_MISSING s) in
  service_step SYNC e (2 + n) s =
    Some (0, s',
          [EvLogit false LOG_WARNING
             (if whichp e (cmd s) then "%s: missing env file %s"
              else "%s: missing or not in $PATH");
           EvScheduleWork work_service_worker]) /\
  svc_enabled e s' = false /\
  forall k, service_step SYNC e (S k) s' = Some (0, s', []).
Proof.
  intros Hst He Hc Htd Hn Hm s'. subst s'.
  destruct_svc s. cbn in Hst, Hm. subst st.
  enabled_parts He Hrl. unfold is_norespawn in Hn.
  split; [|split].
  - unfold service_step. cbn [Nat.add].
    destruct (whichp e cm) eqn:Hw; [destruct Hm as [Hm|Hm]; [discriminate|]|];
      (pass; last_pass; cbn; rewrite Hw; reflexivity).
  - unfold svc_enabled, svc_is_blocked. cbn. apply andb_false_r.
  - intros k. unfold service_step. last_pass. reflexivity.
Qed.

Lemma missing_command_latches_witness :
  exists l,
    service_step "/run/finit/shutdown" env_nocmd 2
      (svc_daemon SVC_READY_STATE 0 None SVC_BLOCK_NONE 0) =
    Some (0, svc_daemon SVC_HALTED_STATE 0 None SVC_BLOCK_MISSING 0, l).
Proof.
  eexists.
  refine (proj1 (missing_command_latches "/run/finit/shutdown" env_nocmd 0
            (svc_daemon SVC_READY_STATE 0 None SVC_BLOCK_NONE 0)
            eq_refl eq_refl eq_refl eq_refl eq_refl (or_introl eq_refl))).
Defined.

(** service_monitor() on the daemon whose pid was collected, up to the
    nested step. *)
Lemma service_monitor_daemon SYNC e (rec : M Z) lost status_ s :
  svc_is_daemon s = true -> pid s = lost -> 1 < lost ->
  fexist e SYNC = false -> tty_respawn e lost = false ->
  svc_is_starting s && svc_is_forking s = false ->
  service_monitor SYNC e rec lost status_ s =
    match rec (cleaned (set_status status_ s)) with
    | Some (rc, s2, l2) =>
        Some (tt, s2,
              cleanup_events e ++ [EvKill 0 SIGKILL] ++ l2 ++
              (if rc =? 0 then [EvCleanBootstrap] else []) ++ [EvSmStep])
    | None => None
    end.
Proof.
  intros Hd Hp Hl Hf Ht Hsf.
  assert (Hl' : (lost <=? 1) = false) by (apply Z.leb_gt; lia).
  destruct_svc s. unfold svc_is_daemon in Hd.
  unfold svc_is_starting, svc_is_forking in Hsf. cbn in Hd, Hp, Hsf. subst pd.
  destruct ty; try discriminate Hd. clear Hd.
  unfold service_monitor, cleanup_events, cleaned. rewrite Hf, Hl', Ht. cbn [orb].
  unfold_model. cbn. rewrite Z.eqb_refl, Hsf. cbn.
  destruct (pid_file e) as [fn|]; [destruct (remove e fn)|]; cbn;
    match goal with |- context [rec ?x] => destruct (rec x) as [[[rc s2] l2]|] end;
    cbn; try reflexivity;
    destruct (rc =? 0); cbn; rewrite ?app_nil_r; reflexivity.
Qed.

(** service_monitor() on the run/task whose pid was collected, up to the
    nested step. *)
Lemma service_monitor_runtask SYNC e (rec : M Z) lost status_ s :
  svc_is_daemon s = false -> svc_is_runtask s = true -> pid s = lost -> 1 < lost ->
  fexist e SYNC = false -> tty_respawn e lost = false ->
  svc_is_starting s && svc_is_forking s = false ->
  service_monitor SYNC e rec lost status_ s =
    match rec (set_start_time 0 (set_pid 0
                 (set_started (WIFEXITED status_ && (WEXITSTATUS status_ =? 0))
                    (set_status status_ s)))) with
    | Some (rc, s2, l2) =>
        Some (tt, s2,
              [EvKill (- lost) SIGKILL] ++ l2 ++
              (if rc =? 0 then [EvCleanBootstrap] else []) ++ [EvSmStep])
    | None => None
    end.
Proof.
  intros Hd Hr Hp Hl Hf Ht Hsf.
  assert (Hl' : (lost <=? 1) = false) by (apply Z.leb_gt; lia).
  destruct_svc s. unfold svc_is_daemon in Hd. unfold svc_is_runtask, in_mask in Hr.
  unfold svc_is_starting, svc_is_forking in Hsf. cbn in Hd, Hr, Hp, Hsf. subst pd.
  unfold service_monitor. rewrite Hf, Hl', Ht. cbn [orb].
  unfold_model. cbn. rewrite Z.eqb_refl, Hsf. cbn.
  destruct ty; try discriminate Hd; try discriminate Hr; cbn;
    match goal with |- context [rec ?x] => destruct (rec x) as [[[rc s2] l2]|] end;
    cbn; try reflexivity;
    destruct (rc =? 0); cbn; rewrite ?app_nil_r; reflexivity.
Qed.

(** X4: when the child of a running, enabled daemon is collected,
    service_monitor() removes the pid file, clears the pid (keeping it in
    [oldpid]), signals process group 0 (the pid is cleared before
    kill(-svc->pid, SIGKILL) is called), and the nested step halts the
    daemon, blocked as restarting, with the retry timer armed for 1 ms
    unless a timer was already pending, which then stays. *)
Theorem daemon_crash_arms_retry SYNC e n lost status_ s :
  svc_is_daemon s = true -> state s = SVC_RUNNING_STATE ->
  svc_enabled e s = true ->
  pid s = lost -> 1 < lost ->
  fexist e SYNC = false -> tty_respawn e lost = false ->
  svc_is_starting s && svc_is_forking s = false ->
  service_monitor SYNC e (service_step SYNC e (2 + n)) lost status_ s =
    Some (tt,
          set_timer_cb
            (match timer_cb s with
             | Some cb => Some cb
             | None => Some cb_service_retry
             end)
            (set_state SVC_HALTED_STATE
               (set_block SVC_BLOCK_RESTARTING (cleaned (set_status status_ s)))),
          cleanup_events e ++ [EvKill 0 SIGKILL] ++
          (match timer_cb s with
           | Some _ => []
           | None => [EvTimerInit 1 cb_service_retry]
           end) ++
          [EvScheduleWork work_service_worker; EvCleanBootstrap; EvSmStep]).
Proof.
  intros Hd Hst He Hp Hl Hf Ht Hsf.
  rewrite (service_monitor_daemon SYNC e _ lost status_ s Hd Hp Hl Hf Ht Hsf).
  destruct_svc s. unfold svc_is_daemon in Hd. cbn in Hd, Hst, Hp. subst st pd.
  destruct ty; try discriminate Hd. clear Hd.
  enabled_parts He Hrl.
  unfold service_step, cleaned. cbn [Nat.add].
  destruct tcb as [t|]; (pass; last_pass; reflexivity).
Qed.

Lemma daemon_crash_arms_retry_witness :
  exists l,
    service_monitor "/run/finit/shutdown" env_ok
      (service_step "/run/finit/shutdown" env_ok 2) 77 9
      (svc_daemon SVC_RUNNING_STATE 77 None SVC_BLOCK_NONE 0) =
    Some (tt,
          set_status 9 (set_oldpid 77
            (svc_daemon SVC_HALTED_STATE 0 (Some cb_service_retry)
               SVC_BLOCK_RESTARTING 0)), l).
Proof.
  eexists.
  refine (daemon_crash_arms_retry "/run/finit/shutdown" env_ok 0 77 9
            (svc_daemon SVC_RUNNING_STATE 77 None SVC_BLOCK_NONE 0)
            eq_refl eq_refl eq_refl eq_refl _ eq_refl eq_refl eq_refl).
  lia.
Defined.

(** X5: the retry timer firing on a crashed daemon below the cap starts
    the daemon again, counts the restart and arms itself once more; when
    it fires the next time and finds the daemon running, it clears the
    restart counter and arms nothing. *)
Theorem retry_restarts_then_settles MAX SYNC e n k s :
  svc_is_daemon s = true -> state s = SVC_HALTED_STATE ->
  block s = SVC_BLOCK_RESTARTING -> timer_cb s = Some cb_service_retry ->
  restart_cnt s < MAX ->
  svc_in_runlevel s (runlevel e) = true -> cond_get_agg e = COND_ON ->
  sm_is_in_teardown e = false -> is_norespawn e = false ->
  whichp e (cmd s) = true -> svc_checkenv e = true ->
  fork e <> 0 ->
  let running :=
    set_timer_cb (Some cb_service_retry)
      (set_state SVC_RUNNING_STATE
         (set_dirty false
            (set_start_time (jiffies e)
               (set_pid (fork e)
                  (set_starting true
                     (set_block SVC_BLOCK_NONE
                        (set_restart_cnt (char_incr (restart_cnt s)) s))))))) in
  service_timeout_cb MAX SYNC e (3 + n) s =
    Some (tt, running,
          [EvTimerStop;
           EvLogit true LOG_WARNING "Service %s[%d] died, restarting (%d/%d)"] ++
          progress_desc s ++
          [EvSigBlock; EvFork child_start; EvCgroupService (fork e);
           EvLogit true LOG_NOTICE "Starting %s[%d]"; EvPidFileCreate;
           EvSigRestore] ++
          progress_result s 0 ++
          [EvScheduleWork work_service_worker;
           EvTimerInit (if char_incr (restart_cnt s) <=? Z.quot MAX 2
                        then 2000 else 5000) cb_service_retry]) /\
  service_timeout_cb MAX SYNC e k running =
    Some (tt, set_restart_cnt 0 (set_timer_cb None running), [EvTimerStop]).
Proof.
  intros Hd Hst Hb Ht Hcnt Hrl Hc Htd Hn Hw Hce Hf running. subst running.
  destruct_svc s. unfold svc_is_daemon in Hd. unfold svc_in_runlevel in Hrl.
  cbn in Hd, Hst, Hb, Ht, Hcnt, Hrl, Hw. subst st blk tcb.
  destruct ty; try discriminate Hd. clear Hd.
  apply Z.leb_gt in Hcnt. apply Z.eqb_neq in Hf. unfold is_norespawn in Hn.
  split.
  - assert (Hs : forall dsc,
        service_step SYNC e (3 + n)
          (mk_svc SVC_TYPE_SERVICE SVC_HALTED_STATE pd opd stt sta onc
             (char_incr cnt) None dty SVC_BLOCK_NONE sd sg fk kd sh shp ad rl
             cm nm dsc) =
        Some (0,
              mk_svc SVC_TYPE_SERVICE SVC_RUNNING_STATE (fork e) opd (jiffies e)
                sta onc (char_incr cnt) None false SVC_BLOCK_NONE sd true fk kd
                sh shp ad rl cm nm dsc,
              (if string_nonempty dsc then [EvPrintDesc "Starting " dsc] else []) ++
              [EvSigBlock; EvFork child_start; EvCgroupService (fork e);
               EvLogit true LOG_NOTICE "Starting %s[%d]"; EvPidFileCreate;
               EvSigRestore] ++
              (if string_nonempty dsc then [EvPrintResult 0] else []) ++
              [EvScheduleWork work_service_worker])).
    { intros dsc. unfold service_step. cbn [Nat.add].
      destruct dsc as [|c0 dsc]; (pass; pass; last_pass; reflexivity). }
    specialize (Hs ds).
    unfold service_timeout_cb, service_retry.
    revert Hs. generalize (service_step SYNC e (3 + n)). intros rec Hs.
    unfold_model. cbn. rewrite Hcnt. cbn. rewrite Hs. cbn.
    unfold progress_desc, progress_result. cbn.
    destruct ds; cbn; reflexivity.
  - unfold service_timeout_cb, service_retry. unfold_model. cbn. reflexivity.
Qed.

Lemma retry_restarts_then_settles_witness :
  exists s l,
    service_timeout_cb 10 "/run/finit/shutdown" env_ok 3
      (svc_daemon SVC_HALTED_STATE 0 (Some cb_service_retry) SVC_BLOCK_RESTARTING 3)
      = Some (tt, s, l) /\
    state s = SVC_RUNNING_STATE /\ restart_cnt s = 4 /\
    timer_cb s = Some cb_service_retry.
Proof.
  eexists. eexists. split.
  - refine (proj1 (retry_restarts_then_settles 10 "/run/finit/shutdown" env_ok 0 0%nat
              (svc_daemon SVC_HALTED_STATE 0 (Some cb_service_retry)
                 SVC_BLOCK_RESTARTING 3)
              eq_refl eq_refl eq_refl eq_refl _ eq_refl eq_refl eq_refl eq_refl
              eq_refl eq_refl _)).
    + cbn. lia.
    + discriminate.
  - repeat split; reflexivity.
Defined.

(** X6: a running daemon that is no longer enabled is sent its halt
    signal and enters the stopping state with the kill-timer armed; when
    its child is then collected, service_monitor() halts it, the timer
    cancelled and the books cleared. *)
Theorem disabled_daemon_stops SYNC e n m status_ s :
  svc_is_daemon s = true -> state s = SVC_RUNNING_STATE ->
  svc_enabled e s = false -> 1 < pid s ->
  kill e (- pid s) (sighalt s) = KILL_OK ->
  fexist e SYNC = false -> tty_respawn e (pid s) = false ->
  svc_is_starting s && svc_is_forking s = false ->
  service_step SYNC e (2 + n) s =
    Some (0, stopping s,
          cancel_events s ++
          [EvLogit true LOG_NOTICE "Stopping %s[%d], sending %s ...";
           EvTimerInit (killdelay s) cb_service_kill] ++
          (if runlevel e =? 1 then [] else [EvPrintDesc "Stopping " (desc s)]) ++
          [EvKill (- pid s) (sighalt s)] ++
          (if runlevel e =? 1 then [] else [EvPrintResult 0]) ++
          [EvScheduleWork work_service_worker]) /\
  service_monitor SYNC e (service_step SYNC e (2 + m)) (pid s) status_ (stopping s) =
    Some (tt,
          set_timer_cb None
            (set_state SVC_HALTED_STATE (cleaned (set_status status_ s))),
          cleanup_events e ++
          [EvKill 0 SIGKILL; EvTimerStop; EvCondClear (mkcond e);
           EvScheduleWork work_service_worker; EvCleanBootstrap; EvSmStep]).
Proof.
  intros Hd Hst He Hp Hk Hf Ht Hsf. split.
  - destruct_svc s. unfold svc_is_daemon in Hd. cbn in Hd, Hst, Hp, Hk. subst st.
    destruct ty; try discriminate Hd. clear Hd.
    unfold svc_enabled, svc_in_runlevel, svc_is_blocked in He. cbn in He.
    assert (Hp1 : (pd <=? 1) = false) by (apply Z.leb_gt; lia).
    assert (Hp2 : (1 <? pd) = true) by (apply Z.ltb_lt; lia).
    assert (Hp0 : (pd =? 0) = false) by (apply Z.eqb_neq; lia).
    unfold service_step. cbn [Nat.add].
    destruct tcb as [t|], (runlevel e =? 1) eqn:Hr1;
      (pass; last_pass; reflexivity).
  - rewrite (service_monitor_daemon SYNC e _ (pid s) status_ (stopping s));
      try assumption; try (destruct_svc s; assumption || reflexivity).
    destruct_svc s. unfold svc_is_daemon in Hd. cbn in Hd, Hst, Hp, Hk. subst st.
    destruct ty; try discriminate Hd. clear Hd.
    unfold svc_enabled, svc_in_runlevel, svc_is_blocked in He. cbn in He.
    unfold service_step, cleaned, stopping. cbn [Nat.add].
    pass. last_pass. reflexivity.
Qed.

Lemma disabled_daemon_stops_witness :
  exists l,
    service_step "/run/finit/shutdown" env_ok 2
      (svc_daemon SVC_RUNNING_STATE 77 None SVC_BLOCK_USER 0) =
    Some (0, svc_daemon SVC_STOPPING_STATE 77 (Some cb_service_kill) SVC_BLOCK_USER 0, l).
Proof.
  eexists.
  refine (proj1 (disabled_daemon_stops "/run/finit/shutdown" env_ok 0 0%nat 0
            (svc_daemon SVC_RUNNING_STATE 77 None SVC_BLOCK_USER 0)
            eq_refl eq_refl eq_refl _ eq_refl eq_refl eq_refl eq_refl)).
  cbn. lia.
Defined.

(** X7: when the child of a running, enabled, clean task is collected,
    service_monitor() records whether it exited with status 0 in
    [started], kills what is left of its process group, and the nested
    step takes the task through stopping to done, its [once] counter
    incremented and no timer left armed. *)
Theorem task_exit_is_done SYNC e n lost status_ s :
  type s = SVC_TYPE_TASK -> state s = SVC_RUNNING_STATE ->
  svc_enabled e s = true -> dirty s = false ->
  pid s = lost -> 1 < lost ->
  fexist e SYNC = false -> tty_respawn e lost = false ->
  svc_is_starting s && svc_is_forking s = false ->
  service_monitor SYNC e (service_step SYNC e (3 + n)) lost status_ s =
    Some (tt,
          set_state SVC_DONE_STATE
            (set_timer_cb None
               (set_once (int_incr (once s))
                  (set_start_time 0
                     (set_pid 0
                        (set_started (WIFEXITED status_ && (WEXITSTATUS status_ =? 0))
                           (set_status status_ s)))))),
          [EvKill (- lost) SIGKILL] ++ cancel_events s ++
          [EvTimerInit (killdelay s) cb_service_kill; EvTimerStop;
           EvCondClear (mkcond e); EvScheduleWork work_service_worker;
           EvCleanBootstrap; EvSmStep]).
Proof.
  intros Hty Hst He Hdy Hp Hl Hf Ht Hsf.
  rewrite (service_monitor_runtask SYNC e _ lost status_ s); try assumption;
    try (destruct_svc s; cbn in Hty; subst; reflexivity).
  destruct_svc s. cbn in Hty, Hst, Hdy, Hp. subst ty st dty pd.
  enabled_parts He Hrl.
  unfold service_step. cbn [Nat.add].
  destruct tcb as [t|]; (pass; pass; last_pass; reflexivity).
Qed.

Lemma task_exit_is_done_witness :
  exists s l,
    service_monitor "/run/finit/shutdown" env_ok
      (service_step "/run/finit/shutdown" env_ok 3) 78 0 (svc_task 78)
      = Some (tt, s, l) /\
    state s = SVC_DONE_STATE /\ once s = 1 /\ started s = true.
Proof.
  eexists. eexists. split.
  - refine (task_exit_is_done "/run/finit/shutdown" env_ok 0 78 0 (svc_task 78)
              eq_refl eq_refl eq_refl eq_refl eq_refl _ eq_refl eq_refl eq_refl).
    lia.
  - repeat split; reflexivity.
Defined.

(** X8: service_monitor() leaves alone every service whose pid is not
    the one collected, and everything during a synchronised shutdown, for
    the pids 0 and 1 and for a pid tty_respawn() claims; of a service
    that is starting and forks by itself it records the exit status and
    nothing else. *)
Theorem service_monitor_ignores SYNC e (rec : M Z) lost status_ s :
  (fexist e SYNC = true \/ lost <= 1 \/ tty_respawn e lost = true \/ pid s <> lost ->
   service_monitor SYNC e rec lost status_ s = Some (tt, s, [])) /\
  (fexist e SYNC = false -> 1 < lost -> tty_respawn e lost = false ->
   pid s = lost -> svc_is_starting s = true -> svc_is_forking s = true ->
   service_monitor SYNC e rec lost status_ s = Some (tt, set_status status_ s, [])).
Proof.
  split.
  - intros H. unfold service_monitor.
    destruct (fexist e SYNC); [reflexivity|].
    destruct (lost <=? 1) eqn:Hl; [reflexivity|]. cbn [orb].
    destruct (tty_respawn e lost); [reflexivity|].
    apply Z.leb_gt in Hl.
    destruct H as [H|[H|[H|H]]]; try discriminate; try lia.
    unfold bind at 1, get. apply Z.eqb_neq in H. rewrite H. reflexivity.
  - intros Hf Hl Ht Hp Hs Hk.
    assert (Hl' : (lost <=? 1) = false) by (apply Z.leb_gt; lia).
    unfold service_monitor. rewrite Hf, Hl', Ht. cbn [orb].
    unfold bind at 1, get. rewrite Hp, Z.eqb_refl. cbn [negb].
    unfold bind at 1, modify. rewrite Hs, Hk. reflexivity.
Qed.

(** X9: service_stop() is idempotent: called again on the service it
    returned, it sends no signal, forks nothing, arms and cancels no
    timer and leaves the service as it is, returning 0, or 1 for a
    service it could not stop for want of a child. *)
Theorem service_stop_twice e s rc s1 l1 :
  service_stop e s = Some (rc, s1, l1) ->
  exists rc', service_stop e s1 = Some (rc', s1, []) /\ (rc' = 0 \/ rc' = 1).
Proof.
  intros H. destruct_svc s. unfold_model_in H.
  destruct st; exec H; inversion H; subst; clear H;
    unfold_model; use_hyps; cbn; eexists; (split; [reflexivity|]); auto.
Qed.

Lemma service_stop_twice_witness :
  exists rc',
    service_stop env_ok
      (svc_daemon SVC_STOPPING_STATE 77 (Some cb_service_kill) SVC_BLOCK_NONE 0) =
    Some (rc',
          svc_daemon SVC_STOPPING_STATE 77 (Some cb_service_kill) SVC_BLOCK_NONE 0,
          []) /\
    (rc' = 0 \/ rc' = 1).
Proof.
  exact (service_stop_twice env_ok
           (svc_daemon SVC_RUNNING_STATE 77 None SVC_BLOCK_NONE 0) 0
           (svc_daemon SVC_STOPPING_STATE 77 (Some cb_service_kill) SVC_BLOCK_NONE 0)
           [EvLogit true LOG_NOTICE "Stopping %s[%d], sending %s ...";
            EvTimerInit 3000 cb_service_kill; EvPrintDesc "Stopping " "";
            EvKill (-77) 15; EvPrintResult 0]
           eq_refl).
Defined.

(** X10: whatever service_stop() and service_kill() signal is the
    process group of the child of the service, and only when its pid is
    above 1: neither signals the group of finit (pid 0 or 1) nor every
    process (kill(-1, ...)). *)
Theorem stop_and_kill_spare_init e s s' l p sig :
  (exists rc, service_stop e s = Some (rc, s', l)) \/
  service_kill e s = Some (tt, s', l) ->
  In (EvKill p sig) l ->
  p = - pid s /\ 1 < pid s /\ (sig = sighalt s \/ sig = SIGKILL).
Proof.
  intros [[rc H]|H] Hin.
  - destruct_svc s. unfold_model_in H.
    destruct st; exec H; inversion H; subst; clear H; cbn in Hin;
      repeat (destruct Hin as [Hin|Hin]; try discriminate Hin; try contradiction);
      try (inversion Hin; subst; cbn; zbool; repeat split; auto; lia).
  - rewrite service_kill_eq in H. inversion H; subst. clear H.
    apply in_app_or in Hin. destruct Hin as [Hin|Hin].
    + unfold cancel_events in Hin. destruct (timer_cb s); cbn in Hin;
        intuition discriminate.
    + destruct (pid s <=? 1) eqn:Hp; [contradiction|]. apply Z.leb_gt in Hp.
      destruct (runlevel e =? 1); cbn in Hin;
        repeat (destruct Hin as [Hin|Hin]; try discriminate Hin; try contradiction);
        inversion Hin; subst; repeat split; auto.
Qed.

Lemma stop_and_kill_spare_init_witness :
  -77 = - pid (svc_daemon SVC_RUNNING_STATE 77 None SVC_BLOCK_NONE 0) /\
  1 < pid (svc_daemon SVC_RUNNING_STATE 77 None SVC_BLOCK_NONE 0) /\
  (15 = sighalt (svc_daemon SVC_RUNNING_STATE 77 None SVC_BLOCK_NONE 0) \/
   15 = SIGKILL).
Proof.
  refine (stop_and_kill_spare_init env_ok
            (svc_daemon SVC_RUNNING_STATE 77 None SVC_BLOCK_NONE 0)
            (svc_daemon SVC_STOPPING_STATE 77 (Some cb_service_kill) SVC_BLOCK_NONE 0)
            [EvLogit true LOG_NOTICE "Stopping %s[%d], sending %s ...";
             EvTimerInit 3000 cb_service_kill; EvPrintDesc "Stopping " "";
             EvKill (-77) 15; EvPrintResult 0]
            (-77) 15
            (or_introl (ex_intro _ 0 eq_refl)) _).
  cbn. right. right. right. left. reflexivity.
Defined.

(** X11: a running daemon found dirty while its condition is on, that
    takes SIGHUP and whose arguments have not changed, is reloaded in
    place: service_step() sends SIGHUP to the pid (not the group), marks
    the service as starting, touches its pid file when finit keeps one
    for it, clears the dirty flag, and the daemon stays running with
    nothing scheduled. *)
Theorem reload_by_sighup SYNC e n s r :
  state s = SVC_RUNNING_STATE -> svc_enabled e s = true ->
  1 < pid s -> cond_get_agg e = COND_ON -> sm_is_in_teardown e = false ->
  is_norespawn e = false ->
  dirty s = true -> sighup s = true -> args_dirty s = false ->
  kill e (pid s) SIGHUP = r -> r <> KILL_ESRCH ->
  let progress := string_nonempty (desc s) && negb (svc_in_runlevel s 0) in
  service_step SYNC e (S n) s =
    Some (0, set_dirty false (set_starting true s),
          (if progress then [EvPrintDesc "Restarting " (desc s)] else []) ++
          [EvLogit true LOG_NOTICE "Restarting %s[%d], sending SIGHUP ...";
           EvKill (pid s) SIGHUP] ++
          (if svc_has_pidfile e then [EvSchedYield; EvTouch (pid_file e)] else []) ++
          (if progress then [EvPrintResult (kill_rc r)] else [])).
Proof.
  intros Hst He Hp Hc Htd Hn Hd Hs Ha Hk Hr progress. subst progress.
  destruct_svc s. cbn in Hst, Hp, Hd, Hs, Ha, Hk. subst st dty shp ad.
  enabled_parts He Hrl. unfold is_norespawn in Hn.
  assert (Hp0 : (pd =? 0) = false) by (apply Z.eqb_neq; lia).
  assert (Hp1 : (pd <=? 1) = false) by (apply Z.leb_gt; lia).
  unfold service_step, svc_in_runlevel. cbn [runlevels desc].
  rewrite Z.bit0_odd.
  destruct r; try contradiction;
    destruct ds as [|c0 ds], (Z.odd rl) eqn:Hb, (svc_has_pidfile e) eqn:Hpf;
    (last_pass; reflexivity).
Qed.

Lemma reload_by_sighup_witness :
  service_step "/run/finit/shutdown" env_ok 1
    (set_dirty true (svc_daemon SVC_RUNNING_STATE 77 None SVC_BLOCK_NONE 0)) =
  Some (0, set_starting true (svc_daemon SVC_RUNNING_STATE 77 None SVC_BLOCK_NONE 0),
        [EvLogit true LOG_NOTICE "Restarting %s[%d], sending SIGHUP ...";
         EvKill 77 SIGHUP]).
Proof.
  refine (reload_by_sighup "/run/finit/shutdown" env_ok 0
            (set_dirty true (svc_daemon SVC_RUNNING_STATE 77 None SVC_BLOCK_NONE 0))
            KILL_OK eq_refl eq_refl _ eq_refl eq_refl eq_refl eq_refl eq_refl eq_refl
            eq_refl _).
  - cbn. lia.
  - discriminate.
Defined.

(** X12: a running, clean service whose condition goes into flux is
    stopped with SIGSTOP and waits; when the condition comes back on it is
    continued with SIGCONT, its own condition is asserted again, and the
    service is exactly as it was before. *)
Theorem pause_and_resume SYNC e1 e2 n m s :
  state s = SVC_RUNNING_STATE ->
  svc_enabled e1 s = true -> svc_enabled e2 s = true ->
  pid s <> 0 -> dirty s = false ->
  cond_get_agg e1 = COND_FLUX -> cond_get_agg e2 = COND_ON ->
  service_step SYNC e1 (2 + n) s =
    Some (0, set_state SVC_WAITING_STATE s,
          [EvKill (pid s) SIGSTOP; EvScheduleWork work_service_worker]) /\
  service_step SYNC e2 (2 + m) (set_state SVC_WAITING_STATE s) =
    Some (0, s,
          [EvKill (pid s) SIGCONT; EvCondSetPath (mkcond e2) COND_ON;
           EvScheduleWork work_service_worker]).
Proof.
  intros Hst He1 He2 Hp Hd Hc1 Hc2.
  destruct_svc s. cbn in Hst, Hp, Hd. subst st dty.
  unfold svc_enabled, svc_in_runlevel, svc_is_blocked in He1, He2. cbn in He1, He2.
  apply andb_prop in He1 as [Hrl1 Hb]. apply andb_prop in He2 as [Hrl2 _].
  destruct blk; try discriminate Hb. clear Hb.
  apply Z.eqb_neq in Hp.
  unfold service_step. cbn [Nat.add].
  split; (pass; last_pass; reflexivity).
Qed.

Lemma pause_and_resume_witness :
  service_step "/run/finit/shutdown" env_ok 2
    (svc_daemon SVC_WAITING_STATE 77 None SVC_BLOCK_NONE 0) =
  Some (0, svc_daemon SVC_RUNNING_STATE 77 None SVC_BLOCK_NONE 0,
        [EvKill 77 SIGCONT; EvCondSetPath "pid/job" COND_ON;
         EvScheduleWork work_service_worker]).
Proof.
  refine (proj2 (pause_and_resume "/run/finit/shutdown" env_flux env_ok 0 0
            (svc_daemon SVC_RUNNING_STATE 77 None SVC_BLOCK_NONE 0)
            eq_refl eq_refl eq_refl _ eq_refl eq_refl eq_refl)).
  discriminate.
Defined.

(** ** What a paused finit does not do *)

Ltac finish_quiet Hrec H :=
  first
    [ discriminate H
    | inversion H; subst; clear H;
      repeat match goal with
             | E : _ = Some (_, _, _) |- _ => apply Hrec in E
             end;
      unfold forks_child in *; rewrite ?in_app_iff; cbn;
      intuition discriminate ].

Lemma step_switch_quiet SYNC e (rec : M Z) enabled :
  is_norespawn e = true \/ sm_is_in_teardown e = true ->
  (forall s rc s' l, rec s = Some (rc, s', l) -> ~ forks_child l) ->
  forall s s' l,
    step_switch SYNC e rec enabled s = Some (tt, s', l) -> ~ forks_child l.
Proof.
  intros Hq Hrec s s' l H.
  destruct_svc s. unfold_model_in H. unfold is_norespawn in Hq.
  destruct Hq as [Hq|Hq]; rewrite ?Hq in H;
    destruct st; exec H; finish_quiet Hrec H.
Qed.

Lemma service_step_loop_quiet SYNC e fuel :
  is_norespawn e = true \/ sm_is_in_teardown e = true ->
  forall changed s rc s' l,
    service_step_loop SYNC e fuel changed s = Some (rc, s', l) -> ~ forks_child l.
Proof.
  intros Hq.
  induction fuel as [|n IH]; intros changed s rc s' l H; [discriminate|].
  cbn [service_step_loop] in H.
  apply bind_inv in H as (s0 & s1 & l1 & l2 & Hg & H & ->).
  unfold get in Hg. inversion Hg; subst s0 s1 l1. clear Hg.
  apply bind_inv in H as ([] & s2 & l3 & l4 & Hsw & H & ->).
  apply (step_switch_quiet _ _ _ _ Hq (IH 0)) in Hsw.
  apply bind_inv in H as (s3 & s4 & l5 & l6 & Hg & H & ->).
  unfold get in Hg. inversion Hg; subst s3 s4 l5. clear Hg.
  unfold forks_child in *. cbn. rewrite in_app_iff.
  destruct (negb (svc_state_eqb (state s2) (state s))).
  - apply IH in H. tauto.
  - apply bind_inv in H as (u' & s5 & l7 & l8 & Hw & H & ->).
    unfold ret in H. inversion H; subst.
    destruct (negb (changed =? 0)); cbn in Hw; inversion Hw; subst; cbn;
      intuition discriminate.
Qed.

(** X13: while finit is paused (SIGSTOP received, or a norespawn file in
    place) or the runlevel machine is in teardown, service_step() starts
    nothing: whatever the service and its state, no child is forked by
    service_start(), neither directly nor through a nested step. *)
Theorem paused_finit_starts_nothing SYNC e fuel s rc s' l :
  is_norespawn e = true \/ sm_is_in_teardown e = true ->
  service_step SYNC e fuel s = Some (rc, s', l) ->
  ~ forks_child l.
Proof.
  intros Hq H. exact (service_step_loop_quiet SYNC e fuel Hq 0 s rc s' l H).
Qed.

Lemma paused_finit_starts_nothing_witness :
  is_norespawn env_norespawn = true /\ ~ forks_child [].
Proof.
  split; [reflexivity|].
  refine (paused_finit_starts_nothing "/run/finit/shutdown" env_norespawn 1
            (svc_daemon SVC_READY_STATE 0 None SVC_BLOCK_NONE 0) 0 _ []
            (or_introl eq_refl) eq_refl).
Defined.

(** ** The registry *)

Lemma runtask_clean_eq e t :
  runtask_clean e (slot_svc t) = Some (tt, slot_svc (cleaned_runtask t), []).
Proof.
  destruct t as [s c p]. unfold cleaned_runtask, runtask_clean. cbn [slot_svc].
  destruct_svc s. unfold_model. cbn.
  destruct ty; cbn; try reflexivity; destruct st; reflexivity.
Qed.

(** X14: service_runtask_clean() always returns and produces no event;
    afterwards every run/task has [once] at 0 and none is in the done
    state (a done one is halted), no timer, pid or condition has changed,
    and the services that are no run/task are as they were. *)
Theorem service_runtask_clean_resets e reg :
  service_runtask_clean e reg = Some (tt, map cleaned_runtask reg, []) /\
  Forall (fun t => svc_is_runtask (slot_svc t) = true ->
                   once (slot_svc t) = 0 /\ state (slot_svc t) <> SVC_DONE_STATE)
         (map cleaned_runtask reg) /\
  Forall2 (fun t t' =>
             timer_cb (slot_svc t') = timer_cb (slot_svc t) /\
             pid (slot_svc t') = pid (slot_svc t) /\
             slot_cond t' = slot_cond t /\
             (svc_is_runtask (slot_svc t) = false -> t' = t))
          reg (map cleaned_runtask reg).
Proof.
  split; [|split].
  - unfold service_runtask_clean.
    induction reg as [|t r IH]; [reflexivity|].
    cbn [foreach map]. rewrite runtask_clean_eq, IH. cbn [app].
    replace (with_svc (fun _ => slot_svc (cleaned_runtask t)) t)
      with (cleaned_runtask t); [reflexivity|].
    destruct t as [s c p]. unfold cleaned_runtask. cbn [slot_svc].
    destruct (svc_is_runtask s); reflexivity.
  - apply Forall_forall. intros t' Hin. apply in_map_iff in Hin as (t & <- & _).
    unfold cleaned_runtask. destruct (svc_is_runtask (slot_svc t)) eqn:Hr.
    + intros _. destruct t as [s c p]. destruct_svc s. cbn. destruct st; cbn;
        (split; [reflexivity|discriminate]).
    + rewrite Hr. discriminate.
  - induction reg as [|t r IH]; [constructor|]. cbn [map]. constructor; [|assumption].
    unfold cleaned_runtask. destruct (svc_is_runtask (slot_svc t)) eqn:Hr.
    + destruct t as [s c p]. destruct_svc s. cbn.
      destruct st; cbn; repeat split; discriminate.
    + repeat split.
Qed.

Lemma service_completed_bool e up sys reg :
  service_completed e up sys reg = 0 \/ service_completed e up sys reg = 1.
Proof.
  induction reg as [|t r IH]; [now right|]. cbn [service_completed].
  destruct (negb (svc_is_runtask (slot_svc t))); [assumption|].
  destruct (negb (svc_enabled e (slot_svc t))); [assumption|].
  destruct (_ || _); [assumption|].
  destruct (once (slot_svc t) =? 0); [now left|assumption].
Qed.

Lemma service_completed_iff e up sys reg :
  service_completed e up sys reg = 1 <->
  Forall (fun t => awaited e up sys t = true -> once (slot_svc t) <> 0) reg.
Proof.
  induction reg as [|t r IH]; [split; [constructor|reflexivity]|].
  cbn [service_completed].
  assert (Hskip : awaited e up sys t = false ->
            (service_completed e up sys r = 1 <->
             Forall (fun t => awaited e up sys t = true -> once (slot_svc t) <> 0)
                    (t :: r))).
  { intros Hw. rewrite IH. split.
    - intros H. constructor; [rewrite Hw; discriminate|assumption].
    - intros H. now inversion H. }
  unfold awaited in Hskip.
  destruct (svc_is_runtask (slot_svc t)) eqn:Hr; cbn [negb andb] in *;
    [|now apply Hskip].
  destruct (svc_enabled e (slot_svc t)) eqn:He; cbn [negb andb] in *;
    [|now apply Hskip].
  destruct (_ || _) eqn:Hh; cbn [negb] in *; [now apply Hskip|].
  assert (Hw : awaited e up sys t = true).
  { unfold awaited. now rewrite Hr, He, Hh. }
  destruct (once (slot_svc t) =? 0) eqn:Ho.
  - apply Z.eqb_eq in Ho. split; [discriminate|].
    intros H. inversion H; subst. exfalso. now apply H2.
  - apply Z.eqb_neq in Ho. rewrite IH.
    split; [intros H; constructor; [intros _; assumption|assumption]|].
    intros H; now inversion H.
Qed.

Lemma awaited_cleaned e up sys t :
  awaited e up sys (cleaned_runtask t) = awaited e up sys t /\
  (svc_is_runtask (slot_svc t) = true -> once (slot_svc (cleaned_runtask t)) = 0).
Proof.
  destruct t as [s c p]. unfold cleaned_runtask, awaited. cbn [slot_svc].
  destruct (svc_is_runtask s) eqn:Hr.
  - destruct_svc s. unfold svc_is_runtask, in_mask in Hr. cbn in Hr.
    unfold svc_is_runtask, in_mask, svc_enabled, svc_in_runlevel, svc_is_blocked.
    destruct st; cbn; rewrite Hr; split; reflexivity.
  - cbn [slot_svc]. rewrite Hr. split; [reflexivity|discriminate].
Qed.

(** X15: service_completed() answers 0 or 1, and 1 exactly when every
    run/task that is enabled and whose condition names neither the
    svc-up nor the system-up hook has run once ([once] not 0); hence
    right after service_runtask_clean() it answers 1 only if there is no
    such run/task at all. *)
Theorem service_completed_waits e up sys reg :
  (service_completed e up sys reg = 0 \/ service_completed e up sys reg = 1) /\
  (service_completed e up sys reg = 1 <->
   Forall (fun t => awaited e up sys t = true -> once (slot_svc t) <> 0) reg) /\
  (service_completed e up sys (map cleaned_runtask reg) = 1 <->
   Forall (fun t => awaited e up sys t = false) reg).
Proof.
  split; [apply service_completed_bool|]. split; [apply service_completed_iff|].
  rewrite service_completed_iff. rewrite Forall_map.
  split; intros H; apply Forall_forall; intros t Hin;
    rewrite Forall_forall in H; specialize (H t Hin);
    destruct (awaited_cleaned e up sys t) as [Ha Ho].
  - destruct (awaited e up sys t) eqn:Hw; [|reflexivity].
    exfalso. rewrite Ha in H. apply H; [reflexivity|]. apply Ho.
    unfold awaited in Hw.
    destruct (svc_is_runtask (slot_svc t)); [reflexivity|discriminate].
  - rewrite Ha, H. discriminate.
Qed.

(** ** Reverse dependencies *)

Lemma with_svc_dirty_twice t :
  with_svc (set_dirty true) (with_svc (set_dirty true) t) = with_svc (set_dirty true) t.
Proof. destruct t as [s c p]. destruct_svc s. reflexivity. Qed.

Lemma marks_trans t1 t2 t3 : marks t1 t2 -> marks t2 t3 -> marks t1 t3.
Proof.
  intros [->| ->] [->| ->]; unfold marks; rewrite ?with_svc_dirty_twice; auto.
Qed.

Lemma marks_keeps t t' :
  marks t t' ->
  slot_cond t' = slot_cond t /\ slot_provides t' = slot_provides t /\
  svc_has_cond t' = svc_has_cond t /\
  (dirty (slot_svc t) = true -> dirty (slot_svc t') = true).
Proof.
  intros [->| ->]; destruct t as [s c p]; destruct_svc s; cbn; repeat split; auto.
Qed.

Lemma svc_mark_affected_marks aff c reg :
  Forall2 marks reg (svc_mark_affected aff c reg).
Proof.
  induction reg as [|t r IH]; [constructor|]. cbn. constructor; [|assumption].
  destruct (negb (svc_has_cond t)); [now left|].
  destruct (aff c (slot_cond t)); [now right|now left].
Qed.

Lemma Forall2_marks_refl reg : Forall2 marks reg reg.
Proof. induction reg; constructor; auto. now left. Qed.

Lemma Forall2_marks_trans r1 r2 r3 :
  Forall2 marks r1 r2 -> Forall2 marks r2 r3 -> Forall2 marks r1 r3.
Proof.
  intros H. revert r3. induction H; intros r3 H3; inversion H3; subst; constructor.
  - eapply marks_trans; eassumption.
  - now apply IHForall2.
Qed.

Lemma update_rdeps_from_marks aff todo :
  forall i reg, Forall2 marks reg (update_rdeps_from aff todo i reg).
Proof.
  induction todo as [|k IH]; intros i reg; [apply Forall2_marks_refl|].
  cbn [update_rdeps_from].
  destruct (nth_error reg i) as [t|]; [|apply Forall2_marks_refl].
  eapply Forall2_marks_trans; [|apply IH].
  destruct (negb (svc_is_changed (slot_svc t)));
    [apply Forall2_marks_refl|apply svc_mark_affected_marks].
Qed.

Lemma Forall2_nth_error {A B} (R : A -> B -> Prop) l l' :
  Forall2 R l l' ->
  forall j a, nth_error l j = Some a -> exists b, nth_error l' j = Some b /\ R a b.
Proof.
  induction 1 as [|x y l l' Hxy H IH]; intros j a Hj.
  - destruct j; discriminate.
  - destruct j as [|j]; cbn in *.
    + inversion Hj; subst. now exists y.
    + now apply IH.
Qed.

Lemma svc_mark_affected_hits aff c reg j t :
  nth_error reg j = Some t -> svc_has_cond t = true -> aff c (slot_cond t) = true ->
  nth_error (svc_mark_affected aff c reg) j = Some (with_svc (set_dirty true) t).
Proof.
  intros Hj Hc Ha. unfold svc_mark_affected.
  rewrite nth_error_map, Hj. cbn. now rewrite Hc, Ha.
Qed.

Lemma update_rdeps_from_reaches aff todo :
  forall i reg i0 j s t,
    (i <= i0 < i + todo)%nat ->
    nth_error reg i0 = Some s -> dirty (slot_svc s) = true ->
    nth_error reg j = Some t -> svc_has_cond t = true ->
    aff (slot_provides s) (slot_cond t) = true ->
    exists t', nth_error (update_rdeps_from aff todo i reg) j = Some t' /\
               dirty (slot_svc t') = true.
Proof.
  induction todo as [|k IH]; intros i reg i0 j s t Hi Hs Hd Ht Hc Ha; [lia|].
  cbn [update_rdeps_from].
  destruct (nth_error reg i) as [si|] eqn:Hsi.
  2:{ apply nth_error_None in Hsi.
      assert (Hsome : nth_error reg i0 <> None) by congruence.
      apply nth_error_Some in Hsome. lia. }
  set (reg' := if negb (svc_is_changed (slot_svc si)) then reg
               else svc_mark_affected aff (slot_provides si) reg).
  assert (Hm : Forall2 marks reg reg').
  { subst reg'. destruct (negb (svc_is_changed (slot_svc si)));
      [apply Forall2_marks_refl|apply svc_mark_affected_marks]. }
  destruct (Nat.eq_dec i i0) as [->|Hne].
  - rewrite Hs in Hsi. inversion Hsi; subst si. clear Hsi.
    assert (Hj : nth_error reg' j = Some (with_svc (set_dirty true) t)).
    { subst reg'. unfold svc_is_changed. rewrite Hd. cbn [negb].
      now apply svc_mark_affected_hits. }
    destruct (Forall2_nth_error _ _ _ (update_rdeps_from_marks aff k (S i0) reg') _ _ Hj)
      as (t' & Ht' & Hmt).
    exists t'. split; [assumption|].
    apply marks_keeps in Hmt. apply Hmt. destruct t as [x c p]. now destruct_svc x.
  - destruct (Forall2_nth_error _ _ _ Hm _ _ Hs) as (s' & Hs' & Hms).
    destruct (Forall2_nth_error _ _ _ Hm _ _ Ht) as (t' & Ht' & Hmt).
    apply marks_keeps in Hms as (_ & Hp & _ & Hds).
    apply marks_keeps in Hmt as (Hct & _ & Hht & _).
    apply (IH (S i) reg' i0 j s' t'); try assumption; try lia.
    + now apply Hds.
    + congruence.
    + congruence.
Qed.

(** X16: service_update_rdeps() changes nothing but dirty flags, and
    only sets them: every service comes out as it was or marked dirty;
    and every service with a condition that a service dirty at the time
    of the call affects comes out dirty. *)
Theorem service_update_rdeps_marks aff reg :
  Forall2 marks reg (service_update_rdeps aff reg) /\
  (forall i j s t,
     nth_error reg i = Some s -> dirty (slot_svc s) = true ->
     nth_error reg j = Some t -> svc_has_cond t = true ->
     aff (slot_provides s) (slot_cond t) = true ->
     exists t', nth_error (service_update_rdeps aff reg) j = Some t' /\
                dirty (slot_svc t') = true).
Proof.
  split; [apply update_rdeps_from_marks|].
  intros i j s t Hs Hd Ht Hc Ha.
  apply (update_rdeps_from_reaches aff (List.length reg) 0 reg i j s t);
    try assumption.
  assert (Hsome : nth_error reg i <> None) by congruence.
  apply nth_error_Some in Hsome. lia.
Qed.

Example service_update_rdeps_sample :
  map (fun t => dirty (slot_svc t)) (service_update_rdeps String.eqb sample_registry)
    = [true; true; false].
Proof. reflexivity. Qed.

(** ** Control groups *)

Lemma after_last_clean c x t : after_last c x = Some t -> mentions c t = false.
Proof.
  revert t. induction x as [|a r IH]; intros t H; [discriminate|].
  cbn in H. destruct (after_last c r) as [t'|] eqn:Hr.
  - inversion H; subst. now apply IH.
  - destruct (Ascii.eqb a c); [|discriminate]. inversion H; subst.
    clear IH H. induction t as [|b t IH]; [reflexivity|].
    cbn in Hr. destruct (after_last c t) eqn:Ht; [discriminate|].
    destruct (Ascii.eqb b c) eqn:Hb; [discriminate|]. cbn. rewrite Hb. now apply IH.
Qed.

Lemma after_last_none c x : after_last c x = None -> mentions c x = false.
Proof.
  induction x as [|a r IH]; [reflexivity|]. cbn.
  destruct (after_last c r); [discriminate|].
  destruct (Ascii.eqb a c); [discriminate|]. intros _. now apply IH.
Qed.

Lemma mentions_substring c n m x :
  mentions c x = false -> mentions c (substring n m x) = false.
Proof.
  revert n m. induction x as [|a r IH]; intros n m H.
  - destruct n, m; reflexivity.
  - cbn in H. apply orb_false_iff in H as [Ha Hr].
    destruct n as [|n]; [destruct m as [|m]|]; cbn; [reflexivity| |now apply IH].
    rewrite Ha. now apply IH.
Qed.

(** X17: for a service that comes from a file, the name group_name()
    gives its control group is a base name: it contains no slash and no
    [.conf], and it fits the buffer. *)
Theorem group_name_is_a_base_name file ident len :
  string_nonempty file = true -> (0 < len)%nat ->
  mentions "/" (group_name file ident len) = false /\
  index 0 ".conf" (group_name file ident len) = None /\
  (String.length (group_name file ident len) < len)%nat.
Proof.
  intros Hf Hlen. unfold group_name. rewrite Hf. cbn [negb].
  set (ptr := match after_last "/" file with Some t => t | None => file end).
  assert (Hp : mentions "/" ptr = false).
  { subst ptr. destruct (after_last "/" file) eqn:Ha;
      [eapply after_last_clean|apply after_last_none]; eassumption. }
  assert (Hb : mentions "/" (strlcpy ptr len) = false)
    by now apply mentions_substring.
  pose proof (substring_length 0 (len - 1) ptr) as Hl.
  fold (strlcpy ptr len) in Hl.
  destruct (index 0 ".conf" (strlcpy ptr len)) as [i|] eqn:Hi.
  - split; [now apply mentions_substring|]. split.
    + apply index_prefix_none; [discriminate|assumption].
    + pose proof (substring_length 0 i (strlcpy ptr len)).
      assert (Hle : (i + 5 <= String.length (strlcpy ptr len))%nat).
      { apply substring_full_length; [lia|].
        pose proof (index_correct1 _ _ _ _ Hi) as H1. cbn [String.length] in H1.
        now rewrite H1. }
      lia.
  - split; [assumption|]. split; [assumption|lia].
Qed.

Lemma group_name_is_a_base_name_witness :
  mentions "/" (group_name "/etc/finit.d/available/sshd.conf" "sshd" 80) = false /\
  group_name "/etc/finit.d/available/sshd.conf" "sshd" 80 = "sshd".
Proof.
  split; [|reflexivity].
  refine (proj1 (group_name_is_a_base_name "/etc/finit.d/available/sshd.conf"
                   "sshd" 80 eq_refl _)).
  lia.
Defined.

(** ** The environment file *)


Lemma skip_space_idem x : skip_space (skip_space x) = skip_space x.
Proof.
  induction x as [|c r IH]; [reflexivity|]. cbn.
  destruct (isspace c) eqn:Hc; [assumption|]. cbn. now rewrite Hc.
Qed.

Lemma rstrip_idem x : rstrip (rstrip x) = rstrip x.
Proof.
  induction x as [|c r IH]; [reflexivity|]. cbn.
  destruct (rstrip r) as [|c' r'] eqn:Hr.
  - destruct (isspace c) eqn:Hc; [reflexivity|]. cbn. now rewrite Hc.
  - cbn. cbn in IH. now rewrite IH.
Qed.

Lemma split_at_clean c x k v :
  split_at c x = Some (k, v) -> mentions c k = false /\ x = (k ++ String c v)%string.
Proof.
  revert k. induction x as [|a r IH]; intros k H; [discriminate|].
  cbn in H. destruct (Ascii.eqb a c) eqn:Ha.
  - inversion H; subst. apply Ascii.eqb_eq in Ha. subst. split; reflexivity.
  - destruct (split_at c r) as [[k' v']|]; [|discriminate].
    inversion H; subst. destruct (IH k' eq_refl) as [Hm Hx].
    cbn. rewrite Ha. split; [assumption|now rewrite Hx].
Qed.

Lemma skip_space_head x c r :
  skip_space x = String c r -> isspace c = false.
Proof.
  induction x as [|a x IH]; [discriminate|]. cbn.
  destruct (isspace a) eqn:Ha; [assumption|]. intros H. now inversion H; subst.
Qed.

Lemma rstrip_head c r : isspace c = false -> exists r', rstrip (String c r) = String c r'.
Proof.
  intros Hc. cbn. destruct (rstrip r); [rewrite Hc|]; eexists; reflexivity.
Qed.

Lemma skip_space_nonspace c r : isspace c = false -> skip_space (String c r) = String c r.
Proof. intros H. cbn. now rewrite H. Qed.


Lemma chomp_append_l a b :
  chomp b <> EmptyString -> chomp (a ++ b) = (a ++ chomp b)%string.
Proof.
  intros Hb. induction a as [|c a IH]; [reflexivity|].
  cbn. rewrite IH. destruct (a ++ chomp b)%string eqn:Hab; [|reflexivity].
  destruct a; [cbn in Hab; contradiction|discriminate].
Qed.




(** X27: whatever source_env() passes to setenv() as the name of a
    variable contains no [=], has no white space at either end and does
    not begin with [#] or [;]. *)
Theorem source_env_calls lines k v :
  In (k, v) (source_env lines) ->
  mentions "=" k = false /\ stripped k /\
  (forall c r, k = String c r -> c <> "#"%char /\ c <> ";"%char).
Proof.
  destruct lines as [ls|]; [|intros []].
  unfold source_env. rewrite in_flat_map. intros (line & _ & Hin).
  unfold env_line in Hin.
  destruct (skip_space (chomp line)) as [|c key] eqn:Hkey; [destruct Hin|].
  destruct (Ascii.eqb c "#" || Ascii.eqb c ";") eqn:Hcom; [destruct Hin|].
  pose proof (skip_space_head _ _ _ Hkey) as Hc.
  destruct (rstrip_head c key Hc) as (key' & Hk'). rewrite Hk' in Hin.
  destruct (split_at "=" (String c key')) as [[k0 v0]|] eqn:Hsp; [|destruct Hin].
  destruct Hin as [Hin|[]]. inversion Hin; subst k v. clear Hin.
  destruct (split_at_clean _ _ _ _ Hsp) as [Hm Hx].
  assert (Hk0 : k0 = EmptyString \/ exists r, k0 = String c r).
  { destruct k0 as [|a k0]; [now left|]. right. inversion Hx; subst. now exists k0. }
  split; [|split; [split|]].
  - clear - Hm. induction k0 as [|a k0 IH]; [reflexivity|].
    cbn in Hm. apply orb_false_iff in Hm as [Ha Hm]. specialize (IH Hm).
    cbn. destruct (rstrip k0) as [|b r] eqn:Hr.
    + destruct (isspace a); [reflexivity|]. cbn. now rewrite Ha.
    + cbn. rewrite Ha. assumption.
  - destruct Hk0 as [->|(r & ->)]; [reflexivity|].
    destruct (rstrip_head c r Hc) as (r' & Hr'). rewrite Hr'.
    now apply skip_space_nonspace.
  - apply rstrip_idem.
  - intros c' r' Hk. destruct Hk0 as [->|(r & ->)]; [discriminate|].
    destruct (rstrip_head c r Hc) as (r'' & Hr''). rewrite Hr'' in Hk.
    inversion Hk; subst c'.
    apply orb_false_iff in Hcom as [Hc1 Hc2].
    split; intros ->; [rewrite Ascii.eqb_refl in Hc1|rewrite Ascii.eqb_refl in Hc2];
      discriminate.
Qed.





Example source_env_sample :
  source_env (Some ["# settings" ++ String newline "";
                    "  FOO = bar baz  " ++ String newline "";
                    String newline "";
                    "OPTS=" ++ String quote_double ("-v  -d" ++ String quote_double (String newline ""));
                    "no assignment" ++ String newline ""])%string
  = [("FOO", "bar baz"); ("OPTS", "-v  -d")].
Proof. reflexivity. Qed.

Lemma source_env_calls_witness :
  mentions "=" "FOO" = false /\ stripped "FOO" /\
  (forall c r, "FOO" = String c r -> c <> "#"%char /\ c <> ";"%char).
Proof.
  refine (source_env_calls (Some ["FOO=bar" ++ String newline ""]) "FOO" "bar" _)%string.
  left. reflexivity.
Defined.


End ServiceProofs.

(** * Properties of the plugin registry and of hook dispatch *)

Module PluginProofs.
Import Plugin.

(** ** Hooks *)

Lemma call_hooks_eq no a l st :
  call_hooks no a l st = Some (tt, st, hook_calls no a l).
Proof.
  induction l as [|p r IH]; [reflexivity|].
  cbn [call_hooks hook_calls flat_map]. unfold bind. fold (hook_calls no a r).
  unfold call_hook. destruct (cb (hook p no)); cbn; rewrite IH; reflexivity.
Qed.

(** C7: plugin_run_hook() calls the callback of every registered plugin
    that has one for the hook point, in the order of the list, with the
    argument given or, when that is NULL, the plugin's own; then sets the
    hook's condition as a one-shot exactly when the condition store is
    available and the hook point lies from BASEFS_UP to SHUTDOWN; then
    steps all run/task services.  Nothing comes before the callbacks but
    the hook scripts of a build that has them, run while conditions are
    not yet available and plugins not yet loaded. *)
Theorem plugin_run_hook_order :
  forall c e no a st,
    exists pre,
      plugin_run_hook c e no a st =
        Some (tt, st,
              pre ++
              hook_calls no a (plugins st) ++
              (if cond_is_available e
                  && (HOOK_BASEFS_UP c <=? no) && (no <=? HOOK_SHUTDOWN c)
               then [EvCondSetOneshot (hook_cond c no)] else []) ++
              [EvStepAll Service.SVC_TYPE_RUNTASK]) /\
      (HAVE_HOOK_SCRIPTS_PLUGIN c = false \/ cond_is_available e = true
         \/ plugloaded st = true -> pre = []) /\
      Forall is_run_parts pre.
Proof.
  intros c e no a st. unfold plugin_run_hook.
  unfold bind at 1, get.
  set (script := HAVE_HOOK_SCRIPTS_PLUGIN c && negb (cond_is_available e)
                 && negb (plugloaded st)).
  set (avail := cond_is_available e && (HOOK_BASEFS_UP c <=? no)
                && (no <=? HOOK_SHUTDOWN c)).
  assert (Hpre : exists pre,
            when script (plugin_script_run c e no) st = Some (tt, st, pre) /\
            (script = false -> pre = []) /\ Forall is_run_parts pre).
  { destruct script; cbn [when].
    - unfold plugin_script_run.
      destruct (PLUGIN_HOOK_SCRIPTS_PATH c) as [dir|];
        [destruct (HAVE_HOOK_SCRIPTS_PLUGIN c)|].
      + eexists. split; [reflexivity|]. split; [discriminate|].
        constructor; [|constructor]. eexists. eexists. reflexivity.
      + exists []. repeat split. constructor.
      + exists []. repeat split. constructor.
    - exists []. repeat split. constructor. }
  destruct Hpre as (pre & Hrun & Hnil & Hall).
  exists pre. split; [|split].
  - unfold bind. rewrite Hrun, call_hooks_eq.
    destruct avail; cbn; rewrite ?app_nil_r; reflexivity.
  - intros H. apply Hnil. subst script.
    destruct H as [-> | [-> | ->]]; cbn;
      rewrite ?andb_false_r; reflexivity.
  - exact Hall.
Qed.

(** ** Registration *)

Lemma search_plugin_in nm q st :
  In q (plugins st) -> name q = Some nm ->
  exists q', search_plugin nm st = Some q'.
Proof.
  intros Hin Hn. unfold search_plugin.
  destruct (find (name_is nm) (plugins st)) as [q'|] eqn:Hf; [now exists q'|].
  apply (find_none _ _ Hf) in Hin. unfold name_is in Hin.
  rewrite Hn, String.eqb_refl in Hin. discriminate.
Qed.

Lemma plugin_find_found c nm q st :
  search_plugin nm st = Some q ->
  plugin_find c (Some nm) st = Some (Some q, st, []).
Proof.
  intros H. unfold plugin_find, bind, get. rewrite H. reflexivity.
Qed.

Lemma plugin_find_cases c nm st :
  (exists q, plugin_find c (Some nm) st = Some (Some q, st, [])) \/
  plugin_find c (Some nm) st = Some (None, set_errno ENOENT st, []).
Proof.
  unfold plugin_find, bind, get.
  destruct (search_plugin nm st) as [q|]; [left; now exists q|].
  destruct (plugpath st) as [pp|]; [|right; reflexivity].
  destruct (negb (starts_with_slash nm)); [|right; reflexivity].
  match goal with |- context [search_plugin ?x st] =>
    destruct (search_plugin x st) as [q|] end;
    [left; now exists q | right; reflexivity].
Qed.

Lemma plugin_register_found c e fuel p st q :
  plugin_find c (Some (registered_name c e p)) st = Some (Some q, st, []) ->
  plugin_register c e (S fuel) (Some p) st = Some (0, st, []).
Proof.
  intros Hq. cbn [plugin_register]. fold (registered_name c e p).
  unfold bind. cbn [name set_name]. rewrite Hq. reflexivity.
Qed.

(** A plugin that plugin_register() has put in the list is found under
    its trimmed name. *)
Lemma plugin_register_registers c e n p st0 rc st l :
  plugin_register c e n (Some p) st0 = Some (rc, st, l) ->
  exists q, plugin_find c (Some (registered_name c e p)) st = Some (Some q, st, []).
Proof.
  intros H. destruct n as [|n]; [discriminate|].
  cbn [plugin_register] in H. fold (registered_name c e p) in H.
  apply bind_inv in H as (found & s1 & l1 & l2 & Hf & H & _).
  cbn [name set_name] in Hf.
  destruct (plugin_find_cases c (registered_name c e p) st0) as [(q & Hq) | Hq];
    rewrite Hq in Hf; inversion Hf; subst found s1 l1; clear Hf.
  - unfold ret in H. inversion H; subst rc st l2. now exists q.
  - apply bind_inv in H as ([] & s2 & l3 & l4 & _ & H & _).
    apply bind_inv in H as (s3 & s4 & l5 & l6 & Hg & H & _).
    unfold get in Hg. inversion Hg; subst s3 s4 l5. clear Hg.
    apply bind_inv in H as ([] & s5 & l7 & l8 & Hm & H & _).
    unfold modify in Hm. inversion Hm; subst s5 l7. clear Hm.
    unfold ret in H. inversion H; subst rc st l8. clear H.
    destruct (search_plugin_in (registered_name c e p)
                (set_name (Some (registered_name c e p)) p)
                (set_plugins (plugins s2 ++ [set_name (Some (registered_name c e p)) p]) s2))
      as (q & Hq').
    + destruct s2 as [pl pp ld en]. cbn. apply in_or_app. right. now left.
    + reflexivity.
    + exists q. now apply plugin_find_found.
Qed.

(** Registration twice over: once a plugin has been registered, the
    registration of another plugin object of the same trimmed name (a
    second copy of the plugin, say) returns 0 and changes nothing. *)
Lemma plugin_register_again c e n fuel p p' st0 rc st l :
  plugin_register c e n (Some p) st0 = Some (rc, st, l) ->
  registered_name c e p' = registered_name c e p ->
  plugin_register c e (S fuel) (Some p') st = Some (0, st, []).
Proof.
  intros H Hn. destruct (plugin_register_registers _ _ _ _ _ _ _ _ H) as (q & Hq).
  apply (plugin_register_found c e fuel p' st q). now rewrite Hn.
Qed.

(** C9: registering a plugin whose trimmed name is the name of a plugin
    in the list returns 0 and leaves the state of the registry as it was:
    no entry is added, the list and its order are unchanged. *)
Theorem plugin_register_duplicate :
  forall c e fuel p st q,
    In q (plugins st) -> name q = Some (registered_name c e p) ->
    plugin_register c e (S fuel) (Some p) st = Some (0, st, []) /\
    forall rc st' l,
      plugin_register c e (S fuel) (Some p) st = Some (rc, st', l) ->
      rc = 0 /\ plugins st' = plugins st.
Proof.
  intros c e fuel p st q Hin Hn.
  destruct (search_plugin_in _ _ _ Hin Hn) as (q' & Hq').
  assert (H : plugin_register c e (S fuel) (Some p) st = Some (0, st, [])).
  { apply (plugin_register_found c e fuel p st q').
    now apply plugin_find_found. }
  split; [exact H|].
  intros rc st' l H'. rewrite H in H'. inversion H'; subst. now split.
Qed.

Lemma plugin_register_duplicate_witness :
  plugin_register static_build quiet_env 1 (Some (plugin_named "tty.so"))
    (mk_state [plugin_named "bootmisc"; plugin_named "tty"] None false 0) =
  Some (0, mk_state [plugin_named "bootmisc"; plugin_named "tty"] None false 0, []).
Proof.
  refine (proj1 (plugin_register_duplicate static_build quiet_env 0
            (plugin_named "tty.so")
            (mk_state [plugin_named "bootmisc"; plugin_named "tty"] None false 0)
            (plugin_named "tty") _ _)).
  - right. left. reflexivity.
  - reflexivity.
Defined.

(** ** Names *)

Lemma trim_ext_no_so x : index 0 ".so" (trim_ext x) = None.
Proof.
  unfold trim_ext.
  destruct (index 0 ".so" x) as [i|] eqn:Hso.
  - apply index_prefix_none; [discriminate|assumption].
  - destruct (index 0 ".c" x) as [j|] eqn:Hc; [|assumption].
    apply index_none_prefix; [discriminate|assumption].
Qed.

(** X18: what trim_ext() returns contains no [.so], is a prefix of its
    argument, and is the argument itself when that contains neither [.so]
    nor [.c]. *)
Theorem trim_ext_trims x :
  index 0 ".so" (trim_ext x) = None /\
  prefix (trim_ext x) x = true /\
  (index 0 ".so" x = None -> index 0 ".c" x = None -> trim_ext x = x).
Proof.
  split; [apply trim_ext_no_so|].
  unfold trim_ext.
  destruct (index 0 ".so" x) as [i|] eqn:Hso.
  - split; [apply prefix_substring|discriminate].
  - destruct (index 0 ".c" x) as [j|] eqn:Hc.
    + split; [apply prefix_substring|discriminate].
    + split; [apply prefix_refl|reflexivity].
Qed.

(** ** The registry only grows *)

Lemma extends_refl st : extends st st.
Proof.
  split; [|split; reflexivity]. exists []. cbn. now rewrite app_nil_r.
Qed.

Lemma extends_trans st1 st2 st3 :
  extends st1 st2 -> extends st2 st3 -> extends st1 st3.
Proof.
  intros ((a1 & H1) & Hp1 & Hl1) ((a2 & H2) & Hp2 & Hl2).
  split; [|split; congruence].
  exists (a1 ++ a2). rewrite H2, H1, map_app, app_assoc. reflexivity.
Qed.

Lemma extends_errno v st : extends st (set_errno v st).
Proof.
  destruct st. split; [|split; reflexivity].
  exists []. unfold names. cbn. now rewrite app_nil_r.
Qed.

Lemma names_set_last_handle h l :
  map name (set_last_handle h l) = map name l.
Proof.
  induction l as [|p r IH]; [reflexivity|].
  destruct r as [|q r]; [reflexivity|].
  change (set_last_handle h (p :: q :: r)) with (p :: set_last_handle h (q :: r)).
  cbn [map]. now rewrite IH.
Qed.

Lemma plugin_find_extends c nm st found st' l :
  plugin_find c nm st = Some (found, st', l) -> extends st st' /\ l = [].
Proof.
  destruct nm as [nm|].
  - destruct (plugin_find_cases c nm st) as [(q & Hq) | Hq]; rewrite Hq;
      intros H; inversion H; subst; split; auto using extends_refl, extends_errno.
  - cbn. intros H. inversion H; subst. split; auto using extends_errno.
Qed.

Section Loading.
Variable c : config.
Variable e : env.
Variable reg : plugin_t -> P Z.
Hypothesis reg_extends :
  forall q st rc st' l, reg q st = Some (rc, st', l) -> extends st st'.

Lemma run_constructors_extends l :
  forall st st' l', run_constructors reg l st = Some (tt, st', l') -> extends st st'.
Proof.
  induction l as [|p r IH]; intros st st' l' H.
  - cbn in H. inversion H; subst. apply extends_refl.
  - cbn [run_constructors] in H.
    apply bind_inv in H as (rc & s1 & l1 & l2 & Hr & H & _).
    eapply extends_trans; [eapply reg_extends; eassumption|eapply IH; eassumption].
Qed.

Lemma load_one_extends path nm st rc st' l :
  load_one c e reg path nm st = Some (rc, st', l) -> extends st st'.
Proof.
  unfold load_one. intros H.
  destruct path as [dir|], nm as [str|];
    try (cbn in H; inversion H; subst; apply extends_errno).
  destruct (negb (fisdir e dir)); [cbn in H; inversion H; subst; apply extends_errno|].
  apply bind_inv in H as ([] & s1 & l1 & l2 & He & H & _).
  unfold emit in He. inversion He; subst s1 l1. clear He.
  destruct (dlopen e _) as [[h ctors]|].
  - apply bind_inv in H as ([] & s1 & l1 & l3 & Hc & H & _).
    apply run_constructors_extends in Hc.
    apply bind_inv in H as (s2 & s3 & l4 & l5 & Hg & H & _).
    unfold get in Hg. inversion Hg; subst s2 s3 l4. clear Hg.
    destruct (plugins s1) as [|p r] eqn:Hpl.
    + cbn in H. inversion H; subst. assumption.
    + cbn in H. inversion H; subst. clear H.
      eapply extends_trans; [eassumption|].
      destruct s1 as [pl pp ld en]. cbn in Hpl. subst pl.
      split; [|split; reflexivity].
      exists []. unfold names. cbn [plugins set_plugins map app].
      rewrite app_nil_r. apply (names_set_last_handle h (p :: r)).
  - cbn in H. inversion H; subst. apply extends_refl.
Qed.

Lemma check_depends_extends n :
  forall deps st st' l,
    check_depends c e reg n deps st = Some (tt, st', l) -> extends st st'.
Proof.
  induction n as [|n IH]; intros deps st st' l H.
  - cbn in H. inversion H; subst. apply extends_refl.
  - destruct deps as [|[d|] r]; cbn [check_depends] in H;
      try (inversion H; subst; apply extends_refl).
    apply bind_inv in H as (found & s1 & l1 & l2 & Hf & H & _).
    apply plugin_find_extends in Hf as [Hf _].
    destruct found as [q|].
    + eapply extends_trans; [eassumption|eapply IH; eassumption].
    + apply bind_inv in H as (s2 & s3 & l3 & l4 & Hg & H & _).
      unfold get in Hg. inversion Hg; subst s2 s3 l3. clear Hg.
      apply bind_inv in H as (rc & s4 & l5 & l6 & Hl & H & _).
      apply load_one_extends in Hl.
      eapply extends_trans; [eassumption|].
      eapply extends_trans; [eassumption|eapply IH; eassumption].
Qed.

End Loading.

Lemma plugin_register_extends_aux c e fuel :
  forall p st rc st' l,
    plugin_register c e fuel p st = Some (rc, st', l) ->
    extends st st' /\ (p <> None -> rc = 0).
Proof.
  induction fuel as [|n IH]; intros p st rc st' l H; [discriminate|].
  cbn [plugin_register] in H.
  destruct p as [p|].
  2:{ cbn in H. inversion H; subst. split; [apply extends_errno|congruence]. }
  fold (registered_name c e p) in H.
  apply bind_inv in H as (found & s1 & l1 & l2 & Hf & H & _).
  apply plugin_find_extends in Hf as [Hf _].
  destruct found as [q|].
  - cbn in H. inversion H; subst. split; [assumption|reflexivity].
  - apply bind_inv in H as ([] & s2 & l3 & l4 & Hd & H & _).
    apply bind_inv in H as (s3 & s4 & l5 & l6 & Hg & H & _).
    unfold get in Hg. inversion Hg; subst s3 s4 l5. clear Hg.
    cbn in H. inversion H; subst. clear H.
    split; [|reflexivity].
    eapply extends_trans; [eassumption|].
    assert (Hd' : extends s1 s2).
    { destruct (ENABLE_STATIC c).
      - cbn in Hd. inversion Hd; subst. apply extends_refl.
      - unfold check_plugin_depends in Hd.
        eapply check_depends_extends; [|eassumption].
        intros q st0 rc0 st0' l0 Hq. apply (IH _ _ _ _ _ Hq). }
    eapply extends_trans; [eassumption|].
    destruct s2 as [pl pp ld en].
    split; [|split; reflexivity].
    exists [match name p with
            | Some x => x
            | None => match (if ENABLE_STATIC c then None else dladdr e p) with
                      | Some x => x | None => "unknown" end
            end].
    unfold names. cbn. rewrite map_app. reflexivity.
Qed.

(** X19: whatever plugin_register() does, with all the loading of
    dependencies that goes with it, it removes and reorders nothing: the
    names of the registry afterwards are the names before followed by
    names trim_ext() has cut, the load path and the loaded flag are
    untouched, the value returned is 0; and a registry in which every
    name is set and free of [.so] stays so. *)
Theorem plugin_register_extends c e fuel p st rc st' l :
  plugin_register c e fuel (Some p) st = Some (rc, st', l) ->
  rc = 0 /\ extends st st' /\
  (Forall trimmed (names st) -> Forall trimmed (names st')).
Proof.
  intros H. apply plugin_register_extends_aux in H as [He Hrc].
  split; [apply Hrc; discriminate|]. split; [assumption|].
  intros Hall. destruct He as ((added & Ha) & _). rewrite Ha.
  apply Forall_app. split; [assumption|].
  apply Forall_forall. intros x Hx. apply in_map_iff in Hx as (y & <- & _).
  exists (trim_ext y). split; [reflexivity|apply trim_ext_no_so].
Qed.

Lemma plugin_register_extends_witness :
  0 = 0 /\
  extends (mk_state [plugin_named "bootmisc"] None false 0)
          (mk_state [plugin_named "bootmisc"; plugin_named "tty"] None false 2) /\
  (Forall trimmed (names (mk_state [plugin_named "bootmisc"] None false 0)) ->
   Forall trimmed
     (names (mk_state [plugin_named "bootmisc"; plugin_named "tty"] None false 2))).
Proof.
  exact (plugin_register_extends static_build quiet_env 1 (plugin_named "tty.so")
           (mk_state [plugin_named "bootmisc"] None false 0) 0
           (mk_state [plugin_named "bootmisc"; plugin_named "tty"] None false 2) []
           eq_refl).
Defined.

(** ** Lookup *)




(** X21: in a static build, or for a plugin without dependencies,
    plugin_register() returns 0 after one round, leaves the registry as
    it is or appends the plugin under its trimmed name, and a registry
    without two plugins of the same name stays without. *)
Theorem plugin_register_static c e fuel p st :
  ENABLE_STATIC c = true \/ depends p = [] ->
  NoDup (names st) ->
  exists st',
    plugin_register c e (S fuel) (Some p) st = Some (0, st', []) /\
    NoDup (names st') /\
    (plugins st' = plugins st \/
     plugins st' = plugins st ++ [set_name (Some (registered_name c e p)) p]).
Proof.
  intros Hs Hnd.
  cbn [plugin_register]. fold (registered_name c e p).
  unfold bind at 1. cbn [name set_name].
  destruct (plugin_find_cases c (registered_name c e p) st) as [(q & Hq) | Hq].
  - rewrite Hq. exists st. cbn. repeat split; auto.
  - assert (Hnot : ~ In (Some (registered_name c e p)) (names st)).
    { intros Hin. apply in_map_iff in Hin as (q & Hn & Hin).
      destruct (search_plugin_in (registered_name c e p) q st Hin Hn) as (q' & Hq').
      rewrite (plugin_find_found c _ _ _ Hq') in Hq. discriminate. }
    rewrite Hq.
    assert (Hd : (if ENABLE_STATIC c then ret tt
                  else check_plugin_depends c e
                         (fun q => plugin_register c e fuel (Some q))
                         (set_name (Some (registered_name c e p)) p))
                   (set_errno ENOENT st) = Some (tt, set_errno ENOENT st, [])).
    { destruct Hs as [-> | Hd]; [reflexivity|].
      destruct (ENABLE_STATIC c); [reflexivity|].
      unfold check_plugin_depends. cbn [depends set_name]. rewrite Hd.
      destruct (PLUGIN_DEP_MAX c); reflexivity. }
    fold (registered_name c e p).
    unfold bind. rewrite Hd. cbn.
    eexists. split; [reflexivity|]. destruct st as [pl pp ld en].
    unfold names in *. cbn in *.
    split; [|right; reflexivity].
    rewrite map_app. cbn. clear Hq Hd.
    induction (map name pl) as [|a r IH]; cbn.
    + constructor; [intros []|constructor].
    + inversion Hnd; subst. constructor.
      * rewrite in_app_iff. intros [H|[H|[]]]; [contradiction|].
        apply Hnot. left. congruence.
      * apply IH; [assumption|]. intros H. apply Hnot. now right.
Qed.

Lemma plugin_register_static_witness :
  exists st',
    plugin_register static_build quiet_env 1 (Some (plugin_named "tty.so"))
      (mk_state [plugin_named "bootmisc"] None false 0) = Some (0, st', []) /\
    NoDup (names st') /\
    (plugins st' = [plugin_named "bootmisc"] \/
     plugins st' = [plugin_named "bootmisc"] ++
                   [set_name (Some (registered_name static_build quiet_env
                                      (plugin_named "tty.so")))
                      (plugin_named "tty.so")]).
Proof.
  refine (plugin_register_static static_build quiet_env 0 (plugin_named "tty.so")
            (mk_state [plugin_named "bootmisc"] None false 0) (or_introl eq_refl) _).
  repeat constructor. intros [].
Defined.

(** ** Hooks and callbacks *)

Lemma any_hook_calls no a l :
  (any_hook no l = 0 \/ any_hook no l = 1) /\
  (any_hook no l = 1 <-> exists ev, In ev (hook_calls no a l)) /\
  Forall (is_hook_call no) (hook_calls no a l).
Proof.
  induction l as [|p r (Hv & Hiff & Hall)]; cbn [any_hook hook_calls flat_map].
  - split; [now left|]. split; [|constructor].
    split; [discriminate|]. intros (ev & []).
  - fold (hook_calls no a r).
    destruct (cb (hook p no)) as [f|].
    + split; [now right|]. split.
      * split; [|reflexivity]. intros _. eexists. left. reflexivity.
      * constructor; [|assumption]. eexists. eexists. eexists. reflexivity.
    + split; [assumption|]. split; assumption.
Qed.

Lemma plugin_run_hook_trace c e no a st :
  exists pre post,
    plugin_run_hook c e no a st =
      Some (tt, st, pre ++ hook_calls no a (plugins st) ++ post) /\
    Forall (fun ev => ~ is_hook_call no ev) (pre ++ post).
Proof.
  unfold plugin_run_hook. unfold bind at 1, get.
  assert (Hpre : exists pre,
            when (HAVE_HOOK_SCRIPTS_PLUGIN c && negb (cond_is_available e)
                  && negb (plugloaded st)) (plugin_script_run c e no) st
              = Some (tt, st, pre) /\
            Forall (fun ev => ~ is_hook_call no ev) pre).
  { destruct (_ && _ && _); cbn [when].
    - unfold plugin_script_run.
      destruct (PLUGIN_HOOK_SCRIPTS_PATH c) as [dir|];
        [destruct (HAVE_HOOK_SCRIPTS_PLUGIN c)|];
        try (exists []; split; [reflexivity|constructor]).
      eexists. split; [reflexivity|].
      constructor; [|constructor]. intros (pl & f & x & H). discriminate H.
    - exists []. split; [reflexivity|constructor]. }
  destruct Hpre as (pre & Hrun & Hall).
  exists pre. unfold bind. rewrite Hrun, call_hooks_eq.
  destruct (cond_is_available e && (HOOK_BASEFS_UP c <=? no) && (no <=? HOOK_SHUTDOWN c));
    cbn; eexists; (split; [reflexivity|]);
    apply Forall_app; (split; [assumption|]);
    repeat constructor; intros (pl & f & x & H); discriminate H.
Qed.

(** X22: plugin_exists() answers 0 or 1 and changes nothing, and it
    answers 1 exactly when plugin_run_hook() at that hook point calls a
    callback of some plugin. *)
Theorem plugin_exists_iff_hook_called c e no a st :
  exists rc,
    plugin_exists no st = Some (rc, st, []) /\
    (rc = 0 \/ rc = 1) /\
    (rc = 1 <->
     exists l ev, plugin_run_hook c e no a st = Some (tt, st, l) /\
                  In ev l /\ is_hook_call no ev).
Proof.
  exists (any_hook no (plugins st)).
  destruct (any_hook_calls no a (plugins st)) as (Hv & Hiff & Hall).
  destruct (plugin_run_hook_trace c e no a st) as (pre & post & Hrun & Hno).
  split; [reflexivity|]. split; [assumption|].
  rewrite Hiff. split.
  - intros (ev & Hin). exists (pre ++ hook_calls no a (plugins st) ++ post), ev.
    split; [assumption|]. split.
    + rewrite !in_app_iff. auto.
    + rewrite Forall_forall in Hall. now apply Hall.
  - intros (l & ev & Hl & Hin & Hev). rewrite Hrun in Hl. inversion Hl; subst l.
    rewrite !in_app_iff in Hin. rewrite Forall_forall in Hno.
    destruct Hin as [Hin|[Hin|Hin]].
    + exfalso. apply (Hno ev); [rewrite in_app_iff; auto|assumption].
    + now exists ev.
    + exfalso. apply (Hno ev); [rewrite in_app_iff; auto|assumption].
Qed.

Example plugin_exists_sample :
  plugin_exists 3 (mk_state [plugin_named "bootmisc"; plugin_hooked "tty" "tty_cb"]
                     None false 0) =
  Some (1, mk_state [plugin_named "bootmisc"; plugin_hooked "tty" "tty_cb"]
             None false 0, []).
Proof. reflexivity. Qed.

(** ** Loading *)

Lemma last_set_last_handle h l p :
  l <> [] -> handle (last (set_last_handle h l) p) = Some h.
Proof.
  induction l as [|q r IH]; [contradiction|]. intros _.
  destruct r as [|q' r]; [reflexivity|].
  change (set_last_handle h (q :: q' :: r)) with (q :: set_last_handle h (q' :: r)).
  remember (set_last_handle h (q' :: r)) as t eqn:Ht.
  destruct t as [|x y].
  - destruct r; discriminate Ht.
  - change (last (q :: x :: y) p) with (last (x :: y) p).
    apply IH. discriminate.
Qed.

(** X23: load_one() returns 0 or 1.  It returns 0 only when the
    directory exists and dlopen() of the composed file name succeeded and
    the registry is not empty afterwards, and then the handle is recorded
    in the last plugin of the list, whichever object registered it.
    Without a path, a name or a directory it returns 1 with errno EINVAL
    and opens nothing. *)
Theorem load_one_result c e reg path nm st rc st' l :
  load_one c e reg path nm st = Some (rc, st', l) ->
  (rc = 0 \/ rc = 1) /\
  (rc = 0 ->
   exists dir str h ctors,
     path = Some dir /\ nm = Some str /\ fisdir e dir = true /\
     dlopen e (sofile c dir str) = Some (h, ctors) /\
     plugins st' <> [] /\
     forall d, handle (last (plugins st') d) = Some h) /\
  (path = None \/ nm = None \/ (exists dir, path = Some dir /\ fisdir e dir = false) ->
   rc = 1 /\ st' = set_errno EINVAL st /\ l = []).
Proof.
  unfold load_one. intros H.
  destruct path as [dir|], nm as [str|];
    try (cbn in H; inversion H; subst; split; [now right|];
         split; [discriminate|]; intros _; repeat split).
  destruct (fisdir e dir) eqn:Hdir; cbn [negb] in H.
  2:{ cbn in H; inversion H; subst; split; [now right|].
      split; [discriminate|]. intros _; repeat split. }
  fold (sofile c dir str) in H.
  apply bind_inv in H as ([] & s1 & l1 & l2 & He & H & ->).
  unfold emit in He. inversion He; subst s1 l1. clear He.
  assert (Hguard : Some dir = None \/ Some str = None \/
                   (exists dir0, Some dir = Some dir0 /\ fisdir e dir0 = false) -> False).
  { intros [Hx|[Hx|(d & Hx & Hy)]]; try discriminate.
    inversion Hx; subst. congruence. }
  destruct (dlopen e (sofile c dir str)) as [[h ctors]|] eqn:Hdl.
  - apply bind_inv in H as ([] & s1 & l1 & l3 & Hc & H & ->).
    apply bind_inv in H as (s2 & s3 & l4 & l5 & Hg & H & ->).
    unfold get in Hg. inversion Hg; subst s2 s3 l4. clear Hg.
    destruct (plugins s1) as [|p r] eqn:Hpl.
    + cbn in H. inversion H; subst. split; [now right|].
      split; [discriminate|]. intros Hx. destruct (Hguard Hx).
    + cbn in H. inversion H; subst. clear H. split; [now left|].
      split; [|intros Hx; destruct (Hguard Hx)].
      intros _. exists dir, str, h, ctors.
      destruct s1 as [pl pp ld en]. cbn in Hpl. subst pl.
      repeat split; try assumption.
      * cbn. destruct r; discriminate.
      * intros d. apply (last_set_last_handle h (p :: r) d). discriminate.
  - cbn in H. inversion H; subst. split; [now right|].
    split; [discriminate|]. intros Hx. destruct (Hguard Hx).
Qed.

Lemma load_one_result_witness :
  (1 = 0 \/ 1 = 1) /\
  set_errno EINVAL (mk_state [] None false 0) = mk_state [] None false EINVAL.
Proof.
  split.
  - exact (proj1 (load_one_result dynamic_build quiet_env (fun _ => ret 0)
                    None (Some "tty") (mk_state [] None false 0) 1
                    (mk_state [] None false EINVAL) [] eq_refl)).
  - reflexivity.
Defined.

(** X24: check_plugin_depends() stops at the first NULL entry of
    [depends]: what is listed after it is neither looked up nor loaded. *)
Theorem check_depends_stops_at_null c e reg n :
  forall pre post st,
    check_depends c e reg n (pre ++ None :: post) st = check_depends c e reg n pre st.
Proof.
  induction n as [|n IH]; intros pre post st; [reflexivity|].
  destruct pre as [|[d|] pre]; cbn [app check_depends]; try reflexivity.
  apply bind_ext. intros [q|] s1; [apply IH|].
  apply bind_ext. intros s2 s3. apply bind_ext. intros rc s4. apply IH.
Qed.

(** ** Listing *)

Lemma strlcat_bound dst src size :
  (String.length dst < size)%nat -> (String.length (strlcat dst src size) < size)%nat.
Proof.
  intros H. unfold strlcat.
  destruct (String.length dst <? size)%nat eqn:Hl; [|assumption].
  rewrite append_length.
  pose proof (substring_length 0 (size - 1 - String.length dst) src). lia.
Qed.

Lemma strlcat_fits dst src size :
  (String.length dst + String.length src < size)%nat ->
  strlcat dst src size = (dst ++ src)%string.
Proof.
  intros H. unfold strlcat.
  destruct (String.length dst <? size)%nat eqn:Hl.
  - rewrite substring_beyond by lia. reflexivity.
  - apply Nat.ltb_ge in Hl. lia.
Qed.

Lemma list_names_bound len l :
  Forall (fun p => name p <> None) l ->
  forall buf, (String.length buf < len)%nat ->
  exists out, list_names len buf l = Some out /\ (String.length out < len)%nat.
Proof.
  induction 1 as [|p r Hp Hr IH]; intros buf Hb; cbn [list_names].
  - now exists buf.
  - destruct (name p) as [n|]; [|contradiction].
    apply IH. apply strlcat_bound.
    destruct (Service.string_nonempty buf); [now apply strlcat_bound|assumption].
Qed.

Lemma concat_cons_length sep x xs :
  (String.length x <= String.length (String.concat sep (x :: xs)))%nat.
Proof.
  destruct xs; cbn [String.concat]; rewrite ?append_length; lia.
Qed.

Lemma list_names_fits len l :
  Forall (fun p => exists n, name p = Some n /\ Service.string_nonempty n = true) l ->
  forall buf,
    Service.string_nonempty buf = true ->
    (String.length (buf ++ " " ++ String.concat " " (name_strings l)) < len)%nat ->
    list_names len buf l =
      Some (match l with
            | [] => buf
            | _ => buf ++ " " ++ String.concat " " (name_strings l)
            end)%string.
Proof.
  induction 1 as [|p r (n & Hn & Hne) Hr IH]; intros buf Hb Hl; [reflexivity|].
  cbn [list_names name_strings] in *. rewrite Hn in *. rewrite Hb.
  assert (Hcat : (String.length buf + 1 + String.length n <=
                  String.length (buf ++ " " ++ String.concat " " (n :: name_strings r)))%nat).
  { rewrite !append_length. pose proof (concat_cons_length " " n (name_strings r)).
    cbn [String.length]. lia. }
  rewrite (strlcat_fits buf " " len) by (cbn [String.length]; lia).
  rewrite strlcat_fits by (rewrite append_length; cbn [String.length]; lia).
  destruct r as [|q r].
  - cbn [list_names name_strings String.concat]. now rewrite append_assoc.
  - rewrite IH.
    + f_equal. cbn [name_strings] in *. inversion Hr as [|? ? (m & Hm & _) _]; subst.
      rewrite Hm. cbn [String.concat]. rewrite !append_assoc. reflexivity.
    + destruct buf; [discriminate|reflexivity].
    + revert Hl. cbn [name_strings]. inversion Hr as [|? ? (m & Hm & _) _]; subst.
      rewrite Hm. cbn [String.concat]. rewrite !append_assoc. auto.
Qed.

(** X25: in a build with loadable plugins and a registry without NULL
    names, plugin_list() returns 0 and never writes beyond the buffer:
    what it leaves there is shorter than [len]; and when no name is empty
    and the names joined by single blanks fit, that is what the buffer
    holds, in the order of registration. *)
Theorem plugin_list_fills_buffer c len st :
  ENABLE_STATIC c = false -> (0 < len)%nat ->
  Forall (fun p => name p <> None) (plugins st) ->
  exists buf,
    plugin_list c len st = Some ((0, buf), st, []) /\
    (String.length buf < len)%nat /\
    (Forall (fun p => exists n, name p = Some n /\ Service.string_nonempty n = true)
            (plugins st) ->
     (String.length (String.concat " " (name_strings (plugins st))) < len)%nat ->
     buf = String.concat " " (name_strings (plugins st))).
Proof.
  intros Hs Hlen Hall. unfold plugin_list. rewrite Hs. unfold bind at 1, get.
  destruct (list_names_bound len (plugins st) Hall "" Hlen) as (out & Ho & Hb).
  rewrite Ho. exists out. split; [reflexivity|]. split; [assumption|].
  intros Hne Hfit. destruct (plugins st) as [|p r]; cbn in Ho.
  - now inversion Ho.
  - inversion Hne as [|? ? (n & Hn & Hnn) Hr]; subst. rewrite Hn in Ho.
    cbn [name_strings] in *. rewrite Hn in *.
    assert (Hnl : (String.length n <=
                   String.length (String.concat " " (n :: name_strings r)))%nat)
      by apply concat_cons_length.
    rewrite (strlcat_fits "" n len) in Ho by (cbn [String.length]; lia).
    cbn [append] in Ho.
    destruct r as [|q r].
    + cbn in Ho. now inversion Ho.
    + rewrite (list_names_fits len (q :: r) Hr n Hnn) in Ho.
      * inversion Ho. cbn [name_strings]. inversion Hr as [|? ? (m & Hm & _) _]; subst.
        rewrite Hm. reflexivity.
      * revert Hfit. cbn [name_strings]. inversion Hr as [|? ? (m & Hm & _) _]; subst.
        rewrite Hm. cbn [String.concat]. auto.
Qed.

Lemma plugin_list_fills_buffer_witness :
  exists buf,
    plugin_list dynamic_build 8
      (mk_state [plugin_named "bootmisc"; plugin_named "tty"] None false 0) =
    Some ((0, buf), mk_state [plugin_named "bootmisc"; plugin_named "tty"] None false 0,
          []) /\
    (String.length buf < 8)%nat.
Proof.
  destruct (plugin_list_fills_buffer dynamic_build 8
              (mk_state [plugin_named "bootmisc"; plugin_named "tty"] None false 0)
              eq_refl ltac:(lia)
              ltac:(repeat constructor; discriminate)) as (buf & H & Hl & _).
  exists buf. split; assumption.
Defined.

Example plugin_list_truncates :
  plugin_list dynamic_build 8
    (mk_state [plugin_named "bootmisc"; plugin_named "tty"] None false 0) =
  Some ((0, "bootmis"),
        mk_state [plugin_named "bootmisc"; plugin_named "tty"] None false 0, []).
Proof. reflexivity. Qed.

(** ** Registration and lookup *)



(** ** Loading a directory *)

Lemma load_entries_visible c e reg path entries :
  forall fail st,
    load_entries c e reg path entries fail st =
    load_entries c e reg path (visible entries) fail st.
Proof.
  induction entries as [|d r IH]; intros fail st; [reflexivity|].
  cbn [load_entries visible filter]. fold (visible r).
  destruct (starts_with_dot d) eqn:Hd; cbn [negb]; [apply IH|].
  cbn [load_entries]. rewrite Hd. apply bind_ext. intros rc s1. apply IH.
Qed.

Lemma load_entries_count c e fuel path entries :
  forall fail st rc st' l,
    0 <= fail -> fail + Z.of_nat (List.length (visible entries)) < 2 ^ 31 ->
    plugpath st = Some path ->
    load_entries c e (fun q => plugin_register c e fuel (Some q)) path entries fail st
      = Some (rc, st', l) ->
    fail <= rc <= fail + Z.of_nat (List.length (visible entries)) /\
    plugpath st' = Some path.
Proof.
  induction entries as [|d r IH]; intros fail st rc st' l Hf Hb Hp H.
  - cbn in H. inversion H; subst. cbn. split; [lia|assumption].
  - cbn [load_entries visible filter] in *. fold (visible r) in *.
    destruct (starts_with_dot d) eqn:Hd; cbn [negb] in *.
    + eapply (IH fail st); eassumption.
    + cbn [List.length] in Hb.
      apply bind_inv in H as (rc1 & s1 & l1 & l2 & Hl & H & _).
      assert (He : extends st s1).
      { eapply load_one_extends; [|eassumption].
        intros q st0 rc0 st0' l0 Hq.
        apply (plugin_register_extends_aux _ _ _ _ _ _ _ _ Hq). }
      destruct He as (_ & Hpp & _).
      rewrite Nat2Z.inj_succ in *.
      assert (Hinc : int_incr fail = fail + 1).
      { unfold int_incr. apply ServiceProofs.wrap_signed_small; lia. }
      apply IH in H; try congruence.
      * destruct H as [Hr Hp']. split; [|assumption].
        cbn [List.length]. rewrite Nat2Z.inj_succ.
        destruct (rc1 =? 0); rewrite ?Hinc in Hr; lia.
      * destruct (rc1 =? 0); rewrite ?Hinc; lia.
      * destruct (rc1 =? 0); rewrite ?Hinc; lia.
Qed.

(** X29: load_plugins() of a directory that does not exist returns 0
    and says nothing; of a directory it can open it skips every entry
    whose name begins with a dot, as if the entry were not there; and
    when it returns, the load path is the directory and the value
    returned lies between 0 and the number of entries it looked at. *)
Theorem load_plugins_skips_hidden c e fuel opendir path st :
  let reg := fun q => plugin_register c e fuel (Some q) in
  (opendir path = inr ENOENT ->
   load_plugins c e reg opendir path st = Some (0, set_errno ENOENT st, [])) /\
  (forall entries,
     opendir path = inl entries ->
     load_plugins c e reg opendir path st =
       load_plugins c e reg (fun _ => inl (visible entries)) path st) /\
  (forall entries rc st' l,
     opendir path = inl entries ->
     Z.of_nat (List.length (visible entries)) < 2 ^ 31 ->
     load_plugins c e reg opendir path st = Some (rc, st', l) ->
     0 <= rc <= Z.of_nat (List.length (visible entries)) /\
     plugpath st' = Some path).
Proof.
  intros reg. split; [|split].
  - intros H. unfold load_plugins. rewrite H. reflexivity.
  - intros entries H. unfold load_plugins. rewrite H.
    apply bind_ext. intros [] s1. apply load_entries_visible.
  - intros entries rc st' l H Hb Hl. unfold load_plugins in Hl. rewrite H in Hl.
    apply bind_inv in Hl as ([] & s1 & l1 & l2 & Hm & Hl & _).
    unfold modify in Hm. inversion Hm; subst s1 l1. clear Hm.
    apply (load_entries_count c e fuel path entries 0
             (set_plugpath (Some path) st) rc st' l2); try assumption.
    + lia.
    + destruct st; reflexivity.
Qed.

Example load_plugins_sample :
  load_plugins dynamic_build plugin_dir_env
    (fun q => plugin_register dynamic_build plugin_dir_env 2 (Some q))
    (fun _ => inl ["."; ".."; "tty"; ".hidden.so"; "bad.so"]) "/lib/finit/plugins"
    (mk_state [] None false 0) =
  Some (1,
        mk_state [mk_plugin (Some "tty") no_hooks [] (Some 7)]
          (Some "/lib/finit/plugins") false ENOENT,
        [EvDlopen "/lib/finit/plugins/tty.so";
         EvDlopen "/lib/finit/plugins/bad.so";
         EvWarn "Failed loading plugin %s: %s"]).
Proof. reflexivity. Qed.

End PluginProofs.
